(** * WalmartAnalyzer: threshold rule engines, shared alert log, dashboard sampler

    A shallow embedding of the alert pipeline of the repository:
    - [generate_alert_id] and [log_alert], repeated verbatim in every engine
      ([weather_engine.py], [ecommerce_engine.py], ...);
    - the per-row rule blocks of the e-commerce, supplier, inventory,
      logistics and local-news engines;
    - [process_alerts] and the summary counts of [app.py].

    Modelling conventions.
    - A pandas cell is a [cell]: missing ([NaN]), a finite number ([Num q],
      an exact rational standing for the float64 value, or for a string that
      Python reads as that number), or any other string ([Text s]).
      IEEE infinities are outside the model.
    - The alert log (a DataFrame with the five columns alert_id, alert_title,
      category, severity, timestamp) is a [list AlertRecord], in row order.
    - [uuid.uuid4()] and [pd.Timestamp.now()] are read from an environment
      [env]: the k-th call of a run returns [uuid4 E k] and [now E k]; the
      run state counts the calls made so far.
    - A Python exception is the [Raise] case of [result].
    - An f-string is kept as the list of its [piece]s, digits unrendered;
      [Upper s] and [Titled s] stand for [s.upper()] and [s.title()].
    - A date column read through [pd.to_datetime(..., errors='coerce')] is an
      [option Z]: nanoseconds since the epoch, or [None] for NaT.  The
      reading of [pd.Timestamp.now()] taken once at the start of a run is
      [current_time E]. *)

From Stdlib Require Import ZArith QArith Qabs String Ascii List Bool Lia.
From Stdlib.Strings Require Import Byte.
From stdpp Require Import list strings.
Import ListNotations.

Local Open Scope string_scope.
Local Open Scope list_scope.

(** ** Values *)

Inductive cell : Type :=
| NaN
| Num (q : Q)
| Text (s : string).

Inductive exn : Type :=
| ValueError
| NameError.

Inductive result (A : Type) : Type :=
| Ok (a : A)
| Raise (e : exn).
Arguments Ok {A} a.
Arguments Raise {A} e.

(** [pd.notna(x)], [pd.isna(x)] *)
Definition notna (c : cell) : bool :=
  match c with NaN => false | _ => true end.
Definition isna (c : cell) : bool := negb (notna c).

(** A string that is no number. *)
Definition is_text (c : cell) : bool :=
  match c with Text _ => true | _ => false end.

(** [pd.to_numeric(x, errors='coerce')]: a number, or NaN ([None]) for
    anything that is not one. *)
Definition to_numeric (c : cell) : option Q :=
  match c with Num q => Some q | _ => None end.

(** [float(x)] for a cell that has passed [pd.notna]: the number, or
    ValueError for a string that is no number.  (No call site reaches the
    missing case.) *)
Definition float_ (c : cell) : result Q :=
  match c with
  | Num q => Ok q
  | Text _ => Raise ValueError
  | NaN => Raise ValueError
  end.

(** Python comparisons on numbers. *)
Definition num_lt (x y : Q) : bool := negb (Qle_bool y x).
Definition num_le (x y : Q) : bool := Qle_bool x y.
Definition num_gt (x y : Q) : bool := num_lt y x.
Definition num_ge (x y : Q) : bool := num_le y x.
Definition num_eq (x y : Q) : bool := Qeq_bool x y.

(** [int(x)]: truncation toward zero. *)
Definition int_ (q : Q) : Z := Z.quot (Qnum q) (Zpos (Qden q)).

(** [int(x)] for a value returned by [pd.to_numeric]: NaN cannot be
    converted. *)
Definition int_num (x : option Q) : result Z :=
  match x with
  | Some q => Ok (int_ q)
  | None => Raise ValueError
  end.

(** ** Strings: [str.lower], [kw in s], [any(kw in s for kw in kws)] *)

Definition lower_ascii (c : ascii) : ascii :=
  let n := nat_of_ascii c in
  if (65 <=? n)%nat && (n <=? 90)%nat then ascii_of_nat (n + 32) else c.

Fixpoint lower (s : string) : string :=
  match s with
  | EmptyString => EmptyString
  | String c t => String (lower_ascii c) (lower t)
  end.

Fixpoint contains (kw s : string) : bool :=
  String.prefix kw s ||
  match s with
  | EmptyString => false
  | String _ t => contains kw t
  end.

Definition any_in (kws : list string) (s : string) : bool :=
  existsb (fun kw => contains kw s) kws.

(** [x in xs] for a list of strings. *)
Definition in_list (x : string) (xs : list string) : bool :=
  existsb (String.eqb x) xs.

(** [str(x).lower()] for a text column: a missing value prints as nan. *)
Definition str_lower (c : option string) : string :=
  match c with
  | Some s => lower s
  | None => "nan"
  end.

(** ** Alert records *)

Inductive piece : Type :=
| Lit (s : string)
| Val (c : cell)
| Str (s : string)
| Int (z : Z)
| Fmt (spec : string) (q : Q)
| Upper (s : string)
| Titled (s : string).

Definition title : Type := list piece.

Record AlertRecord : Type := mkAlert {
  alert_id : string;
  alert_title : title;
  category : string;
  severity : string;
  timestamp : Z
}.

(** Does a literal part of the title contain [kw]? *)
Definition mentions (kw : string) (t : title) : bool :=
  existsb (fun p => match p with Lit s => contains kw s | _ => false end) t.

(** ** generate_alert_id *)

Definition b64_alphabet : list ascii :=
  list_ascii_of_string
    "ABCDEFGHIJKLMNOPQRSTUVWXYZabcdefghijklmnopqrstuvwxyz0123456789-_".

Definition b64_char (n : Z) : ascii :=
  nth (Z.to_nat n) b64_alphabet "A"%char.

Definition byte_val (b : byte) : Z := Z.of_N (Byte.to_N b).

Definition pad : ascii := "="%char.

(** [base64.urlsafe_b64encode]: three bytes give four characters; a last
    group of one or two bytes is padded with '='. *)
Fixpoint urlsafe_b64encode (bs : list byte) : list ascii :=
  match bs with
  | [] => []
  | [a] =>
      let a := byte_val a in
      [b64_char (Z.shiftr a 2); b64_char (Z.shiftl (Z.land a 3) 4); pad; pad]
  | [a; b] =>
      let a := byte_val a in
      let b := byte_val b in
      [b64_char (Z.shiftr a 2);
       b64_char (Z.lor (Z.shiftl (Z.land a 3) 4) (Z.shiftr b 4));
       b64_char (Z.shiftl (Z.land b 15) 2); pad]
  | a :: b :: c :: rest =>
      let a := byte_val a in
      let b := byte_val b in
      let c := byte_val c in
      b64_char (Z.shiftr a 2)
      :: b64_char (Z.lor (Z.shiftl (Z.land a 3) 4) (Z.shiftr b 4))
      :: b64_char (Z.lor (Z.shiftl (Z.land b 15) 2) (Z.shiftr c 6))
      :: b64_char (Z.land c 63)
      :: urlsafe_b64encode rest
  end.

(** [s.rstrip(c)]: drop the trailing run of [c]. *)
Fixpoint rstrip (c : ascii) (l : list ascii) : list ascii :=
  match l with
  | [] => []
  | x :: t =>
      match rstrip c t with
      | [] => if Ascii.eqb x c then [] else [x]
      | t' => x :: t'
      end
  end.

(** The body of [generate_alert_id], given the bytes of the UUID drawn. *)
Definition generate_alert_id (full_uuid_bytes : list byte) : string :=
  string_of_list_ascii (rstrip pad (urlsafe_b64encode full_uuid_bytes)).

(** ** The environment and log_alert *)

Record env : Type := mkEnv {
  uuid4 : nat -> list byte;
  now : nat -> Z;
  current_time : Z
}.

(** [df.empty] *)
Definition is_empty {A : Type} (df : list A) : bool :=
  match df with [] => true | _ => false end.

(** [log_alert(alerts_df, alert_title, category, severity)] at the k-th draw:
    returns the new frame and the new ID. *)
Definition log_alert (E : env) (k : nat) (alerts_df : list AlertRecord)
    (alert_title : title) (category severity : string)
  : list AlertRecord * string :=
  let alert_id := generate_alert_id (uuid4 E k) in
  let new_alert :=
    [mkAlert alert_id alert_title category severity (now E k)] in
  let alerts_df :=
    if is_empty alerts_df then new_alert else alerts_df ++ new_alert in
  (alerts_df, alert_id).

(** ** The state of a run and the monad of a row body

    [alerts_df], [alerts_generated_count] and [current_alerts_for_row] are
    the variables of the same names in every engine; [draws] counts the
    calls of [log_alert] made so far in the run. *)

Record run_state : Type := mkState {
  alerts_df : list AlertRecord;
  alerts_generated_count : nat;
  draws : nat;
  current_alerts_for_row : list string
}.

Definition M (A : Type) : Type := run_state -> result (A * run_state).

Definition ret {A : Type} (a : A) : M A := fun st => Ok (a, st).

Definition bind {A B : Type} (m : M A) (k : A -> M B) : M B :=
  fun st =>
    match m st with
    | Ok (a, st') => k a st'
    | Raise e => Raise e
    end.

Definition raise {A : Type} (e : exn) : M A := fun _ => Raise e.

Definition lift {A : Type} (r : result A) : M A :=
  fun st => match r with Ok a => Ok (a, st) | Raise e => Raise e end.

Declare Scope engine_scope.
Delimit Scope engine_scope with engine.
Notation "'let*' x ':=' c 'in' k" := (bind c (fun x => k))
  (at level 10, x name, c at level 100, k at level 200) : engine_scope.
Notation "c >>> k" := (bind c (fun _ => k))
  (at level 90, right associativity) : engine_scope.
Local Open Scope engine_scope.

(** The three statements that follow every rule that fires:
      alerts_df, new_alert_id = log_alert(alerts_df, alert_title, category, severity)
      current_alerts_for_row.append(new_alert_id)
      alerts_generated_count += 1 *)
Definition fire_pure (E : env) (alert_title : title) (category severity : string)
    (st : run_state) : run_state :=
  let '(df, new_alert_id) :=
    log_alert E (draws st) (alerts_df st) alert_title category severity in
  {| alerts_df := df;
     alerts_generated_count := alerts_generated_count st + 1;
     draws := S (draws st);
     current_alerts_for_row := current_alerts_for_row st ++ [new_alert_id] |}.

Definition fire (E : env) (alert_title : title) (category severity : string)
  : M unit :=
  fun st => Ok (tt, fire_pure E alert_title category severity st).

(** [current_alerts_for_row = []] at the top of a row. *)
Definition start_row : M unit :=
  fun st =>
    Ok (tt, {| alerts_df := alerts_df st;
               alerts_generated_count := alerts_generated_count st;
               draws := draws st;
               current_alerts_for_row := [] |}).

(** [",".join(ids)] *)
Definition join (ids : list string) : string := String.concat "," ids.

(** The value written to the row's alert_id at the end of a row:
      if current_alerts_for_row: df.loc[index, 'alert_id'] = ",".join(...)
      else:                      df.loc[index, 'alert_id'] = None *)
Definition link : M (option string) :=
  fun st =>
    Ok (match current_alerts_for_row st with
        | [] => None
        | ids => Some (join ids)
        end, st).

(** An alert request: what a rule passes to [log_alert]. *)
Definition request : Type := (title * string * string)%type.

(** Firing a list of requests in order. *)
Fixpoint fire_all (E : env) (rs : list request) (st : run_state) : run_state :=
  match rs with
  | [] => st
  | (t, c, s) :: rs' => fire_all E rs' (fire_pure E t c s st)
  end.

(** The records and IDs that [fire_all] appends when started at draw [k]. *)
Fixpoint records_from (E : env) (k : nat) (rs : list request) : list AlertRecord :=
  match rs with
  | [] => []
  | (t, c, s) :: rs' =>
      mkAlert (generate_alert_id (uuid4 E k)) t c s (now E k)
      :: records_from E (S k) rs'
  end.

Definition ids_from (E : env) (k : nat) (rs : list request) : list string :=
  map alert_id (records_from E k rs).

(** [for index, row in df.iterrows(): ...], the body returning the row as
    it is left in the frame. *)
Fixpoint iterrows {R : Type} (body : R -> M R) (df : list R) : M (list R) :=
  match df with
  | [] => ret []
  | row :: rest =>
      let* row' := body row in
      let* rest' := iterrows body rest in
      ret (row' :: rest')
  end.

(** A run: the engine starts with the loaded log, no alert generated and no
    draw made, and returns the two frames. *)
Definition run_engine {R : Type} (body : R -> M R) (df : list R)
    (alerts_df : list AlertRecord) : result (list R * list AlertRecord) :=
  match iterrows body df (mkState alerts_df 0 0 []) with
  | Ok (df', mkState updated_alerts_df _ _ _) => Ok (df', updated_alerts_df)
  | Raise e => Raise e
  end.

(** [pd.notna(x)] for a value returned by [pd.to_numeric]. *)
Definition notna_num (x : option Q) : bool :=
  match x with Some _ => true | None => false end.

(** [x == 'None'] for a cell. *)
Definition cell_is (c : cell) (s : string) : bool :=
  match c with Text t => String.eqb t s | _ => false end.

(** * ecommerce_engine.py *)

Module Ecommerce.

Definition CONVERSION_CRITICAL_THRESHOLD : Q := 0.008.
Definition CONVERSION_MEDIUM_THRESHOLD : Q := 0.012.
Definition CONVERSION_LOW_THRESHOLD : Q := 0.018.

Definition CART_ABANDONMENT_CRITICAL_THRESHOLD : Q := 0.65.
Definition CART_ABANDONMENT_MEDIUM_THRESHOLD : Q := 0.60.
Definition CART_ABANDONMENT_LOW_THRESHOLD : Q := 0.55.

Definition VIEWS_CRITICAL_DROP_THRESHOLD : Q := 300.
Definition VIEWS_MEDIUM_DROP_THRESHOLD : Q := 600.
Definition VIEWS_LOW_DROP_THRESHOLD : Q := 900.

Definition ADD_TO_CART_CRITICAL_DROP_THRESHOLD : Q := 15.
Definition ADD_TO_CART_MEDIUM_DROP_THRESHOLD : Q := 40.
Definition ADD_TO_CART_LOW_DROP_THRESHOLD : Q := 80.

Definition HIGH_INTEREST_VIEWS_THRESHOLD : Q := 1000.

Record row : Type := mkRow {
  product_sku : cell;
  region_id : cell;
  conversion_rate : cell;
  cart_abandonment_rate : cell;
  online_views : cell;
  add_to_cart : cell;
  search_term : option string;
  promotional_campaign_id : cell;
  row_alert_id : option string
}.

Definition set_alert_id (r : row) (a : option string) : row :=
  mkRow (product_sku r) (region_id r) (conversion_rate r)
    (cart_abandonment_rate r) (online_views r) (add_to_cart r)
    (search_term r) (promotional_campaign_id r) a.

(** f"SKU: {product_sku}, Region: {region_id}" *)
Definition location_info (r : row) : title :=
  [Lit "SKU: "; Val (product_sku r); Lit ", Region: "; Val (region_id r)].

Section Rules.
Variable E : env.
Variable r : row.

(** Rule 1: Conversion Rate Anomalies *)
Definition rule_conversion_rate : M unit :=
  if notna (conversion_rate r) then
    let* conversion_rate := lift (float_ (conversion_rate r)) in
    if num_lt conversion_rate CONVERSION_CRITICAL_THRESHOLD then
      fire E ([Lit "Critical Conversion Rate for "] ++ location_info r
              ++ [Lit " ("; Fmt ".2%" conversion_rate; Lit ")"])
        "E-commerce" "Critical"
    else if num_lt conversion_rate CONVERSION_MEDIUM_THRESHOLD then
      fire E ([Lit "Medium Conversion Rate for "] ++ location_info r
              ++ [Lit " ("; Fmt ".2%" conversion_rate; Lit ")"])
        "E-commerce" "Medium"
    else if num_lt conversion_rate CONVERSION_LOW_THRESHOLD then
      fire E ([Lit "Low Conversion Rate for "] ++ location_info r
              ++ [Lit " ("; Fmt ".2%" conversion_rate; Lit ")"])
        "E-commerce" "Low"
    else ret tt
  else ret tt.

(** Rule 2: Cart Abandonment Rate Anomalies *)
Definition rule_cart_abandonment : M unit :=
  if notna (cart_abandonment_rate r) then
    let* cart_abandonment_rate := lift (float_ (cart_abandonment_rate r)) in
    if num_gt cart_abandonment_rate CART_ABANDONMENT_CRITICAL_THRESHOLD then
      fire E ([Lit "Critical Cart Abandonment for "] ++ location_info r
              ++ [Lit " ("; Fmt ".2%" cart_abandonment_rate; Lit ")"])
        "E-commerce" "Critical"
    else if num_gt cart_abandonment_rate CART_ABANDONMENT_MEDIUM_THRESHOLD then
      fire E ([Lit "Medium Cart Abandonment for "] ++ location_info r
              ++ [Lit " ("; Fmt ".2%" cart_abandonment_rate; Lit ")"])
        "E-commerce" "Medium"
    else if num_gt cart_abandonment_rate CART_ABANDONMENT_LOW_THRESHOLD then
      fire E ([Lit "Low Cart Abandonment for "] ++ location_info r
              ++ [Lit " ("; Fmt ".2%" cart_abandonment_rate; Lit ")"])
        "E-commerce" "Low"
    else ret tt
  else ret tt.

(** Rule 3: Significant Drop in Online Views *)
Definition rule_online_views : M unit :=
  if notna (online_views r) then
    let* online_views := lift (float_ (online_views r)) in
    if num_lt online_views VIEWS_CRITICAL_DROP_THRESHOLD then
      fire E ([Lit "Critical Drop in Online Views for "] ++ location_info r
              ++ [Lit " ("; Int (int_ online_views); Lit " views)"])
        "E-commerce" "Critical"
    else if num_lt online_views VIEWS_MEDIUM_DROP_THRESHOLD then
      fire E ([Lit "Medium Drop in Online Views for "] ++ location_info r
              ++ [Lit " ("; Int (int_ online_views); Lit " views)"])
        "E-commerce" "Medium"
    else if num_lt online_views VIEWS_LOW_DROP_THRESHOLD then
      fire E ([Lit "Low Drop in Online Views for "] ++ location_info r
              ++ [Lit " ("; Int (int_ online_views); Lit " views)"])
        "E-commerce" "Low"
    else ret tt
  else ret tt.

(** Rule 4: Significant Drop in Add to Cart *)
Definition rule_add_to_cart : M unit :=
  if notna (add_to_cart r) then
    let* add_to_cart := lift (float_ (add_to_cart r)) in
    if num_lt add_to_cart ADD_TO_CART_CRITICAL_DROP_THRESHOLD then
      fire E ([Lit "Critical Drop in Add to Cart for "] ++ location_info r
              ++ [Lit " ("; Int (int_ add_to_cart); Lit " adds)"])
        "E-commerce" "Critical"
    else if num_lt add_to_cart ADD_TO_CART_MEDIUM_DROP_THRESHOLD then
      fire E ([Lit "Medium Drop in Add to Cart for "] ++ location_info r
              ++ [Lit " ("; Int (int_ add_to_cart); Lit " adds)"])
        "E-commerce" "Medium"
    else if num_lt add_to_cart ADD_TO_CART_LOW_DROP_THRESHOLD then
      fire E ([Lit "Low Drop in Add to Cart for "] ++ location_info r
              ++ [Lit " ("; Int (int_ add_to_cart); Lit " adds)"])
        "E-commerce" "Low"
    else ret tt
  else ret tt.

(** Rule 5: High Interest Product with No Active Promotion.  The [and]
    chain evaluates [float(row['online_views'])] only when the keyword test
    and [pd.notna] have passed. *)
Definition rule_high_interest : M unit :=
  let search_term := str_lower (search_term r) in
  let promotional_campaign_id := promotional_campaign_id r in
  if contains "deal" search_term || contains "best" search_term
     || contains "discount" search_term then
    if notna (online_views r) then
      let* views := lift (float_ (online_views r)) in
      if num_gt views HIGH_INTEREST_VIEWS_THRESHOLD
         && (isna promotional_campaign_id
             || cell_is promotional_campaign_id "None") then
        fire E [Lit "High Interest ("; Str search_term; Lit ") for ";
                Val (product_sku r); Lit " in "; Val (region_id r);
                Lit " but No Active Promotion"]
          "E-commerce" "Low"
      else ret tt
    else ret tt
  else ret tt.

Definition process_row : M row :=
  start_row >>>
  rule_conversion_rate >>>
  rule_cart_abandonment >>>
  rule_online_views >>>
  rule_add_to_cart >>>
  rule_high_interest >>>
  let* a := link in
  ret (set_alert_id r a).

End Rules.

Definition ecommerce_rule_engine (E : env) (ecommerce_df : list row)
    (alerts_df : list AlertRecord) : result (list row * list AlertRecord) :=
  run_engine (process_row E) ecommerce_df alerts_df.

(** The phrases by which the titles of each rule block are recognised. *)
Definition sig_conversion : list string := ["Conversion Rate for"].
Definition sig_cart : list string := ["Cart Abandonment for"].
Definition sig_views : list string := ["Online Views for"].
Definition sig_add_to_cart : list string := ["Add to Cart for"].
Definition sig_interest : list string := ["High Interest ("].
Definition signals : list (list string) :=
  [sig_conversion; sig_cart; sig_views; sig_add_to_cart; sig_interest].

(** A row with a string that is no number in one of the four columns that
    the engine passes to [float]. *)
Definition has_text (r : row) : bool :=
  is_text (conversion_rate r) || is_text (cart_abandonment_rate r)
  || is_text (online_views r) || is_text (add_to_cart r).

(** A row with a Critical conversion rate and a Critical view count. *)
Definition two_alert_example : row :=
  mkRow (Text "SKU-2") (Text "South") (Num 0.005) NaN (Num 100) NaN None NaN
    None.

(** A row whose view count is text that is no number. *)
Definition text_example : row :=
  mkRow (Text "SKU-3") (Text "East") (Num 0.005) NaN (Text "unknown") NaN
    None NaN None.

(** A row whose conversion_rate is 0.010 and whose other monitored columns
    are missing. *)
Definition conversion_example : row :=
  mkRow (Text "SKU-1") (Text "North") (Num 0.010) NaN NaN NaN None NaN None.

End Ecommerce.

(** * supplier_engine.py *)

Module Supplier.

Definition OTD_CRITICAL_THRESHOLD : Q := 0.85.
Definition OTD_MEDIUM_THRESHOLD : Q := 0.90.
Definition OTD_LOW_THRESHOLD : Q := 0.95.

Definition DEFECT_CRITICAL_THRESHOLD : Q := 3.0.
Definition DEFECT_MEDIUM_THRESHOLD : Q := 2.0.
Definition DEFECT_LOW_THRESHOLD : Q := 1.0.

Definition QUALITY_CRITICAL_THRESHOLD : Q := 7.0.
Definition QUALITY_MEDIUM_THRESHOLD : Q := 8.0.
Definition QUALITY_LOW_THRESHOLD : Q := 8.5.

Definition LEAD_TIME_CRITICAL_THRESHOLD : Q := 14.
Definition LEAD_TIME_MEDIUM_THRESHOLD : Q := 10.
Definition LEAD_TIME_LOW_THRESHOLD : Q := 7.

Record row : Type := mkRow {
  supplier_id : cell;
  product_sku : cell;
  on_time_delivery_rate : cell;
  quality_score : cell;
  defect_rate_percent : cell;
  lead_time_days : cell;
  row_alert_id : option string
}.

Definition set_alert_id (r : row) (a : option string) : row :=
  mkRow (supplier_id r) (product_sku r) (on_time_delivery_rate r)
    (quality_score r) (defect_rate_percent r) (lead_time_days r) a.

(** f"Supplier: {supplier_id}, SKU: {product_sku}" *)
Definition context_info (r : row) : title :=
  [Lit "Supplier: "; Val (supplier_id r); Lit ", SKU: "; Val (product_sku r)].

Section Rules.
Variable E : env.
Variable r : row.

(** Rule 1: Poor On-Time Delivery Rate *)
Definition rule_otd : M unit :=
  match to_numeric (on_time_delivery_rate r) with
  | Some on_time_delivery_rate =>
      if num_lt on_time_delivery_rate OTD_CRITICAL_THRESHOLD then
        fire E ([Lit "CRITICAL Supplier OTD: "] ++ context_info r
                ++ [Lit " ("; Fmt ".2%" on_time_delivery_rate; Lit " OTD)"])
          "Supplier Performance" "Critical"
      else if num_lt on_time_delivery_rate OTD_MEDIUM_THRESHOLD then
        fire E ([Lit "MEDIUM Supplier OTD: "] ++ context_info r
                ++ [Lit " ("; Fmt ".2%" on_time_delivery_rate; Lit " OTD)"])
          "Supplier Performance" "Medium"
      else if num_lt on_time_delivery_rate OTD_LOW_THRESHOLD then
        fire E ([Lit "LOW Supplier OTD: "] ++ context_info r
                ++ [Lit " ("; Fmt ".2%" on_time_delivery_rate; Lit " OTD)"])
          "Supplier Performance" "Low"
      else ret tt
  | None => ret tt
  end.

(** Rule 2: High Defect Rate *)
Definition rule_defect_rate : M unit :=
  match to_numeric (defect_rate_percent r) with
  | Some defect_rate_percent =>
      if num_ge defect_rate_percent DEFECT_CRITICAL_THRESHOLD then
        fire E ([Lit "CRITICAL Supplier Defect Rate: "] ++ context_info r
                ++ [Lit " ("; Fmt ".1f" defect_rate_percent; Lit "% Defect Rate)"])
          "Supplier Performance" "Critical"
      else if num_ge defect_rate_percent DEFECT_MEDIUM_THRESHOLD then
        fire E ([Lit "MEDIUM Supplier Defect Rate: "] ++ context_info r
                ++ [Lit " ("; Fmt ".1f" defect_rate_percent; Lit "% Defect Rate)"])
          "Supplier Performance" "Medium"
      else if num_ge defect_rate_percent DEFECT_LOW_THRESHOLD then
        fire E ([Lit "LOW Supplier Defect Rate: "] ++ context_info r
                ++ [Lit " ("; Fmt ".1f" defect_rate_percent; Lit "% Defect Rate)"])
          "Supplier Performance" "Low"
      else ret tt
  | None => ret tt
  end.

(** Rule 3: Low Quality Score *)
Definition rule_quality_score : M unit :=
  match to_numeric (quality_score r) with
  | Some quality_score =>
      if num_lt quality_score QUALITY_CRITICAL_THRESHOLD then
        fire E ([Lit "CRITICAL Supplier Quality Score: "] ++ context_info r
                ++ [Lit " (Score: "; Fmt ".1f" quality_score; Lit ")"])
          "Supplier Performance" "Critical"
      else if num_lt quality_score QUALITY_MEDIUM_THRESHOLD then
        fire E ([Lit "MEDIUM Supplier Quality Score: "] ++ context_info r
                ++ [Lit " (Score: "; Fmt ".1f" quality_score; Lit ")"])
          "Supplier Performance" "Medium"
      else if num_lt quality_score QUALITY_LOW_THRESHOLD then
        fire E ([Lit "LOW Supplier Quality Score: "] ++ context_info r
                ++ [Lit " (Score: "; Fmt ".1f" quality_score; Lit ")"])
          "Supplier Performance" "Low"
      else ret tt
  | None => ret tt
  end.

(** Rule 4: Excessive Lead Time *)
Definition rule_lead_time : M unit :=
  match to_numeric (lead_time_days r) with
  | Some lead_time_days =>
      if num_ge lead_time_days LEAD_TIME_CRITICAL_THRESHOLD then
        fire E ([Lit "CRITICAL Supplier Lead Time: "] ++ context_info r
                ++ [Lit " ("; Int (int_ lead_time_days); Lit " days)"])
          "Supplier Performance" "Critical"
      else if num_ge lead_time_days LEAD_TIME_MEDIUM_THRESHOLD then
        fire E ([Lit "MEDIUM Supplier Lead Time: "] ++ context_info r
                ++ [Lit " ("; Int (int_ lead_time_days); Lit " days)"])
          "Supplier Performance" "Medium"
      else if num_ge lead_time_days LEAD_TIME_LOW_THRESHOLD then
        fire E ([Lit "LOW Supplier Lead Time: "] ++ context_info r
                ++ [Lit " ("; Int (int_ lead_time_days); Lit " days)"])
          "Supplier Performance" "Low"
      else ret tt
  | None => ret tt
  end.

Definition process_row : M row :=
  start_row >>>
  rule_otd >>>
  rule_defect_rate >>>
  rule_quality_score >>>
  rule_lead_time >>>
  let* a := link in
  ret (set_alert_id r a).

End Rules.

Definition supplier_rule_engine (E : env) (supplier_df : list row)
    (alerts_df : list AlertRecord) : result (list row * list AlertRecord) :=
  run_engine (process_row E) supplier_df alerts_df.

(** The phrases by which the titles of each rule block are recognised. *)
Definition sig_otd : list string := ["Supplier OTD:"].
Definition sig_defect : list string := ["Supplier Defect Rate:"].
Definition sig_quality : list string := ["Supplier Quality Score:"].
Definition sig_lead_time : list string := ["Supplier Lead Time:"].
Definition signals : list (list string) :=
  [sig_otd; sig_defect; sig_quality; sig_lead_time].

(** A scorecard with no delivery rate, text for the quality score, and a
    defect rate and a lead time in their Medium bands. *)
Definition missing_example : row :=
  mkRow (Text "Supplier_C") (Text "AF-PRO-2025") NaN (Text "n/a") (Num 2.0)
    (Num 10) None.

End Supplier.

(** * inventory_engine.py *)

Module Inventory.

Definition STOCKOUT_CRITICAL_THRESHOLD_FACTOR : Q := 0.2.
Definition STOCKOUT_MEDIUM_THRESHOLD_FACTOR : Q := 0.5.
Definition STOCKOUT_LOW_THRESHOLD_FACTOR : Q := 1.0.

Definition OVERSTOCK_CRITICAL_CAPACITY_FACTOR : Q := 1.05.
Definition OVERSTOCK_MEDIUM_CAPACITY_FACTOR : Q := 0.95.
Definition OVERSTOCK_LOW_CAPACITY_FACTOR : Q := 0.85.

Definition OVERSTOCK_CRITICAL_DOS : Q := 90.
Definition OVERSTOCK_MEDIUM_DOS : Q := 60.
Definition OVERSTOCK_LOW_DOS : Q := 30.

Definition DISCREPANCY_CRITICAL_ABS : Q := 10.
Definition DISCREPANCY_MEDIUM_ABS : Q := 5.
Definition DISCREPANCY_LOW_ABS : Q := 1.

Definition SLOW_MOVING_MEDIUM_SALES_FACTOR : Q := 0.25.
Definition SLOW_MOVING_LOW_SALES_FACTOR : Q := 0.5.

Definition HIGH_SALES_CRITICAL_FACTOR : Q := 2.0.
Definition HIGH_SALES_MEDIUM_FACTOR : Q := 1.5.
Definition HIGH_SALES_LOW_FACTOR : Q := 1.2.

Record row : Type := mkRow {
  location_id : cell;
  product_sku : cell;
  current_stock : cell;
  in_transit_in : cell;
  daily_sales_avg : cell;
  last_24h_sales : cell;
  safety_stock_units : cell;
  reorder_point_units : cell;
  storage_capacity_units : cell;
  on_hand_units : cell;
  available_for_sale_units : cell;
  row_alert_id : option string
}.

Definition set_alert_id (r : row) (a : option string) : row :=
  mkRow (location_id r) (product_sku r) (current_stock r) (in_transit_in r)
    (daily_sales_avg r) (last_24h_sales r) (safety_stock_units r)
    (reorder_point_units r) (storage_capacity_units r) (on_hand_units r)
    (available_for_sale_units r) a.

(** f"SKU: {product_sku}, Location: {location_id}" *)
Definition context_info (r : row) : title :=
  [Lit "SKU: "; Val (product_sku r); Lit ", Location: "; Val (location_id r)].

(** current_stock + in_transit_in if pd.notna(current_stock) and
    pd.notna(in_transit_in) else current_stock *)
Definition effective_stock_of (current_stock in_transit_in : option Q)
  : option Q :=
  match current_stock, in_transit_in with
  | Some c, Some i => Some (c + i)%Q
  | _, _ => current_stock
  end.

Section Rules.
Variable E : env.
Variable r : row.

Let current_stock := to_numeric (current_stock r).
Let in_transit_in := to_numeric (in_transit_in r).
Let daily_sales_avg := to_numeric (daily_sales_avg r).
Let last_24h_sales := to_numeric (last_24h_sales r).
Let safety_stock_units := to_numeric (safety_stock_units r).
Let reorder_point_units := to_numeric (reorder_point_units r).
Let storage_capacity_units := to_numeric (storage_capacity_units r).
Let on_hand_units := to_numeric (on_hand_units r).
Let available_for_sale_units := to_numeric (available_for_sale_units r).

(** Rule 1: Stockout Risk *)
Definition rule_stockout : M unit :=
  let effective_stock := effective_stock_of current_stock in_transit_in in
  match effective_stock, safety_stock_units, reorder_point_units with
  | Some effective_stock, Some safety_stock_units, Some reorder_point_units =>
      if num_le effective_stock 0 then
        let* stock := lift (int_num current_stock) in
        fire E ([Lit "Critical Stockout for "] ++ context_info r
                ++ [Lit " (Stock: "; Int stock; Lit ")"])
          "Inventory" "Critical"
      else if num_lt effective_stock
                (safety_stock_units * STOCKOUT_CRITICAL_THRESHOLD_FACTOR) then
        fire E ([Lit "Critical Stock Risk for "] ++ context_info r
                ++ [Lit " (Stock: "; Int (int_ effective_stock); Lit " < ";
                    Int (int_ (safety_stock_units
                               * STOCKOUT_CRITICAL_THRESHOLD_FACTOR));
                    Lit " of Safety Stock)"])
          "Inventory" "Critical"
      else if num_lt effective_stock
                (safety_stock_units * STOCKOUT_MEDIUM_THRESHOLD_FACTOR) then
        fire E ([Lit "Medium Stock Risk for "] ++ context_info r
                ++ [Lit " (Stock: "; Int (int_ effective_stock); Lit " < ";
                    Int (int_ (safety_stock_units
                               * STOCKOUT_MEDIUM_THRESHOLD_FACTOR));
                    Lit " of Safety Stock)"])
          "Inventory" "Medium"
      else if num_lt effective_stock
                (safety_stock_units * STOCKOUT_LOW_THRESHOLD_FACTOR) then
        fire E ([Lit "Low Stock Risk for "] ++ context_info r
                ++ [Lit " (Stock: "; Int (int_ effective_stock);
                    Lit " < Safety Stock)"])
          "Inventory" "Low"
      else if num_lt effective_stock reorder_point_units then
        fire E ([Lit "Reorder Point Reached for "] ++ context_info r
                ++ [Lit " (Stock: "; Int (int_ effective_stock); Lit ")"])
          "Inventory" "Low"
      else ret tt
  | _, _, _ => ret tt
  end.

(** Rule 2: Overstock Risk *)
Definition rule_overstock : M unit :=
  match current_stock, storage_capacity_units, daily_sales_avg with
  | Some current_stock, Some storage_capacity_units, Some daily_sales_avg =>
      if num_gt daily_sales_avg 0 then
        let days_of_supply := (current_stock / daily_sales_avg)%Q in
        let tail :=
          [Lit " (Stock: "; Int (int_ current_stock); Lit ", Capacity: ";
           Int (int_ storage_capacity_units); Lit ", DoS: ";
           Fmt ".1f" days_of_supply; Lit ")"] in
        if num_gt current_stock
             (storage_capacity_units * OVERSTOCK_CRITICAL_CAPACITY_FACTOR)
           || num_gt days_of_supply OVERSTOCK_CRITICAL_DOS then
          fire E ([Lit "Critical Overstock for "] ++ context_info r ++ tail)
            "Inventory" "Critical"
        else if num_gt current_stock
                  (storage_capacity_units * OVERSTOCK_MEDIUM_CAPACITY_FACTOR)
                || num_gt days_of_supply OVERSTOCK_MEDIUM_DOS then
          fire E ([Lit "Medium Overstock for "] ++ context_info r ++ tail)
            "Inventory" "Medium"
        else if num_gt current_stock
                  (storage_capacity_units * OVERSTOCK_LOW_CAPACITY_FACTOR)
                || num_gt days_of_supply OVERSTOCK_LOW_DOS then
          fire E ([Lit "Low Overstock for "] ++ context_info r ++ tail)
            "Inventory" "Low"
        else ret tt
      else ret tt
  | _, _, _ => ret tt
  end.

(** Rule 3: Inventory Discrepancy *)
Definition rule_discrepancy : M unit :=
  match on_hand_units, available_for_sale_units with
  | Some on_hand_units, Some available_for_sale_units =>
      let discrepancy := Qabs (on_hand_units - available_for_sale_units) in
      if num_ge discrepancy DISCREPANCY_CRITICAL_ABS then
        fire E ([Lit "Critical Inventory Discrepancy for "] ++ context_info r
                ++ [Lit " (Diff: "; Int (int_ discrepancy); Lit ")"])
          "Inventory" "Critical"
      else if num_ge discrepancy DISCREPANCY_MEDIUM_ABS then
        fire E ([Lit "Medium Inventory Discrepancy for "] ++ context_info r
                ++ [Lit " (Diff: "; Int (int_ discrepancy); Lit ")"])
          "Inventory" "Medium"
      else if num_ge discrepancy DISCREPANCY_LOW_ABS then
        fire E ([Lit "Low Inventory Discrepancy for "] ++ context_info r
                ++ [Lit " (Diff: "; Int (int_ discrepancy); Lit ")"])
          "Inventory" "Low"
      else ret tt
  | _, _ => ret tt
  end.

(** Rule 4: Sales Velocity Anomalies (Slow-Moving) *)
Definition rule_slow_moving : M unit :=
  match last_24h_sales, daily_sales_avg, current_stock, reorder_point_units with
  | Some last_24h_sales, Some daily_sales_avg, Some current_stock,
    Some reorder_point_units =>
      if num_gt daily_sales_avg 0 then
        if num_eq last_24h_sales 0 && num_gt current_stock reorder_point_units
        then
          fire E ([Lit "Critical Slow-Moving Inventory for "] ++ context_info r
                  ++ [Lit " (0 Sales, High Stock)"])
            "Inventory" "Critical"
        else if num_lt last_24h_sales
                  (daily_sales_avg * SLOW_MOVING_MEDIUM_SALES_FACTOR) then
          fire E ([Lit "Medium Slow-Moving Inventory for "] ++ context_info r
                  ++ [Lit " ("; Int (int_ last_24h_sales); Lit " sales vs ";
                      Int (int_ daily_sales_avg); Lit " avg)"])
            "Inventory" "Medium"
        else if num_lt last_24h_sales
                  (daily_sales_avg * SLOW_MOVING_LOW_SALES_FACTOR) then
          fire E ([Lit "Low Slow-Moving Inventory for "] ++ context_info r
                  ++ [Lit " ("; Int (int_ last_24h_sales); Lit " sales vs ";
                      Int (int_ daily_sales_avg); Lit " avg)"])
            "Inventory" "Low"
        else ret tt
      else ret tt
  | _, _, _, _ => ret tt
  end.

(** Rule 5: Sales Velocity Anomalies (High Sales / Fast Depletion) *)
Definition rule_high_sales : M unit :=
  match last_24h_sales, daily_sales_avg, current_stock with
  | Some last_24h_sales, Some daily_sales_avg, Some current_stock =>
      if num_gt daily_sales_avg 0 then
        let tail :=
          [Lit " (Sales: "; Int (int_ last_24h_sales); Lit "x avg, Stock: ";
           Int (int_ current_stock); Lit ")"] in
        if num_gt last_24h_sales (daily_sales_avg * HIGH_SALES_CRITICAL_FACTOR)
           && num_lt current_stock (daily_sales_avg * 2) then
          fire E ([Lit "Critical High Sales Velocity for "] ++ context_info r
                  ++ tail)
            "Inventory" "Critical"
        else if num_gt last_24h_sales
                  (daily_sales_avg * HIGH_SALES_MEDIUM_FACTOR)
                && num_lt current_stock (daily_sales_avg * 3) then
          fire E ([Lit "Medium High Sales Velocity for "] ++ context_info r
                  ++ tail)
            "Inventory" "Medium"
        else if num_gt last_24h_sales
                  (daily_sales_avg * HIGH_SALES_LOW_FACTOR)
                && num_lt current_stock (daily_sales_avg * 4) then
          fire E ([Lit "Low High Sales Velocity for "] ++ context_info r
                  ++ tail)
            "Inventory" "Low"
        else ret tt
      else ret tt
  | _, _, _ => ret tt
  end.

Definition process_row : M row :=
  start_row >>>
  rule_stockout >>>
  rule_overstock >>>
  rule_discrepancy >>>
  rule_slow_moving >>>
  rule_high_sales >>>
  let* a := link in
  ret (set_alert_id r a).

End Rules.

Definition inventory_rule_engine (E : env) (inventory_df : list row)
    (alerts_df : list AlertRecord) : result (list row * list AlertRecord) :=
  run_engine (process_row E) inventory_df alerts_df.

(** The phrases by which the titles of each rule block are recognised. *)
Definition sig_stockout : list string :=
  ["Stockout for"; "Stock Risk for"; "Reorder Point Reached for"].
Definition sig_overstock : list string := ["Overstock for"].
Definition sig_discrepancy : list string := ["Inventory Discrepancy for"].
Definition sig_slow_moving : list string := ["Slow-Moving Inventory for"].
Definition sig_high_sales : list string := ["High Sales Velocity for"].
Definition signals : list (list string) :=
  [sig_stockout; sig_overstock; sig_discrepancy; sig_slow_moving;
   sig_high_sales].

(** A snapshot below its safety stock (30 of 50) whose on-hand count is 15
    units off the count available for sale; no sales figures. *)
Definition two_alert_example : row :=
  mkRow (Text "Store_A1") (Text "AF-PRO-2025") (Num 30) (Num 0) NaN NaN
    (Num 50) (Num 60) NaN (Num 30) (Num 15) None.

(** A snapshot with comfortable stock and matching counts. *)
Definition quiet_example : row :=
  mkRow (Text "Store_A2") (Text "AF-PRO-2025") (Num 100) (Num 0) NaN NaN
    (Num 50) (Num 60) NaN (Num 100) (Num 100) (Some "stale").

End Inventory.

(** [(a - b).total_seconds() / 3600] for two timestamps. *)
Definition hours_between (a b : Z) : Q :=
  (inject_Z (a - b) / 1000000000 / 3600)%Q.

(** [s if s else d] for a string. *)
Definition or_default (s d : string) : string :=
  match s with EmptyString => d | _ => s end.

(** [df.loc[index, 'alert_id'] = ",".join(current_alerts_for_row)] *)
Definition link_join : M (option string) :=
  fun st => Ok (Some (join (current_alerts_for_row st)), st).

(** * logistics_engine.py *)

Module Logistics.

Definition CRITICAL_DELAY_HOURS : Q := 48.
Definition MEDIUM_DELAY_HOURS : Q := 24.
Definition MINOR_DELAY_HOURS : Q := 6.

Definition HIGH_QUANTITY_THRESHOLD : Q := 500.
Definition MEDIUM_QUANTITY_THRESHOLD : Q := 100.

Definition CRITICAL_SHIPMENT_STATUSES : list string :=
  ["delayed"; "damaged"; "lost"; "stuck_in_customs"; "return_to_origin";
   "exception"].

Record row : Type := mkRow {
  ShipmentID : cell;
  OrderID : cell;
  ProductID : cell;
  Quantity : cell;
  Status : option string;
  DelayReason : option string;
  OriginLocation : cell;
  DestinationLocation : cell;
  CarrierID : cell;
  ScheduledArrivalTime : option Z;
  ActualArrivalTime : option Z;
  EstimatedTimeOfArrival : option Z;
  ScheduledDepartureTime : option Z;
  ActualDepartureTime : option Z;
  row_alert_id : option string
}.

Definition set_alert_id (r : row) (a : option string) : row :=
  mkRow (ShipmentID r) (OrderID r) (ProductID r) (Quantity r) (Status r)
    (DelayReason r) (OriginLocation r) (DestinationLocation r) (CarrierID r)
    (ScheduledArrivalTime r) (ActualArrivalTime r) (EstimatedTimeOfArrival r)
    (ScheduledDepartureTime r) (ActualDepartureTime r) a.

Section Rules.
Variable E : env.
Variable r : row.

Let shipment_id := ShipmentID r.
Let quantity := to_numeric (Quantity r).
Let status := str_lower (Status r).
Let delay_reason := str_lower (DelayReason r).
Let scheduled_arrival := ScheduledArrivalTime r.
Let actual_arrival := ActualArrivalTime r.
Let estimated_arrival := EstimatedTimeOfArrival r.
Let scheduled_departure := ScheduledDepartureTime r.
Let actual_departure := ActualDepartureTime r.

Definition context_info : title :=
  [Lit "Shipment: "; Val shipment_id; Lit ", Order: "; Val (OrderID r);
   Lit ", Product: "; Val (ProductID r); Lit " (";
   match quantity with Some q => Fmt "" q | None => Lit "N/A" end;
   Lit " units), From: "; Val (OriginLocation r); Lit " to: ";
   Val (DestinationLocation r); Lit ", Carrier: "; Val (CarrierID r)].

(** f"Reason: {delay_reason if delay_reason else 'Not specified'}. {context_info}" *)
Definition description_suffix : title :=
  [Lit "Reason: "; Str (or_default delay_reason "Not specified"); Lit ". "]
  ++ context_info.

(** Rule 1: Critical Shipment Statuses, up to the call of [log_alert]. *)
Definition rule_critical_status : M unit :=
  let severity := "Critical" in
  let alert_title :=
    [Lit "CRITICAL LOGISTICS ALERT: Shipment "; Val shipment_id;
     Lit " Status: "; Upper status; Lit "."] in
  let alert_title :=
    match quantity with
    | Some q =>
        if num_ge q HIGH_QUANTITY_THRESHOLD then
          alert_title ++ [Lit " High impact due to "; Int (int_ q);
                          Lit " units."]
        else alert_title
    | None => alert_title
    end in
  fire E (alert_title ++ [Lit " "] ++ description_suffix)
    "Logistics/Supply Chain" severity.

(** The delay in hours computed under [if status == 'delayed':]. *)
Definition arrival_delay : Q :=
  match actual_arrival, scheduled_arrival, estimated_arrival with
  | Some aa, Some sa, _ =>
      if (aa >? sa)%Z then hours_between aa sa else 0
  | None, Some sa, Some ea =>
      if (ea >? sa)%Z then hours_between ea sa
      else if (current_time E >? sa)%Z then hours_between (current_time E) sa
      else 0
  | None, Some sa, None =>
      if (current_time E >? sa)%Z then hours_between (current_time E) sa
      else 0
  | _, None, _ => 0
  end.

Definition delay_hours_of : Q :=
  let delay_hours := arrival_delay in
  match actual_departure, scheduled_departure with
  | Some ad, Some sd =>
      if (ad >? sd)%Z then
        let departure_delay := hours_between ad sd in
        if num_gt departure_delay delay_hours then departure_delay
        else delay_hours
      else delay_hours
  | _, _ => delay_hours
  end.

(** The severity of a delay: the band, then the escalation on quantity. *)
Definition delay_severity (delay_hours : Q) : string :=
  let severity :=
    if num_ge delay_hours CRITICAL_DELAY_HOURS then "Critical"
    else if num_ge delay_hours MEDIUM_DELAY_HOURS then "Medium"
    else if num_ge delay_hours MINOR_DELAY_HOURS then "Low"
    else "Low" in
  match quantity with
  | Some q =>
      if num_ge q HIGH_QUANTITY_THRESHOLD
         && negb (String.eqb severity "Critical") then
        if String.eqb severity "Medium" then "Critical"
        else if String.eqb severity "Low" then "Medium"
        else severity
      else if num_ge q MEDIUM_QUANTITY_THRESHOLD
              && String.eqb severity "Low" then "Medium"
      else severity
  | None => severity
  end.

(** Rule 2: Shipment Delays *)
Definition rule_delay : M unit :=
  let is_delayed := String.eqb status "delayed" in
  let delay_hours := if is_delayed then delay_hours_of else 0%Q in
  if is_delayed && num_gt delay_hours 0 then
    let severity := delay_severity delay_hours in
    fire E ([Str severity; Lit " Delay: Shipment "; Val shipment_id;
             Lit " delayed by ~"; Int (int_ delay_hours); Lit " hours.";
             Lit " "] ++ description_suffix)
      "Logistics/Supply Chain" severity
  else ret tt.

(** Rule 3: On-time or early arrival *)
Definition rule_on_time : M unit :=
  if String.eqb status "delivered" then
    match actual_arrival, scheduled_arrival with
    | Some aa, Some sa =>
        if (aa <=? sa)%Z then
          let early_or_on_time_hours := hours_between sa aa in
          let alert_title :=
            if num_gt early_or_on_time_hours 0 then
              [Lit "Positive Logistics: Shipment "; Val shipment_id;
               Lit " arrived "; Int (int_ early_or_on_time_hours);
               Lit " hours early."]
            else
              [Lit "Positive Logistics: Shipment "; Val shipment_id;
               Lit " arrived on time."] in
          fire E (alert_title ++ [Lit ". "] ++ context_info)
            "Logistics/Supply Chain" "Info"
        else ret tt
    | _, _ => ret tt
    end
  else ret tt.

Definition process_row : M row :=
  start_row >>>
  if in_list status CRITICAL_SHIPMENT_STATUSES then
    rule_critical_status >>>
    let* a := link_join in
    ret (set_alert_id r a)
  else
    rule_delay >>>
    rule_on_time >>>
    let* a := link in
    ret (set_alert_id r a).

End Rules.

Definition logistics_rule_engine (E : env) (logistics_df : list row)
    (alerts_df : list AlertRecord) : result (list row * list AlertRecord) :=
  run_engine (process_row E) logistics_df alerts_df.

(** The phrases by which the titles of each rule block are recognised. *)
Definition sig_status : list string := ["CRITICAL LOGISTICS ALERT: Shipment"].
Definition sig_delay : list string := [" Delay: Shipment "].
Definition sig_positive : list string := ["Positive Logistics: Shipment"].
Definition signals : list (list string) :=
  [sig_status; sig_delay; sig_positive].

(** Timestamps of the examples, in hours after an origin. *)
Definition hour (h : Z) : Z := (h * 3600 * 1000000000)%Z.

(** A damaged shipment of 600 units that also arrived 30 hours late. *)
Definition damaged_example : row :=
  mkRow (Text "SHP-1") (Text "ORD-1") (Text "AF-PRO-2025") (Num 600)
    (Some "Damaged") (Some "Forklift accident") (Text "Pune")
    (Text "Mumbai") (Text "CAR-7") (Some (hour 10)) (Some (hour 40)) None
    (Some (hour 0)) (Some (hour 1)) None.

(** The same shipment with status delayed. *)
Definition delayed_example : row :=
  mkRow (Text "SHP-2") (Text "ORD-2") (Text "AF-PRO-2025") (Num 600)
    (Some "Delayed") (Some "Weather") (Text "Pune")
    (Text "Mumbai") (Text "CAR-7") (Some (hour 10)) (Some (hour 40)) None
    (Some (hour 0)) (Some (hour 1)) None.

End Logistics.

(** * local_news_engine.py *)

Module LocalNews.

Definition POP_CRITICAL_THRESHOLD : Q := 5000000.
Definition POP_MEDIUM_THRESHOLD : Q := 500000.
Definition POP_LOW_THRESHOLD : Q := 50000.

Definition WEATHER_CRITICAL_KEYWORDS : list string :=
  ["cyclone"; "tornado"; "hurricane"; "blizzard"; "flood";
   "severe thunderstorm"; "landslide"].
Definition WEATHER_MEDIUM_KEYWORDS : list string :=
  ["heavy rain"; "snow storm"; "flash flood"; "heatwave"; "dense fog";
   "thunderstorm"].
Definition WEATHER_LOW_KEYWORDS : list string :=
  ["rain"; "light snow"; "wind advisory"; "drizzle"].

Definition ROAD_CRITICAL_KEYWORDS : list string :=
  ["major highway closure"; "airport closure"; "port strike";
   "trucking strike"; "bridge collapse"; "total closure"].
Definition ROAD_MEDIUM_KEYWORDS : list string :=
  ["street closure"; "traffic disruption"; "construction delay";
   "partial closure"].

Definition PUBLIC_SAFETY_KEYWORDS : list string :=
  ["evacuation"; "lockdown"; "riot"; "protest"; "bomb threat";
   "natural disaster"; "emergency"].

Record row : Type := mkRow {
  event_id : cell;
  event_type : option string;
  region_id : cell;
  impact_level : option string;
  description : option string;
  affected_population_estimate : cell;
  route_affected : option string;
  event_start_date : option Z;
  event_end_date : option Z;
  row_alert_id : option string
}.

Definition set_alert_id (r : row) (a : option string) : row :=
  mkRow (event_id r) (event_type r) (region_id r) (impact_level r)
    (description r) (affected_population_estimate r) (route_affected r)
    (event_start_date r) (event_end_date r) a.

(** pd.isna(event_start_date) or pd.isna(event_end_date) or
    current_time < event_start_date or current_time > event_end_date *)
Definition inactive (E : env) (r : row) : bool :=
  match event_start_date r, event_end_date r with
  | Some event_start_date, Some event_end_date =>
      (current_time E <? event_start_date)%Z
      || (current_time E >? event_end_date)%Z
  | _, _ => true
  end.

Section Rules.
Variable E : env.
Variable r : row.

Let event_type := str_lower (event_type r).
Let impact_level_csv := str_lower (impact_level r).
Let description := str_lower (description r).
Let affected_population_estimate :=
  to_numeric (affected_population_estimate r).
Let route_affected := str_lower (route_affected r).

(** The default severity read from impact_level. *)
Definition severity_of_impact : string :=
  if String.eqb impact_level_csv "high" then "Medium"
  else if String.eqb impact_level_csv "medium" then "Low"
  else if String.eqb impact_level_csv "critical" then "Critical"
  else "Low".

(** f"{event_type.title()} in {region_id}" *)
Definition alert_title_base : title :=
  [Titled event_type; Lit " in "; Val (region_id r)].

(** [pd.notna(affected_population_estimate) and
     affected_population_estimate >= t] *)
Definition pop_at_least (t : Q) : bool :=
  match affected_population_estimate with
  | Some p => num_ge p t
  | None => false
  end.

(** Rule 1: Public Safety/Emergency Events, up to the increment of the
    counter.  The statement that follows it in the source assigns through
    [inventory_df], a name that this module never binds. *)
Definition rule_public_safety : M unit :=
  fire E ([Lit "Critical Public Safety Event: "] ++ alert_title_base
          ++ [Lit " ("; Str description; Lit ")"])
    "Local News/Events" "Critical".

(** Rule 2: Weather Alerts *)
Definition rule_weather (severity : string) : M unit :=
  if contains "weather alert" event_type then
    let final_severity := severity in
    let final_severity :=
      if any_in WEATHER_CRITICAL_KEYWORDS description
         || pop_at_least POP_CRITICAL_THRESHOLD then "Critical"
      else if any_in WEATHER_MEDIUM_KEYWORDS description
              || pop_at_least POP_MEDIUM_THRESHOLD then
        if negb (String.eqb final_severity "Critical") then "Medium"
        else final_severity
      else if any_in WEATHER_LOW_KEYWORDS description
              || pop_at_least POP_LOW_THRESHOLD then
        if negb (in_list final_severity ["Critical"; "Medium"]) then "Low"
        else final_severity
      else final_severity in
    if in_list final_severity ["Critical"; "Medium"; "Low"] then
      fire E ([Str final_severity; Lit " Weather Alert: "] ++ alert_title_base
              ++ [Lit " ("; Str description; Lit ")"])
        "Local News/Events" final_severity
    else ret tt
  else ret tt.

(** Rule 3: Road Closures / Logistics Impacts *)
Definition rule_road (severity : string) : M unit :=
  if contains "road closure" event_type
     || any_in (ROAD_CRITICAL_KEYWORDS ++ ROAD_MEDIUM_KEYWORDS) description
  then
    let final_severity := severity in
    let final_severity :=
      if any_in ROAD_CRITICAL_KEYWORDS description
         || contains "critical" impact_level_csv then "Critical"
      else if any_in ROAD_MEDIUM_KEYWORDS description
              || contains "route affected" description
              || contains "significant delay" description then
        if negb (String.eqb final_severity "Critical") then "Medium"
        else final_severity
      else final_severity in
    if in_list final_severity ["Critical"; "Medium"; "Low"] then
      fire E ([Str final_severity; Lit " Logistics Disruption: "]
              ++ alert_title_base
              ++ [Lit " (Route: ";
                  Str (if negb (String.eqb route_affected "none")
                       then route_affected else "N/A");
                  Lit ", Desc: "; Str description; Lit ")"])
        "Local News/Events" final_severity
    else ret tt
  else ret tt.

(** Rule 4: Local Festivals / Community Fairs *)
Definition rule_festival : M unit :=
  if contains "local festival" event_type
     || contains "community fair" event_type then
    let final_severity :=
      if pop_at_least POP_MEDIUM_THRESHOLD then "Medium" else "Low" in
    fire E ([Str final_severity; Lit " Local Event: "] ++ alert_title_base
            ++ [Lit " (Pop: ";
                match affected_population_estimate with
                | Some p => Int (int_ p)
                | None => Lit "N/A"
                end; Lit ")"])
      "Local News/Events" final_severity
  else ret tt.

Definition process_row : M row :=
  if inactive E r then ret r
  else
    start_row >>>
    let severity := severity_of_impact in
    if any_in PUBLIC_SAFETY_KEYWORDS description then
      rule_public_safety >>>
      raise NameError
    else
      rule_weather severity >>>
      rule_road severity >>>
      rule_festival >>>
      let* a := link in
      ret (set_alert_id r a).

End Rules.

Definition local_news_rule_engine (E : env) (local_news_df : list row)
    (alerts_df : list AlertRecord) : result (list row * list AlertRecord) :=
  run_engine (process_row E) local_news_df alerts_df.

(** An active weather alert (hours 0 to 100 after the origin) whose
    description orders an evacuation and also names a flood. *)
Definition evacuation_example : row :=
  mkRow (Text "EVT-1") (Some "Weather Alert") (Text "Chennai") (Some "High")
    (Some "Evacuation ordered as flood waters rise") (Num 800000)
    (Some "None") (Some 0%Z) (Some (100 * 3600 * 1000000000)%Z) None.

(** The same event without the evacuation. *)
Definition flood_example : row :=
  mkRow (Text "EVT-2") (Some "Weather Alert") (Text "Chennai") (Some "High")
    (Some "Flood waters rise") (Num 800000)
    (Some "None") (Some 0%Z) (Some (100 * 3600 * 1000000000)%Z) None.

End LocalNews.

(** * app.py: the dashboard *)

Module Dashboard.

(** The random source of [random.shuffle] and [DataFrame.sample]: the k-th
    choice made is [rand k], reduced to the number of items still to choose
    from.  Every outcome of a selection without replacement is the outcome
    for some [rand]. *)
Definition random_source : Type := nat -> nat.

(** [fuel] draws without replacement from [l], from position [k] of the
    source on. *)
Fixpoint draw_from {A : Type} (rand : random_source) (k fuel : nat)
    (l : list A) : list A :=
  match fuel with
  | O => []
  | S fuel' =>
      match l with
      | [] => []
      | x :: _ =>
          let i := (rand k mod length l)%nat in
          nth i l x :: draw_from rand (S k) fuel' (delete i l)
      end
  end.

(** [random.shuffle(l)] and [df.sample(frac=1)]: all of [l], in drawn order. *)
Definition shuffle {A : Type} (rand : random_source) (k : nat) (l : list A)
  : list A :=
  draw_from rand k (length l) l.

(** [df.sample(n=n)]: [n] rows drawn without replacement. *)
Definition sample {A : Type} (rand : random_source) (k n : nat) (l : list A)
  : list A :=
  take n (shuffle rand k l).

(** [df['category'].unique().tolist()]: the distinct values, in order of
    first appearance. *)
Fixpoint unique (l : list string) : list string :=
  match l with
  | [] => []
  | x :: t => x :: filter (fun y => y <> x) (unique t)
  end.

(** The loop of [process_alerts] over the shuffled categories; the frames
    appended to [processed_alerts] are returned concatenated. *)
Fixpoint sample_categories (rand : random_source) (k : nat)
    (df_raw : list AlertRecord) (max_per_category : nat)
    (categories : list string) : list AlertRecord :=
  match categories with
  | [] => []
  | c :: rest =>
      let category_df := filter (fun a => category a = c) df_raw in
      let sampled_alerts :=
        sample rand k (min (length category_df) max_per_category)
          category_df in
      sampled_alerts
      ++ sample_categories rand (k + length category_df) df_raw
           max_per_category rest
  end.

Definition process_alerts (rand : random_source) (df_raw : list AlertRecord)
    (max_per_category : nat) : list AlertRecord :=
  if is_empty df_raw then []
  else
    let categories := unique (map category df_raw) in
    let categories := shuffle rand 0 categories in
    (* one frame per category is appended: [not processed_alerts] holds
       exactly when there is no category *)
    if is_empty categories then []
    else
      let df_filtered :=
        sample_categories rand (length categories) df_raw max_per_category
          categories in
      shuffle rand (length categories + length df_raw) df_filtered.

(** [df[df['severity'].str.lower() == s].shape[0]] *)
Definition count_severity (s : string) (df : list AlertRecord) : nat :=
  length (filter (fun a => lower (severity a) = s) df).

Record summary : Type := mkSummary {
  total_alerts : nat;
  critical_alerts : nat;
  medium_alerts : nat;
  low_alerts : nat
}.

(** The four counts, over a frame. *)
Definition summary_of (df : list AlertRecord) : summary :=
  if negb (is_empty df) then
    mkSummary (length df) (count_severity "critical" df)
      (count_severity "medium" df) (count_severity "low" df)
  else mkSummary 0 0 0 0.

(** The summary cards of the dashboard:
      df_alerts = process_alerts(df_raw_alerts, max_per_category=4)
    and the counts are taken over [df_alerts]. *)
Definition dashboard_summary (rand : random_source)
    (df_raw_alerts : list AlertRecord) : summary :=
  let df_alerts := process_alerts rand df_raw_alerts 4 in
  summary_of df_alerts.

(** [len(df[df['category'] == c])] *)
Definition count_category (c : string) (df : list AlertRecord) : nat :=
  length (filter (fun a => category a = c) df).

(** No category of the frame has more than [cap] rows. *)
Definition within_cap (cap : nat) (df : list AlertRecord) : bool :=
  forallb (fun c => (count_category c df <=? cap)%nat)
    (unique (map category df)).

Definition alert (i c s : string) : AlertRecord := mkAlert i [Lit i] c s 0.

(** Ten records, 4 Critical, 3 Medium, 2 Low and 1 Info, all of one
    category. *)
Definition one_category_log : list AlertRecord :=
  [alert "a0" "Logistics/Supply Chain" "Critical";
   alert "a1" "Logistics/Supply Chain" "Critical";
   alert "a2" "Logistics/Supply Chain" "Critical";
   alert "a3" "Logistics/Supply Chain" "Critical";
   alert "a4" "Logistics/Supply Chain" "Medium";
   alert "a5" "Logistics/Supply Chain" "Medium";
   alert "a6" "Logistics/Supply Chain" "Medium";
   alert "a7" "Logistics/Supply Chain" "Low";
   alert "a8" "Logistics/Supply Chain" "Low";
   alert "a9" "Logistics/Supply Chain" "Info"].

(** Ten records with the same severities, written in several letter cases,
    over three categories of at most four records each. *)
Definition spread_log : list AlertRecord :=
  [alert "b0" "Weather" "Critical";
   alert "b1" "Weather" "CRITICAL";
   alert "b2" "Inventory" "critical";
   alert "b3" "Inventory" "Critical";
   alert "b4" "Weather" "Medium";
   alert "b5" "Inventory" "MEDIUM";
   alert "b6" "Logistics/Supply Chain" "medium";
   alert "b7" "Weather" "Low";
   alert "b8" "Logistics/Supply Chain" "low";
   alert "b9" "Logistics/Supply Chain" "Info"].

(** A random source for the examples. *)
Definition example_rand : random_source := fun k => (7 * k + 3)%nat.

End Dashboard.

(** * Derived notions used in the statements *)

(** Any number of [log_alert] calls in a row, from draw [k] on. *)
Fixpoint log_alerts (E : env) (k : nat) (alerts_df : list AlertRecord)
    (rs : list request) : list AlertRecord :=
  match rs with
  | [] => alerts_df
  | (t, c, s) :: rs' =>
      log_alerts E (S k) (fst (log_alert E k alerts_df t c s)) rs'
  end.

(** The records a step added to the log. *)
Definition new_records (st st' : run_state) : list AlertRecord :=
  drop (length (alerts_df st)) (alerts_df st').

(** The records whose title carries one of the phrases [sig] of a rule
    block. *)
Definition names (sig : list string) (t : title) : bool :=
  existsb (fun p => mentions p t) sig.

Definition about (sig : list string) (l : list AlertRecord)
  : list AlertRecord :=
  List.filter (fun a => names sig (alert_title a)) l.

(** What a record was logged with. *)
Definition request_of (a : AlertRecord) : request :=
  (alert_title a, category a, severity a).

(** The requests of a block that belongs to the signal [sig], among the
    signals [sigs] of its engine: their titles carry the phrases of [sig]
    and of no other signal. *)
Definition tagged (sigs : list (list string)) (sig : list string)
    (rs : list request) : Prop :=
  Forall (fun rq : request =>
            List.filter (fun s => names s (fst (fst rq))) sigs = [sig]) rs.

(** Exclusive band selection as specified: the severity of the first cutoff
    that matches, in the order given; nothing when none matches. *)
Fixpoint first_matching_cutoff (cutoffs : list (bool * string)) : list string :=
  match cutoffs with
  | [] => []
  | (true, sev) :: _ => [sev]
  | (false, _) :: rest => first_matching_cutoff rest
  end.

(** Bands of a cell against three cutoffs, most severe first. *)
Definition band (cmp : Q -> Q -> bool) (c : cell) (critical medium low : Q)
  : list string :=
  match to_numeric c with
  | Some v =>
      first_matching_cutoff
        [(cmp v critical, "Critical"); (cmp v medium, "Medium");
         (cmp v low, "Low")]
  | None => []
  end.


(** The state at the top of a row. *)
Definition reset (st : run_state) : run_state :=
  mkState (alerts_df st) (alerts_generated_count st) (draws st) [].

(** A block that fires exactly the requests [rs], whatever the state. *)
Definition fires (E : env) (m : M unit) (rs : list request) : Prop :=
  forall st, m st = Ok (tt, fire_all E rs st).

(** An environment for the examples: the k-th UUID ends in the byte k, the
    clock ticks once per call, and the run starts at hour 50. *)
Definition example_uuid (last : byte) : list byte :=
  [x12; x34; x56; x78; x9a; xbc; x4d; xef; x80; x11; x22; x33; x44; x55;
   x66; last].

Definition example_env : env :=
  mkEnv (fun k => example_uuid (default x00 (Byte.of_nat k)))
    (fun k => Z.of_nat k) (50 * 3600 * 1000000000).

(** An environment whose generator returns one and the same UUID. *)
Definition colliding_env : env :=
  mkEnv (fun _ => example_uuid x00) (fun k => Z.of_nat k)
    (50 * 3600 * 1000000000).

Definition state0 : run_state := mkState [] 0 0 [].

(** Two requests for the examples. *)
Definition example_requests : list request :=
  [([Lit "Extreme Heat in Pune"], "Weather", "Low");
   ([Lit "Critical Heatwave in Nagpur"], "Weather", "Critical")].

(** A loaded log of two records. *)
Definition example_log : list AlertRecord :=
  [mkAlert "q83vEjRWeJCrze8SNFZ4kA" [Lit "High Humidity in Kochi"] "Weather"
     "Low" 1;
   mkAlert "ASNFZ4mrze_-3LqYdlQyEA" [Lit "Critical Stockout"] "Inventory"
     "Critical" 2].

(** A step from [st] to [st'] that has logged the requests [rs] and nothing
    else. *)
Definition appends (E : env) (st st' : run_state) (rs : list request) : Prop :=
  alerts_df st' = alerts_df st ++ records_from E (draws st) rs
  /\ draws st' = (draws st + length rs)%nat.

(** A row body that either raises or logs some requests. *)
Definition row_appends (E : env) {R : Type} (body : R -> M R) : Prop :=
  forall r st,
    (exists e, body r st = Raise e)
    \/ (exists r' st' rs, body r st = Ok (r', st') /\ appends E st st' rs).

(** The log returned by a run, if any, is the loaded log [L] extended by
    calls of [log_alert]. *)
Definition keeps_log (E : env) {R : Type} (L : list AlertRecord)
    (res : result (list R * list AlertRecord)) : Prop :=
  match res with
  | Ok (_, L') => exists rs, L' = log_alerts E 0 L rs
  | Raise _ => True
  end.

(** The requests of one block: at most one, of the block's own signal,
    with the severities [sevs]. *)
Definition block_spec_of (sigs : list (list string)) (sig : list string)
    (sevs : list string) (rs : list request) : Prop :=
  (length rs <= 1)%nat /\ tagged sigs sig rs /\ map snd rs = sevs.

Definition block_spec (E : env) (m : M unit) (sigs : list (list string))
    (sig : list string) (sevs : list string) : Prop :=
  exists rs, fires E m rs /\ block_spec_of sigs sig sevs rs.

(** Sextets and octets, and the sextets of a group of bytes, for the
    injectivity of the Base64 encoding. *)
Definition sextets : list Z := map Z.of_nat (seq 0 64).
Definition octets : list Z := map Z.of_nat (seq 0 256).

Definition b64_index (c : ascii) : Z :=
  match List.find (fun n => Ascii.eqb (b64_char n) c) sextets with
  | Some n => n
  | None => (-1)%Z
  end.

Definition sextet1 (a : Z) : Z := Z.shiftr a 2.
Definition sextet2 (a b : Z) : Z :=
  Z.lor (Z.shiftl (Z.land a 3) 4) (Z.shiftr b 4).
Definition sextet3 (b c : Z) : Z :=
  Z.lor (Z.shiftl (Z.land b 15) 2) (Z.shiftr c 6).
Definition sextet4 (c : Z) : Z := Z.land c 63.
Definition sextet2_last (a : Z) : Z := Z.shiftl (Z.land a 3) 4.

(** What the decoding of a group relies on, checked on a pair of octets. *)
Definition pair_ok (a b : Z) : bool :=
  ((0 <=? sextet1 a) && (sextet1 a <? 64)
   && (0 <=? sextet2 a b) && (sextet2 a b <? 64)
   && (0 <=? sextet3 a b) && (sextet3 a b <? 64)
   && (0 <=? sextet4 a) && (sextet4 a <? 64)
   && (0 <=? sextet2_last a) && (sextet2_last a <? 64)
   && (sextet1 a * 4 + sextet2 a b / 16 =? a)
   && (sextet2 a b mod 16 =? b / 16)
   && (sextet3 a b / 4 =? a mod 16) && (sextet3 a b mod 4 =? b / 64)
   && (sextet4 a =? a mod 64) && (sextet2_last a / 16 =? a mod 4))%Z.


(** * weather_engine.py *)

Module Weather.

Definition TEMP_LOW_SEVERITY_THRESHOLD_C : Q := 35.0.
Definition TEMP_CRITICAL_SEVERITY_THRESHOLD_C : Q := 40.0.

Definition HUMIDITY_LOW_SEVERITY_THRESHOLD_PERCENT : Q := 80.
Definition HUMIDITY_CRITICAL_SEVERITY_THRESHOLD_PERCENT : Q := 90.

Definition WIND_LOW_SEVERITY_THRESHOLD_MPS : Q := 12.0.
Definition WIND_CRITICAL_SEVERITY_THRESHOLD_MPS : Q := 20.0.

Definition critical_rain_keywords : list string :=
  ["cyclone"; "heavy storm"; "torrential rain"; "flood";
   "severe thunderstorm"; "hurricane"; "typhoon"].
Definition low_severity_rain_keywords : list string :=
  ["rain"; "storm"; "thunderstorm"; "drizzle"; "shower"; "monsoon"].

Record row : Type := mkRow {
  City_State : cell;
  Full_Address : cell;
  Temperature_C : cell;
  Humidity_Percent : cell;
  Wind_Speed_MPS : cell;
  Weather_Description : option string;
  Weather_Fetch_Status : cell;
  row_alert_id : option string
}.

Definition set_alert_id (r : row) (a : option string) : row :=
  mkRow (City_State r) (Full_Address r) (Temperature_C r)
    (Humidity_Percent r) (Wind_Speed_MPS r) (Weather_Description r)
    (Weather_Fetch_Status r) a.

(** row['City & State'] if pd.notna(row['City & State'])
    else row['Full Address'] *)
Definition location (r : row) : cell :=
  if notna (City_State r) then City_State r else Full_Address r.

Section Rules.
Variable E : env.
Variable r : row.

(** Rule 1: Temperature Alerts *)
Definition rule_temperature : M unit :=
  if notna (Temperature_C r) then
    let* temp_c := lift (float_ (Temperature_C r)) in
    if num_ge temp_c TEMP_CRITICAL_SEVERITY_THRESHOLD_C then
      fire E [Lit "Critical Heatwave in "; Val (location r); Lit " (";
              Fmt "" temp_c; Lit "°C)"]
        "Weather" "Critical"
    else if num_ge temp_c TEMP_LOW_SEVERITY_THRESHOLD_C then
      fire E [Lit "Extreme Heat in "; Val (location r); Lit " (";
              Fmt "" temp_c; Lit "°C)"]
        "Weather" "Low"
    else ret tt
  else ret tt.

(** Rule 2: Humidity Alerts *)
Definition rule_humidity : M unit :=
  if notna (Humidity_Percent r) then
    let* humidity_percent := lift (float_ (Humidity_Percent r)) in
    if num_ge humidity_percent HUMIDITY_CRITICAL_SEVERITY_THRESHOLD_PERCENT
    then
      fire E [Lit "Critical Humidity in "; Val (location r); Lit " (";
              Fmt "" humidity_percent; Lit "%)"]
        "Weather" "Critical"
    else if num_ge humidity_percent HUMIDITY_LOW_SEVERITY_THRESHOLD_PERCENT
    then
      fire E [Lit "High Humidity in "; Val (location r); Lit " (";
              Fmt "" humidity_percent; Lit "%)"]
        "Weather" "Low"
    else ret tt
  else ret tt.

(** Rule 3: Wind Speed Alerts *)
Definition rule_wind : M unit :=
  if notna (Wind_Speed_MPS r) then
    let* wind_speed_mps := lift (float_ (Wind_Speed_MPS r)) in
    if num_ge wind_speed_mps WIND_CRITICAL_SEVERITY_THRESHOLD_MPS then
      fire E [Lit "Critical Wind Warning in "; Val (location r); Lit " (";
              Fmt "" wind_speed_mps; Lit " MPS)"]
        "Weather" "Critical"
    else if num_ge wind_speed_mps WIND_LOW_SEVERITY_THRESHOLD_MPS then
      fire E [Lit "High Wind Advisory in "; Val (location r); Lit " (";
              Fmt "" wind_speed_mps; Lit " MPS)"]
        "Weather" "Low"
    else ret tt
  else ret tt.

(** Rule 4: Rain/Storm Alerts (based on Weather_Description) *)
Definition rule_rain : M unit :=
  let weather_desc := str_lower (Weather_Description r) in
  if any_in critical_rain_keywords weather_desc then
    fire E [Lit "Critical Storm/Rainfall in "; Val (location r); Lit " (";
            Str weather_desc; Lit ")"]
      "Weather" "Critical"
  else if any_in low_severity_rain_keywords weather_desc then
    fire E [Lit "Heavy Rain/Storm in "; Val (location r); Lit " (";
            Str weather_desc; Lit ")"]
      "Weather" "Low"
  else ret tt.

Definition process_row : M row :=
  start_row >>>
  rule_temperature >>>
  rule_humidity >>>
  rule_wind >>>
  rule_rain >>>
  let* a := link in
  ret (set_alert_id r a).

End Rules.

(** weather_df[weather_df['Weather_Fetch_Status'] == 'Success'] *)
Definition fetched (r : row) : bool := cell_is (Weather_Fetch_Status r) "Success".

(** The engine drops the rows whose fetch did not succeed, then runs the
    rules on the rows left; the frame returned is the filtered one. *)
Definition weather_rule_engine (E : env) (weather_df : list row)
    (alerts_df : list AlertRecord) : result (list row * list AlertRecord) :=
  let weather_df := List.filter fetched weather_df in
  run_engine (process_row E) weather_df alerts_df.

(** A row with a string that is no number in one of the three columns that
    the engine passes to [float]. *)
Definition has_text (r : row) : bool :=
  is_text (Temperature_C r) || is_text (Humidity_Percent r)
  || is_text (Wind_Speed_MPS r).

(** A reading of 41 degrees whose fetch succeeded, one whose fetch failed
    and holds text for the temperature, and a storm. *)
Definition heat_example : row :=
  mkRow (Text "Nagpur, Maharashtra") (Text "Sitabuldi") (Num 41.0) (Num 30)
    (Num 3.5) (Some "clear sky") (Text "Success") None.
Definition failed_example : row :=
  mkRow NaN (Text "Unknown") (Text "n/a") NaN NaN None (Text "Error: timeout")
    (Some "stale").
Definition storm_example : row :=
  mkRow NaN (Text "Marine Drive, Mumbai") (Num 29) (Num 95) (Num 21)
    (Some "Severe Thunderstorm with heavy rain") (Text "Success") None.

End Weather.

(** * reviews_engine.py *)

Module Reviews.

Definition CRITICAL_REVIEW_KEYWORDS : list string :=
  ["con artists"; "fake"; "scam"; "fraud"; "horrible"; "worst"; "disaster";
   "never again"; "unacceptable"; "ripoff"; "stole"; "lied"; "deceptive"].

Definition MEDIUM_REVIEW_KEYWORDS : list string :=
  ["problem"; "issue"; "bug"; "delayed"; "missing"; "damaged";
   "poor quality"; "unhappy"; "bad experience"; "defective"; "broken";
   "difficult"; "struggle"; "misleading"; "disappointed"].

Definition LOW_REVIEW_KEYWORDS : list string :=
  ["disappointing"; "not great"; "concern"; "slow"; "minor issue";
   "frustrating"; "could be better"; "average"; "mild"].

Record row : Type := mkRow {
  source : cell;
  product_reviewed : cell;
  review_title : option string;
  reviewer_name : cell;
  row_alert_id : option string
}.

Definition set_alert_id (r : row) (a : option string) : row :=
  mkRow (source r) (product_reviewed r) (review_title r) (reviewer_name r) a.

Section Rules.
Variable E : env.
Variable r : row.

Let review_title := str_lower (review_title r).

(** f"Product: {product_reviewed}, Reviewer: {reviewer_name}, Source: {source}" *)
Definition context_info : title :=
  [Lit "Product: "; Val (product_reviewed r); Lit ", Reviewer: ";
   Val (reviewer_name r); Lit ", Source: "; Val (source r)].

(** f"{tier} Review: '{review_title}' - {context_info}" *)
Definition review_alert (tier severity : string) : M unit :=
  fire E ([Lit tier; Lit " Review: '"; Str review_title; Lit "' - "]
          ++ context_info)
    "Customer Reviews" severity.

Definition process_row : M row :=
  start_row >>>
  (* Rule 1: Critical Negative Keywords in Review Title *)
  if any_in CRITICAL_REVIEW_KEYWORDS review_title then
    review_alert "CRITICAL" "Critical" >>>
    let* a := link_join in
    ret (set_alert_id r a)
  (* Rule 2: Medium Negative Keywords in Review Title *)
  else if any_in MEDIUM_REVIEW_KEYWORDS review_title then
    review_alert "MEDIUM" "Medium" >>>
    let* a := link_join in
    ret (set_alert_id r a)
  else
    (* Rule 3: Low Negative Keywords in Review Title *)
    (if any_in LOW_REVIEW_KEYWORDS review_title then
       review_alert "LOW" "Low"
     else ret tt) >>>
    let* a := link in
    ret (set_alert_id r a).

End Rules.

Definition reviews_rule_engine (E : env) (reviews_df : list row)
    (alerts_df : list AlertRecord) : result (list row * list AlertRecord) :=
  run_engine (process_row E) reviews_df alerts_df.

(** The severity tier of a title: the first tier, from the most severe,
    one of whose keywords occurs in it. *)
Definition tier_of (review_title : string) : list string :=
  first_matching_cutoff
    [(any_in CRITICAL_REVIEW_KEYWORDS review_title, "Critical");
     (any_in MEDIUM_REVIEW_KEYWORDS review_title, "Medium");
     (any_in LOW_REVIEW_KEYWORDS review_title, "Low")].

(** A title with a Critical, a Medium and a Low keyword. *)
Definition mixed_example : row :=
  mkRow (Text "Trustpilot") (Text "Walmart") (Some "Worst service, slow and damaged box")
    (Text "A. Customer") None.

End Reviews.

(** * The main blocks: files in, files out

    The three files of a run: the domain data set, the shared alert log and
    the data set with alerts.  A file is [None] when [load_data] finds it
    absent, of size zero or unreadable, and [Some rows] when it parses to
    the table [rows]. *)

Module Main.

Record files (R : Type) : Type := mkFiles {
  data_csv : option (list R);
  alerts_csv : option (list AlertRecord);
  data_with_alerts_csv : option (list R)
}.
Arguments mkFiles {R} _ _ _.
Arguments data_csv {R} _.
Arguments alerts_csv {R} _.
Arguments data_with_alerts_csv {R} _.

(** [load_data(filepath, columns)]: the table, or an empty frame when the
    file is absent, empty, or not parseable. *)
Definition load_data {A : Type} (file : option (list A)) : list A :=
  match file with
  | Some rows => rows
  | None => []
  end.

(** [save_data(df, filepath)]: the file is overwritten. *)
Definition save_data {A : Type} (df : list A) : option (list A) := Some df.

(** The body under [if __name__ == "__main__":], for the engine [engine]:
    the files after the run, and the exception that ended it, if any. *)
Definition main {R : Type}
    (engine : list R -> list AlertRecord
              -> result (list R * list AlertRecord))
    (fs : files R) : files R * option exn :=
  let df := load_data (data_csv fs) in
  if is_empty df then (fs, None)
  else
    let alerts_df := load_data (alerts_csv fs) in
    match engine df alerts_df with
    | Ok (updated_df, updated_alerts_df) =>
        (mkFiles (data_csv fs) (save_data updated_alerts_df)
           (save_data updated_df), None)
    | Raise e => (fs, Some e)
    end.

End Main.

(** * social_media_trends_engine.py *)

Module SocialMedia.

Definition NEG_SENTIMENT_CRITICAL_THRESHOLD : Q := 0.2.
Definition NEG_SENTIMENT_MEDIUM_THRESHOLD : Q := 0.3.
Definition NEG_SENTIMENT_LOW_THRESHOLD : Q := 0.4.

Definition NEG_MENTIONS_CRITICAL_COUNT : Q := 500.
Definition NEG_MENTIONS_MEDIUM_COUNT : Q := 100.
Definition NEG_VIRALITY_CRITICAL_SCORE : Q := 0.5.
Definition NEG_VIRALITY_MEDIUM_SCORE : Q := 0.2.

Definition POS_SENTIMENT_MIN_THRESHOLD : Q := 0.6.
Definition POS_VIRALITY_CRITICAL_SCORE : Q := 0.6.
Definition POS_VIRALITY_MEDIUM_SCORE : Q := 0.3.
Definition POS_VIRALITY_LOW_SCORE : Q := 0.1.

Definition POS_MENTIONS_CRITICAL_COUNT : Q := 1000.
Definition POS_MENTIONS_MEDIUM_COUNT : Q := 200.
Definition POS_MENTIONS_LOW_COUNT : Q := 50.

Definition LOW_ENGAGEMENT_CRITICAL_RATE : Q := 0.01.
Definition LOW_ENGAGEMENT_MEDIUM_RATE : Q := 0.02.
Definition LOW_ENGAGEMENT_LOW_RATE : Q := 0.03.

Record row : Type := mkRow {
  product_sku : cell;
  keyword : cell;
  mentions_count : cell;
  sentiment_score : cell;
  platform : cell;
  influencer_id : cell;
  engagement_rate : cell;
  virality_score : cell;
  campaign_mention : option string;
  row_alert_id : option string
}.

Definition set_alert_id (r : row) (a : option string) : row :=
  mkRow (product_sku r) (keyword r) (mentions_count r) (sentiment_score r)
    (platform r) (influencer_id r) (engagement_rate r) (virality_score r)
    (campaign_mention r) a.

(** The truth value of a cell in [if influencer_id and ...]: NaN is a
    float other than zero, so it is true; a number is true unless it is
    zero, a string unless it is empty. *)
Definition truthy (c : cell) : bool :=
  match c with
  | NaN => true
  | Num q => negb (Qeq_bool q 0)
  | Text s => negb (String.eqb s "")
  end.

(** [pd.notna(x) and x >= t] *)
Definition notna_ge (x : option Q) (t : Q) : bool :=
  match x with
  | Some v => num_ge v t
  | None => false
  end.

Section Rules.
Variable E : env.
Variable r : row.

Let mentions_count := to_numeric (mentions_count r).
Let sentiment_score := to_numeric (sentiment_score r).
Let influencer_id := influencer_id r.
Let engagement_rate := to_numeric (engagement_rate r).
Let virality_score := to_numeric (virality_score r).
Let campaign_mention := str_lower (campaign_mention r).

(** f"SKU: {product_sku}, Keyword: '{keyword}', Platform: {platform}" *)
Definition context_info : title :=
  [Lit "SKU: "; Val (product_sku r); Lit ", Keyword: '"; Val (keyword r);
   Lit "', Platform: "; Val (platform r)].

(** f"{tier} Negative Sentiment: {context_info} (Score: {sentiment_score:.2f},
      Mentions: {int(mentions_count) if pd.notna(mentions_count) else 'N/A'})" *)
Definition negative_sentiment (tier : string) (sentiment_score : Q)
    (severity : string) : M unit :=
  fire E ([Lit tier; Lit " Negative Sentiment: "] ++ context_info
          ++ [Lit " (Score: "; Fmt ".2f" sentiment_score; Lit ", Mentions: ";
              match mentions_count with
              | Some m => Int (int_ m)
              | None => Lit "N/A"
              end; Lit ")"])
    "Social Media Trends" severity.

(** Rule 1: Negative Sentiment Spike *)
Definition rule_negative_sentiment : M unit :=
  match sentiment_score with
  | Some sentiment_score =>
      if num_lt sentiment_score NEG_SENTIMENT_CRITICAL_THRESHOLD then
        if notna_ge mentions_count NEG_MENTIONS_CRITICAL_COUNT
           || notna_ge virality_score NEG_VIRALITY_CRITICAL_SCORE then
          negative_sentiment "CRITICAL" sentiment_score "Critical"
        else if notna_ge mentions_count NEG_MENTIONS_MEDIUM_COUNT
                || notna_ge virality_score NEG_VIRALITY_MEDIUM_SCORE then
          negative_sentiment "MEDIUM" sentiment_score "Medium"
        else ret tt
      else if num_lt sentiment_score NEG_SENTIMENT_MEDIUM_THRESHOLD then
        if notna_ge mentions_count NEG_MENTIONS_MEDIUM_COUNT then
          negative_sentiment "MEDIUM" sentiment_score "Medium"
        else ret tt
      else if num_lt sentiment_score NEG_SENTIMENT_LOW_THRESHOLD then
        negative_sentiment "LOW" sentiment_score "Low"
      else ret tt
  | None => ret tt
  end.

(** f"{tier} Viral Trend: {context_info} (Virality: {virality_score:.2f},
      Mentions: {int(mentions_count)})" *)
Definition viral_trend (tier : string) (virality_score mentions_count : Q)
    (severity : string) : M unit :=
  fire E ([Lit tier; Lit " Viral Trend: "] ++ context_info
          ++ [Lit " (Virality: "; Fmt ".2f" virality_score;
              Lit ", Mentions: "; Int (int_ mentions_count); Lit ")"])
    "Social Media Trends" severity.

(** Rule 2: Positive Virality / High Demand Signal.  Each branch tests
    [pd.notna] of both the virality score and the mention count, so none is
    taken when one of them is missing. *)
Definition rule_viral_trend : M unit :=
  if notna_ge sentiment_score POS_SENTIMENT_MIN_THRESHOLD then
    match virality_score, mentions_count with
    | Some virality_score, Some mentions_count =>
        if num_ge virality_score POS_VIRALITY_CRITICAL_SCORE
           && num_ge mentions_count POS_MENTIONS_CRITICAL_COUNT then
          viral_trend "CRITICAL" virality_score mentions_count "Critical"
        else if num_ge virality_score POS_VIRALITY_MEDIUM_SCORE
                && num_ge mentions_count POS_MENTIONS_MEDIUM_COUNT then
          viral_trend "MEDIUM" virality_score mentions_count "Medium"
        else if num_ge virality_score POS_VIRALITY_LOW_SCORE
                && num_ge mentions_count POS_MENTIONS_LOW_COUNT then
          viral_trend "LOW" virality_score mentions_count "Low"
        else ret tt
    | _, _ => ret tt
    end
  else ret tt.

(** f"{tier} Low Engagement: Influencer {influencer_id} for {context_info}
      (Rate: {engagement_rate:.2%})" *)
Definition low_engagement (tier : string) (engagement_rate : Q)
    (severity : string) : M unit :=
  fire E ([Lit tier; Lit " Low Engagement: Influencer "; Val influencer_id;
           Lit " for "] ++ context_info
          ++ [Lit " (Rate: "; Fmt ".2%" engagement_rate; Lit ")"])
    "Social Media Trends" severity.

(** Rule 3: Low Engagement Rate *)
Definition rule_low_engagement : M unit :=
  if truthy influencer_id && negb (cell_is influencer_id "None") then
    match engagement_rate with
    | Some engagement_rate =>
        if num_lt engagement_rate LOW_ENGAGEMENT_CRITICAL_RATE then
          low_engagement "CRITICAL" engagement_rate "Critical"
        else if num_lt engagement_rate LOW_ENGAGEMENT_MEDIUM_RATE then
          low_engagement "MEDIUM" engagement_rate "Medium"
        else if num_lt engagement_rate LOW_ENGAGEMENT_LOW_RATE then
          low_engagement "LOW" engagement_rate "Low"
        else ret tt
    | None => ret tt
    end
  else ret tt.

(** Rule 4: Campaign Underperformance/Overperformance *)
Definition rule_campaign : M unit :=
  if negb (String.eqb campaign_mention "none")
     && negb (String.eqb campaign_mention "nan") then
    match sentiment_score with
    | Some sentiment_score =>
        if num_lt sentiment_score 0.5 then
          fire E ([Lit "MEDIUM Campaign Performance Alert: ";
                   Str campaign_mention; Lit " for "] ++ context_info
                  ++ [Lit " shows low sentiment (";
                      Fmt ".2f" sentiment_score; Lit ")"])
            "Social Media Trends" "Medium"
        else
          match virality_score with
          | Some virality_score =>
              if num_ge sentiment_score 0.8
                 && num_ge virality_score POS_VIRALITY_MEDIUM_SCORE then
                fire E ([Lit "LOW Campaign Overperformance: ";
                         Str campaign_mention; Lit " for "] ++ context_info
                        ++ [Lit " showing strong positive trend (Sentiment: ";
                            Fmt ".2f" sentiment_score; Lit ", Virality: ";
                            Fmt ".2f" virality_score; Lit ")"])
                  "Social Media Trends" "Low"
              else ret tt
          | None => ret tt
          end
    | None => ret tt
    end
  else ret tt.

Definition process_row : M row :=
  start_row >>>
  rule_negative_sentiment >>>
  rule_viral_trend >>>
  rule_low_engagement >>>
  rule_campaign >>>
  let* a := link in
  ret (set_alert_id r a).

End Rules.

Definition social_media_trends_rule_engine (E : env)
    (social_media_df : list row) (alerts_df : list AlertRecord)
  : result (list row * list AlertRecord) :=
  run_engine (process_row E) social_media_df alerts_df.

(** The phrases by which the titles of each rule block are recognised. *)
Definition sig_negative : list string := [" Negative Sentiment: "].
Definition sig_viral : list string := [" Viral Trend: "].
Definition sig_engagement : list string := [" Low Engagement: Influencer "].
Definition sig_campaign : list string :=
  ["Campaign Performance Alert: "; "Campaign Overperformance: "].
Definition signals : list (list string) :=
  [sig_negative; sig_viral; sig_engagement; sig_campaign].

(** A post with a very negative score (0.10) that few people saw, and the
    same post with a milder score (0.35). *)
Definition quiet_negative_example : row :=
  mkRow (Text "AF-PRO-2025") (Text "air fryer") (Num 40) (Num 0.10)
    (Text "X") (Text "None") NaN (Num 0.05) (Some "None") None.

Definition mild_negative_example : row :=
  mkRow (Text "AF-PRO-2025") (Text "air fryer") (Num 40) (Num 0.35)
    (Text "X") (Text "None") NaN (Num 0.05) (Some "None") None.

(** A post without influencer whose engagement rate is 0.5 percent. *)
Definition no_influencer_example : row :=
  mkRow (Text "AF-PRO-2025") (Text "air fryer") (Num 40) (Num 0.55)
    (Text "X") NaN (Num 0.005) NaN (Some "None") None.

End SocialMedia.

(** * Derived notions for whole runs *)

(** The value that the end of a row body writes to alert_id. *)
Definition link_value (ids : list string) : option string :=
  match ids with
  | [] => None
  | id :: ids' => Some (join (id :: ids'))
  end.

(** The row left in the frame by a body that links the IDs [ids]. *)
Definition linked {R : Type} (set : R -> option string -> R) (r : R)
    (ids : list string) : R :=
  set r (link_value ids).

(** A row on which the body logs exactly the requests [rs], whatever the
    state, and leaves the row [out r ids] in the frame, [ids] being the IDs
    of the records logged. *)
Definition row_logs (E : env) {R : Type} (body : R -> M R)
    (out : R -> list string -> R) (r : R) (rs : list request) : Prop :=
  forall st,
    exists cur,
      body r st
      = Ok (out r (ids_from E (draws st) rs),
            mkState (alerts_df st ++ records_from E (draws st) rs)
              (alerts_generated_count st + length rs)
              (draws st + length rs) cur).

(** The frame after a run in which the i-th row logs the requests
    [rss !! i], the first draw being [k]. *)
Fixpoint link_rows (E : env) {R : Type} (out : R -> list string -> R)
    (k : nat) (df : list R) (rss : list (list request)) : list R :=
  match df, rss with
  | r :: df', rs :: rss' =>
      out r (ids_from E k rs) :: link_rows E out (k + length rs) df' rss'
  | _, _ => []
  end.

(** Category and severity of a request. *)
Definition req_severity (rq : request) : string := snd rq.
Definition req_category (rq : request) : string := snd (fst rq).

(** The vocabulary of an engine: the category and the severities it passes
    to [log_alert]. *)
Definition vocab (cat : string) (sevs : list string) (rq : request) : Prop :=
  req_category rq = cat /\ In (req_severity rq) sevs.

Definition in_vocab (cat : string) (sevs : list string) (a : AlertRecord)
  : Prop :=
  category a = cat /\ In (severity a) sevs.

(** A computation that, when it returns, has appended to the log the records
    of requests that all satisfy [P], drawing one UUID for each. *)
Definition speaks (E : env) (P : request -> Prop) {A : Type} (m : M A) : Prop :=
  forall st,
    match m st with
    | Ok (_, st') =>
        exists rs,
          alerts_df st' = alerts_df st ++ records_from E (draws st) rs
          /\ draws st' = (draws st + length rs)%nat
          /\ Forall P rs
    | Raise _ => True
    end.

(** What a run over the frame [df] that started from the log [L] returned:
    the log followed by one group of new records for each row, in row
    order; each row comes back as [out] leaves it, given the IDs of its own
    group; a group has at most [n] records, all of category [cat] and with a
    severity among [sevs]. *)
Definition run_profile {R : Type} (out : R -> list string -> R) (n : nat)
    (cat : string) (sevs : list string) (df : list R) (L : list AlertRecord)
    (res : result (list R * list AlertRecord)) : Prop :=
  exists df' groups,
    res = Ok (df', L ++ concat groups)
    /\ Forall3 (fun r r' g =>
                  r' = out r (map alert_id g)
                  /\ (length g <= n)%nat
                  /\ Forall (in_vocab cat sevs) g)
         df df' groups.

(** The groups of records of a run whose i-th row logs [rss !! i]. *)
Fixpoint groups_from (E : env) (k : nat) (rss : list (list request))
  : list (list AlertRecord) :=
  match rss with
  | [] => []
  | rs :: rss' => records_from E k rs :: groups_from E (k + length rs) rss'
  end.

(** A rule block that logs at most one request, whatever the state, and
    that one within [P]. *)
Definition at_most_one (E : env) (P : request -> Prop) (m : M unit) : Prop :=
  exists rs, fires E m rs /\ (length rs <= 1)%nat /\ Forall P rs.

(** A rule block that logs, whatever the state, at most one request, with
    the severities [sevs] and within [P]. *)
Definition block_fires (E : env) (P : request -> Prop) (m : M unit)
    (sevs : list string) : Prop :=
  exists rs,
    fires E m rs /\ map req_severity rs = sevs
    /\ (length rs <= 1)%nat /\ Forall P rs.

(** Bands of a cell against two cutoffs, as in the weather engine. *)
Definition band2 (c : cell) (critical low : Q) : list string :=
  match to_numeric c with
  | Some v =>
      first_matching_cutoff
        [(num_ge v critical, "Critical"); (num_ge v low, "Low")]
  | None => []
  end.

(** The vocabularies of the engines. *)
Definition weather_vocab : request -> Prop :=
  vocab "Weather" ["Critical"; "Low"].
Definition reviews_vocab : request -> Prop :=
  vocab "Customer Reviews" ["Critical"; "Medium"; "Low"].
Definition social_vocab : request -> Prop :=
  vocab "Social Media Trends" ["Critical"; "Medium"; "Low"].

(** The severities of the four rule blocks of the social media engine, read
    off their conditions. *)
Definition social_negative_band (r : SocialMedia.row) : list string :=
  let mentions_count := to_numeric (SocialMedia.mentions_count r) in
  let virality_score := to_numeric (SocialMedia.virality_score r) in
  match to_numeric (SocialMedia.sentiment_score r) with
  | Some s =>
      if num_lt s SocialMedia.NEG_SENTIMENT_CRITICAL_THRESHOLD then
        first_matching_cutoff
          [(SocialMedia.notna_ge mentions_count
              SocialMedia.NEG_MENTIONS_CRITICAL_COUNT
            || SocialMedia.notna_ge virality_score
                 SocialMedia.NEG_VIRALITY_CRITICAL_SCORE, "Critical");
           (SocialMedia.notna_ge mentions_count
              SocialMedia.NEG_MENTIONS_MEDIUM_COUNT
            || SocialMedia.notna_ge virality_score
                 SocialMedia.NEG_VIRALITY_MEDIUM_SCORE, "Medium")]
      else if num_lt s SocialMedia.NEG_SENTIMENT_MEDIUM_THRESHOLD then
        first_matching_cutoff
          [(SocialMedia.notna_ge mentions_count
              SocialMedia.NEG_MENTIONS_MEDIUM_COUNT, "Medium")]
      else
        first_matching_cutoff
          [(num_lt s SocialMedia.NEG_SENTIMENT_LOW_THRESHOLD, "Low")]
  | None => []
  end.

Definition social_engagement_band (r : SocialMedia.row) : list string :=
  if SocialMedia.truthy (SocialMedia.influencer_id r)
     && negb (cell_is (SocialMedia.influencer_id r) "None") then
    band num_lt (SocialMedia.engagement_rate r)
      SocialMedia.LOW_ENGAGEMENT_CRITICAL_RATE
      SocialMedia.LOW_ENGAGEMENT_MEDIUM_RATE
      SocialMedia.LOW_ENGAGEMENT_LOW_RATE
  else [].

(** Local news: the rows that stop the engine, the row a body leaves in the
    frame, and the order of the severities. *)
Definition news_vocab : request -> Prop :=
  vocab "Local News/Events" ["Critical"; "Medium"; "Low"].

Definition unsafe (E : env) (r : LocalNews.row) : bool :=
  negb (LocalNews.inactive E r)
  && any_in LocalNews.PUBLIC_SAFETY_KEYWORDS
       (str_lower (LocalNews.description r)).

Definition news_out (E : env) (r : LocalNews.row) (ids : list string)
  : LocalNews.row :=
  if LocalNews.inactive E r then r
  else LocalNews.set_alert_id r (link_value ids).

Definition sev_rank (severity : string) : nat :=
  if String.eqb severity "Critical" then 3
  else if String.eqb severity "Medium" then 2
  else if String.eqb severity "Low" then 1
  else 0.

(** Two computations, run under two environments and from any two states,
    that raise the same exception or log the same requests and return
    values related by [V]. *)
Definition agree (E1 E2 : env) {A : Type} (V : A -> A -> Prop)
    (m1 m2 : M A) : Prop :=
  forall st1 st2,
    match m1 st1, m2 st2 with
    | Ok (a1, st1'), Ok (a2, st2') =>
        V a1 a2
        /\ exists rs, appends E1 st1 st1' rs /\ appends E2 st2 st2' rs
    | Raise e1, Raise e2 => e1 = e2
    | _, _ => False
    end.

Definition any_value {A : Type} (a1 a2 : A) : Prop := True.

(** Two runs that raise the same exception or append the records of the
    same requests, each to its own log. *)
Definition same_alerts (E1 E2 : env) {R : Type} (L1 L2 : list AlertRecord)
    (res1 res2 : result (list R * list AlertRecord)) : Prop :=
  match res1, res2 with
  | Ok (_, L1'), Ok (_, L2') =>
      exists rs,
        L1' = L1 ++ records_from E1 0 rs /\ L2' = L2 ++ records_from E2 0 rs
  | Raise e1, Raise e2 => e1 = e2
  | _, _ => False
  end.

(** Rows and files for the worked instances. *)
Definition minor_issue_example : Reviews.row :=
  Reviews.mkRow (Text "Trustpilot") (Text "Walmart")
    (Some "Minor issue with the packaging") (Text "B. Customer") None.

Definition flash_flood_example : LocalNews.row :=
  LocalNews.mkRow (Text "EVT-3") (Some "Weather Alert") (Text "Pune")
    (Some "Low") (Some "Flash flood warning for the river bank") (Num 1000)
    (Some "None") (Some 0%Z) (Some (100 * 3600 * 1000000000)%Z) None.

Definition four_alert_example : Inventory.row :=
  Inventory.mkRow (Text "Store_B1") (Text "AF-PRO-2025") (Num 100) (Num 0)
    (Num 10) (Num 1) (Num 150) (Num 60) (Num 100) (Num 100) (Num 50) None.

(** A shipment delivered 30 hours late. *)
Definition late_delivery_example : Logistics.row :=
  Logistics.mkRow (Text "SHP-3") (Text "ORD-3") (Text "AF-PRO-2025") (Num 20)
    (Some "Delivered") None (Text "Pune") (Text "Mumbai") (Text "CAR-7")
    (Some (Logistics.hour 10)) (Some (Logistics.hour 40)) None
    (Some (Logistics.hour 0)) (Some (Logistics.hour 1)) None.

Definition weather_files : Main.files Weather.row :=
  Main.mkFiles (Some [Weather.heat_example; Weather.failed_example]) None
    None.

Definition supplier_files : Main.files Supplier.row :=
  Main.mkFiles (Some [Supplier.missing_example]) (Some example_log) None.

Definition inventory_files : Main.files Inventory.row :=
  Main.mkFiles (Some [Inventory.two_alert_example; Inventory.quiet_example])
    None None.

Definition local_news_files : Main.files LocalNews.row :=
  Main.mkFiles
    (Some [LocalNews.flood_example; LocalNews.evacuation_example])
    (Some example_log) None.

(** An environment that differs from [example_env] in the UUIDs drawn and
    in the clock. *)
Definition other_env : env :=
  mkEnv (fun k => example_uuid (default xff (Byte.of_nat (k + 100))))
    (fun k => Z.of_nat (k + 7)) (60 * 3600 * 1000000000).
(** * Facts about log_alert and the monad *)

Section LogFacts.
Variable E : env.

Lemma log_alert_fst k L t c s :
  fst (log_alert E k L t c s)
  = L ++ [mkAlert (generate_alert_id (uuid4 E k)) t c s (now E k)].
Proof. unfold log_alert. destruct L; reflexivity. Qed.

Lemma log_alert_snd k L t c s :
  snd (log_alert E k L t c s) = generate_alert_id (uuid4 E k).
Proof. reflexivity. Qed.

Lemma log_alerts_app k L rs :
  log_alerts E k L rs = L ++ records_from E k rs.
Proof.
  revert k L. induction rs as [|[[t c] s] rs IH]; intros k L;
    cbn [log_alerts records_from].
  - by rewrite app_nil_r.
  - rewrite IH, log_alert_fst, <- app_assoc. reflexivity.
Qed.

Lemma records_from_length k rs : length (records_from E k rs) = length rs.
Proof.
  revert k. induction rs as [|[[t c] s] rs IH]; intros k; simpl; auto.
Qed.

Lemma records_from_app k rs1 rs2 :
  records_from E k (rs1 ++ rs2)
  = records_from E k rs1 ++ records_from E (k + length rs1) rs2.
Proof.
  revert k. induction rs1 as [|[[t c] s] rs1 IH]; intros k; simpl.
  - by rewrite Nat.add_0_r.
  - rewrite IH. do 3 f_equal. lia.
Qed.

Lemma fire_pure_eq t c s st :
  fire_pure E t c s st
  = mkState (alerts_df st
             ++ [mkAlert (generate_alert_id (uuid4 E (draws st))) t c s
                   (now E (draws st))])
      (alerts_generated_count st + 1) (S (draws st))
      (current_alerts_for_row st ++ [generate_alert_id (uuid4 E (draws st))]).
Proof.
  unfold fire_pure.
  pose proof (log_alert_fst (draws st) (alerts_df st) t c s) as H1.
  destruct (log_alert E (draws st) (alerts_df st) t c s) as [df i] eqn:H.
  simpl in H1. subst df.
  assert (i = generate_alert_id (uuid4 E (draws st))) as ->.
  { change i with (snd (alerts_df st ++
      [mkAlert (generate_alert_id (uuid4 E (draws st))) t c s
         (now E (draws st))], i)).
    rewrite <- H. reflexivity. }
  reflexivity.
Qed.

Lemma fire_all_eq rs st :
  fire_all E rs st
  = mkState (alerts_df st ++ records_from E (draws st) rs)
      (alerts_generated_count st + length rs) (draws st + length rs)
      (current_alerts_for_row st ++ ids_from E (draws st) rs).
Proof.
  revert st. induction rs as [|[[t c] s] rs IH]; intros st.
  - simpl. unfold ids_from. simpl. rewrite !app_nil_r, !Nat.add_0_r.
    by destruct st.
  - cbn [fire_all]. rewrite IH, fire_pure_eq. unfold ids_from. simpl.
    rewrite <- !app_assoc. simpl. f_equal; lia.
Qed.

Lemma fire_all_app rs1 rs2 st :
  fire_all E (rs1 ++ rs2) st = fire_all E rs2 (fire_all E rs1 st).
Proof.
  revert st. induction rs1 as [|[[t c] s] rs1 IH]; intros st; simpl; auto.
Qed.

Lemma fires_ret : fires E (ret tt) [].
Proof. intros st. reflexivity. Qed.

Lemma fires_fire t c s : fires E (fire E t c s) [(t, c, s)].
Proof. intros st. reflexivity. Qed.

Lemma fires_seq m1 m2 rs1 rs2 :
  fires E m1 rs1 -> fires E m2 rs2 -> fires E (m1 >>> m2) (rs1 ++ rs2).
Proof.
  intros H1 H2 st. unfold bind. rewrite H1, H2, fire_all_app. reflexivity.
Qed.

Lemma new_records_fire_all rs st :
  new_records st (fire_all E rs (reset st)) = records_from E (draws st) rs.
Proof.
  unfold new_records. rewrite fire_all_eq. simpl.
  by rewrite drop_app_length.
Qed.

End LogFacts.

(** * generate_alert_id is injective on 16-byte UUIDs *)

Lemma in_sextets n : (0 <= n < 64)%Z -> In n sextets.
Proof.
  intros H. unfold sextets. apply in_map_iff. exists (Z.to_nat n).
  split; [lia|]. apply in_seq. lia.
Qed.

Lemma in_octets n : (0 <= n < 256)%Z -> In n octets.
Proof.
  intros H. unfold octets. apply in_map_iff. exists (Z.to_nat n).
  split; [lia|]. apply in_seq. lia.
Qed.

Lemma byte_val_range b : (0 <= byte_val b < 256)%Z.
Proof. unfold byte_val. pose proof (Byte.to_N_bounded b). lia. Qed.

Lemma byte_val_inj b1 b2 : byte_val b1 = byte_val b2 -> b1 = b2.
Proof.
  unfold byte_val. intros H. apply N2Z.inj in H.
  pose proof (Byte.of_to_N b1) as H1. rewrite H, Byte.of_to_N in H1.
  congruence.
Qed.

Lemma b64_index_char n : (0 <= n < 64)%Z -> b64_index (b64_char n) = n.
Proof.
  intros H. apply in_sextets in H.
  assert (forallb (fun n => b64_index (b64_char n) =? n)%Z sextets = true)
    as Hall by (vm_compute; reflexivity).
  rewrite forallb_forall in Hall. apply Z.eqb_eq. by apply Hall.
Qed.

Lemma b64_char_inj m n :
  (0 <= m < 64)%Z -> (0 <= n < 64)%Z -> b64_char m = b64_char n -> m = n.
Proof.
  intros Hm Hn H. rewrite <- (b64_index_char m Hm), <- (b64_index_char n Hn).
  by rewrite H.
Qed.

Lemma b64_char_not_pad n : (0 <= n < 64)%Z -> b64_char n <> pad.
Proof.
  intros H. apply in_sextets in H.
  assert (forallb (fun n => negb (Ascii.eqb (b64_char n) pad)) sextets = true)
    as Hall by (vm_compute; reflexivity).
  rewrite forallb_forall in Hall. specialize (Hall _ H).
  intros Heq. rewrite Heq, Ascii.eqb_refl in Hall. discriminate.
Qed.

Lemma pairs_ok :
  forallb (fun a => forallb (pair_ok a) octets) octets = true.
Proof. vm_compute. reflexivity. Qed.

Lemma pair_ok_bytes a b : pair_ok (byte_val a) (byte_val b) = true.
Proof.
  pose proof pairs_ok as H. rewrite forallb_forall in H.
  specialize (H _ (in_octets _ (byte_val_range a))).
  rewrite forallb_forall in H.
  exact (H _ (in_octets _ (byte_val_range b))).
Qed.

Ltac split_ok H :=
  unfold pair_ok in H;
  repeat (apply andb_prop in H; destruct H as [H ?]);
  repeat match goal with
         | X : (_ <=? _)%Z = true |- _ => apply Z.leb_le in X
         | X : (_ <? _)%Z = true |- _ => apply Z.ltb_lt in X
         | X : (_ =? _)%Z = true |- _ => apply Z.eqb_eq in X
         end.

Lemma sextet_ranges a b :
  (0 <= sextet1 (byte_val a) < 64 /\ 0 <= sextet2 (byte_val a) (byte_val b) < 64
   /\ 0 <= sextet3 (byte_val a) (byte_val b) < 64 /\ 0 <= sextet4 (byte_val a) < 64
   /\ 0 <= sextet2_last (byte_val a) < 64)%Z.
Proof. pose proof (pair_ok_bytes a b) as H. split_ok H. lia. Qed.

Lemma group_inj a b c a' b' c' :
  sextet1 (byte_val a) = sextet1 (byte_val a') ->
  sextet2 (byte_val a) (byte_val b) = sextet2 (byte_val a') (byte_val b') ->
  sextet3 (byte_val b) (byte_val c) = sextet3 (byte_val b') (byte_val c') ->
  sextet4 (byte_val c) = sextet4 (byte_val c') ->
  a = a' /\ b = b' /\ c = c'.
Proof.
  intros E1 E2 E3 E4.
  pose proof (pair_ok_bytes a b) as Hab. pose proof (pair_ok_bytes a' b') as Hab'.
  pose proof (pair_ok_bytes b c) as Hbc. pose proof (pair_ok_bytes b' c') as Hbc'.
  pose proof (pair_ok_bytes c c) as Hc. pose proof (pair_ok_bytes c' c') as Hc'.
  split_ok Hab. split_ok Hab'. split_ok Hbc. split_ok Hbc'.
  split_ok Hc. split_ok Hc'.
  pose proof (Z.div_mod (byte_val b) 16 ltac:(lia)).
  pose proof (Z.div_mod (byte_val b') 16 ltac:(lia)).
  pose proof (Z.div_mod (byte_val c) 64 ltac:(lia)).
  pose proof (Z.div_mod (byte_val c') 64 ltac:(lia)).
  repeat split; apply byte_val_inj; congruence || lia.
Qed.

Lemma last_inj a a' :
  sextet1 (byte_val a) = sextet1 (byte_val a') ->
  sextet2_last (byte_val a) = sextet2_last (byte_val a') -> a = a'.
Proof.
  intros E1 E2.
  pose proof (pair_ok_bytes a a) as H. pose proof (pair_ok_bytes a' a') as H'.
  split_ok H. split_ok H'.
  pose proof (Z.div_mod (byte_val a) 4 ltac:(lia)).
  pose proof (Z.div_mod (byte_val a') 4 ltac:(lia)).
  pose proof (Z.div_mod (byte_val a) 16 ltac:(lia)).
  apply byte_val_inj.
  assert (byte_val a mod 4 = byte_val a' mod 4)%Z by congruence.
  assert (byte_val a / 4 = byte_val a' / 4)%Z.
  { unfold sextet1 in E1. rewrite !Z.shiftr_div_pow2 in E1 by lia. exact E1. }
  lia.
Qed.

Lemma rstrip_cons x t : x <> pad -> rstrip pad (x :: t) = x :: rstrip pad t.
Proof.
  intros H. cbn [rstrip]. destruct (rstrip pad t); [|reflexivity].
  destruct (Ascii.eqb_spec x pad); [contradiction|reflexivity].
Qed.

Lemma string_of_list_ascii_inj l1 l2 :
  string_of_list_ascii l1 = string_of_list_ascii l2 -> l1 = l2.
Proof.
  intros H. rewrite <- (list_ascii_of_string_of_list_ascii l1),
    <- (list_ascii_of_string_of_list_ascii l2). by rewrite H.
Qed.

Lemma sx1 a : (0 <= Z.shiftr (byte_val a) 2 < 64)%Z.
Proof. apply (sextet_ranges a a). Qed.
Lemma sx2 a b :
  (0 <= Z.lor (Z.shiftl (Z.land (byte_val a) 3) 4) (Z.shiftr (byte_val b) 4) < 64)%Z.
Proof. apply (sextet_ranges a b). Qed.
Lemma sx3 a b :
  (0 <= Z.lor (Z.shiftl (Z.land (byte_val a) 15) 2) (Z.shiftr (byte_val b) 6) < 64)%Z.
Proof. apply (sextet_ranges a b). Qed.
Lemma sx4 a : (0 <= Z.land (byte_val a) 63 < 64)%Z.
Proof. apply (sextet_ranges a a). Qed.
Lemma sx2_last a : (0 <= Z.shiftl (Z.land (byte_val a) 3) 4 < 64)%Z.
Proof. apply (sextet_ranges a a). Qed.

Lemma generate_alert_id_inj (u1 u2 : list byte) :
  length u1 = 16%nat -> length u2 = 16%nat ->
  generate_alert_id u1 = generate_alert_id u2 -> u1 = u2.
Proof.
  intros H1 H2 Heq.
  do 17 (destruct u1 as [|? u1]; try discriminate H1).
  do 17 (destruct u2 as [|? u2]; try discriminate H2).
  unfold generate_alert_id in Heq. apply string_of_list_ascii_inj in Heq.
  cbn [urlsafe_b64encode] in Heq.
  repeat rewrite (rstrip_cons (b64_char _)) in Heq
    by (apply b64_char_not_pad;
        first [apply sx1 | apply sx2 | apply sx3 | apply sx4 | apply sx2_last]).
  change (rstrip pad [pad; pad]) with (@nil ascii) in Heq.
  injection Heq as ?.
  repeat match goal with
         | X : b64_char _ = b64_char _ |- _ =>
             apply b64_char_inj in X;
             [| first [apply sx1 | apply sx2 | apply sx3 | apply sx4 | apply sx2_last]..]
         end.
  repeat match goal with
         | A : Z.shiftr (byte_val ?a) 2 = Z.shiftr (byte_val ?a') 2,
           B : Z.lor _ (Z.shiftr (byte_val ?b) 4) = Z.lor _ (Z.shiftr (byte_val ?b') 4),
           C : Z.lor _ (Z.shiftr (byte_val ?c) 6) = Z.lor _ (Z.shiftr (byte_val ?c') 6),
           D : Z.land (byte_val ?c) 63 = Z.land (byte_val ?c') 63 |- _ =>
             destruct (group_inj a b c a' b' c' A B C D) as (? & ? & ?);
             clear A B C D
         end.
  match goal with
  | A : Z.shiftr (byte_val ?a) 2 = Z.shiftr (byte_val ?a') 2,
    B : Z.shiftl _ 4 = Z.shiftl _ 4 |- _ =>
      pose proof (last_inj a a' A B)
  end.
  subst. reflexivity.
Qed.

(** The IDs of the records logged from draw [k] on. *)
Section Ids.
Variable E : env.

Lemma ids_of_records k rs :
  map alert_id (records_from E k rs)
  = map (fun i => generate_alert_id (uuid4 E i)) (seq k (length rs)).
Proof.
  revert k. induction rs as [|[[t c] s] rs IH]; intros k; simpl; [done|].
  by rewrite IH.
Qed.

Lemma new_ids_distinct k n :
  (forall i, (k <= i < k + n)%nat -> length (uuid4 E i) = 16%nat) ->
  (forall i j, (k <= i)%nat -> (i < j)%nat -> (j < k + n)%nat ->
               uuid4 E i <> uuid4 E j) ->
  NoDup (map (fun i => generate_alert_id (uuid4 E i)) (seq k n)).
Proof.
  revert k. induction n as [|n IH]; intros k Hlen Hne; simpl.
  - constructor.
  - apply NoDup_cons. split.
    + intros Hin. apply list_elem_of_In, in_map_iff in Hin.
      destruct Hin as (j & Hj & Hin). apply in_seq in Hin.
      apply generate_alert_id_inj in Hj; [| apply Hlen; lia ..].
      apply (Hne k j); [lia | lia | lia | by symmetry].
    + apply IH.
      * intros i Hi. apply Hlen. lia.
      * intros i j H1 H2 H3. apply Hne; lia.
Qed.

End Ids.

(** * Requests, signals and the shape of a row body *)

Section RequestFacts.
Variable E : env.

Lemma request_of_records k rs : map request_of (records_from E k rs) = rs.
Proof.
  revert k. induction rs as [|[[t c] s] rs IH]; intros k; simpl; [done|].
  by rewrite IH.
Qed.

Lemma about_requests sig l :
  map request_of (about sig l)
  = List.filter (fun rq : request => names sig (fst (fst rq))) (map request_of l).
Proof.
  induction l as [|a l IH]; simpl; [done|].
  destruct (names sig (alert_title a)); simpl; by rewrite IH.
Qed.

Lemma severity_about sig k rs :
  map severity (about sig (records_from E k rs))
  = map snd (List.filter (fun rq : request => names sig (fst (fst rq))) rs).
Proof.
  rewrite <- (request_of_records k rs) at 2. rewrite <- about_requests.
  rewrite map_map. reflexivity.
Qed.

Lemma length_about sig k rs :
  length (about sig (records_from E k rs))
  = length (List.filter (fun rq : request => names sig (fst (fst rq))) rs).
Proof.
  rewrite <- (request_of_records k rs) at 2. rewrite <- about_requests.
  by rewrite length_map.
Qed.

End RequestFacts.

Lemma tagged_filter sigs sig sig' rs :
  tagged sigs sig rs -> In sig' sigs ->
  List.filter (fun rq : request => names sig' (fst (fst rq))) rs
  = if decide (sig' = sig) then rs else [].
Proof.
  intros Ht Hin. induction Ht as [|rq rs Hrq Ht IH]; simpl.
  - by destruct (decide _).
  - rewrite IH.
    assert (names sig' (fst (fst rq)) = true <-> sig' = sig) as Hiff.
    { split.
      - intros Hn.
        assert (In sig' (List.filter (fun s => names s (fst (fst rq))) sigs))
          as Hf by (apply filter_In; auto).
        rewrite Hrq in Hf. destruct Hf as [->|[]]. reflexivity.
      - intros ->.
        assert (In sig (List.filter (fun s => names s (fst (fst rq))) sigs))
          as Hf by (rewrite Hrq; left; reflexivity).
        apply filter_In in Hf. tauto. }
    destruct (decide (sig' = sig)) as [->|Hne].
    + rewrite (proj2 Hiff eq_refl). reflexivity.
    + destruct (names sig' (fst (fst rq))); [|reflexivity].
      exfalso. apply Hne, Hiff. reflexivity.
Qed.

Lemma tagged_nil sigs sig : tagged sigs sig [].
Proof. constructor. Qed.

Lemma tagged_same sigs sig rs :
  tagged sigs sig rs ->
  List.filter (fun rq : request => names sig (fst (fst rq))) rs = rs.
Proof.
  intros Ht. induction Ht as [|rq rs Hrq Ht IH]; simpl; [done|].
  assert (In sig (List.filter (fun s => names s (fst (fst rq))) sigs)) as Hf
    by (rewrite Hrq; left; reflexivity).
  apply filter_In in Hf. destruct Hf as [_ ->]. by rewrite IH.
Qed.

Lemma tagged_other sigs sig sig' rs :
  tagged sigs sig rs -> In sig' sigs -> sig' <> sig ->
  List.filter (fun rq : request => names sig' (fst (fst rq))) rs = [].
Proof.
  intros Ht Hin Hne. rewrite (tagged_filter _ _ _ _ Ht Hin).
  by destruct (decide (sig' = sig)).
Qed.

Section MonadFacts.
Variable E : env.

Lemma fires_then {A : Type} (m : M unit) (rs : list request) (k : M A) st :
  fires E m rs -> (m >>> k) st = k (fire_all E rs st).
Proof. intros H. unfold bind. by rewrite H. Qed.

Lemma raises_then {A : Type} (m : M unit) (k : M A) st e :
  m st = Raise e -> (m >>> k) st = Raise e.
Proof. intros H. unfold bind. by rewrite H. Qed.

Lemma start_row_then {A : Type} (k : M A) st :
  (start_row >>> k) st = k (reset st).
Proof. reflexivity. Qed.

(** The end of every row body: the IDs collected are joined, or the field is
    cleared. *)
Lemma link_after {R : Type} (set : option string -> R) rs st :
  (let* a := link in ret (set a)) (fire_all E rs (reset st))
  = Ok (set (match ids_from E (draws st) rs with
             | [] => None
             | ids => Some (join ids)
             end),
        fire_all E rs (reset st)).
Proof.
  unfold bind, link, ret. rewrite fire_all_eq. cbn.
  reflexivity.
Qed.

End MonadFacts.

Ltac use_tests :=
  repeat match goal with
         | H : _ = true |- _ => rewrite H
         | H : _ = false |- _ => rewrite H
         end.

(** Closes a goal [block_spec E m sigs sig sevs] once the tests of the block
    have been decided in the context. *)
Ltac block_done E :=
  eexists; split;
  [ intros ?st; unfold bind, lift; cbn; use_tests; cbn;
    first [ exact (fires_fire E _ _ _ _) | exact (fires_ret E _) ]
  | split; [ cbn; lia | split; [ repeat constructor | reflexivity ] ] ].

(** * ecommerce_engine.py: the rule blocks and the row *)

Section EcommerceFacts.
Import Ecommerce.
Variable E : env.
Variable r : row.

Lemma conversion_block :
  if is_text (conversion_rate r)
  then forall st, rule_conversion_rate E r st = Raise ValueError
  else block_spec E (rule_conversion_rate E r) signals sig_conversion
         (band num_lt (conversion_rate r) CONVERSION_CRITICAL_THRESHOLD
            CONVERSION_MEDIUM_THRESHOLD CONVERSION_LOW_THRESHOLD).
Proof.
  unfold rule_conversion_rate, band.
  destruct (conversion_rate r) as [|q|s]; cbn [is_text notna to_numeric float_];
    [block_done E| |reflexivity].
  cbn [first_matching_cutoff].
  destruct (num_lt q CONVERSION_CRITICAL_THRESHOLD) eqn:H1; [block_done E|].
  destruct (num_lt q CONVERSION_MEDIUM_THRESHOLD) eqn:H2; [block_done E|].
  destruct (num_lt q CONVERSION_LOW_THRESHOLD) eqn:H3; block_done E.
Qed.

Lemma cart_block :
  if is_text (cart_abandonment_rate r)
  then forall st, rule_cart_abandonment E r st = Raise ValueError
  else block_spec E (rule_cart_abandonment E r) signals sig_cart
         (band num_gt (cart_abandonment_rate r)
            CART_ABANDONMENT_CRITICAL_THRESHOLD
            CART_ABANDONMENT_MEDIUM_THRESHOLD CART_ABANDONMENT_LOW_THRESHOLD).
Proof.
  unfold rule_cart_abandonment, band.
  destruct (cart_abandonment_rate r) as [|q|s];
    cbn [is_text notna to_numeric float_]; [block_done E| |reflexivity].
  cbn [first_matching_cutoff].
  destruct (num_gt q CART_ABANDONMENT_CRITICAL_THRESHOLD) eqn:H1;
    [block_done E|].
  destruct (num_gt q CART_ABANDONMENT_MEDIUM_THRESHOLD) eqn:H2;
    [block_done E|].
  destruct (num_gt q CART_ABANDONMENT_LOW_THRESHOLD) eqn:H3; block_done E.
Qed.

Lemma views_block :
  if is_text (online_views r)
  then forall st, rule_online_views E r st = Raise ValueError
  else block_spec E (rule_online_views E r) signals sig_views
         (band num_lt (online_views r) VIEWS_CRITICAL_DROP_THRESHOLD
            VIEWS_MEDIUM_DROP_THRESHOLD VIEWS_LOW_DROP_THRESHOLD).
Proof.
  unfold rule_online_views, band.
  destruct (online_views r) as [|q|s];
    cbn [is_text notna to_numeric float_]; [block_done E| |reflexivity].
  cbn [first_matching_cutoff].
  destruct (num_lt q VIEWS_CRITICAL_DROP_THRESHOLD) eqn:H1; [block_done E|].
  destruct (num_lt q VIEWS_MEDIUM_DROP_THRESHOLD) eqn:H2; [block_done E|].
  destruct (num_lt q VIEWS_LOW_DROP_THRESHOLD) eqn:H3; block_done E.
Qed.

Lemma add_to_cart_block :
  if is_text (add_to_cart r)
  then forall st, rule_add_to_cart E r st = Raise ValueError
  else block_spec E (rule_add_to_cart E r) signals sig_add_to_cart
         (band num_lt (add_to_cart r) ADD_TO_CART_CRITICAL_DROP_THRESHOLD
            ADD_TO_CART_MEDIUM_DROP_THRESHOLD ADD_TO_CART_LOW_DROP_THRESHOLD).
Proof.
  unfold rule_add_to_cart, band.
  destruct (add_to_cart r) as [|q|s];
    cbn [is_text notna to_numeric float_]; [block_done E| |reflexivity].
  cbn [first_matching_cutoff].
  destruct (num_lt q ADD_TO_CART_CRITICAL_DROP_THRESHOLD) eqn:H1;
    [block_done E|].
  destruct (num_lt q ADD_TO_CART_MEDIUM_DROP_THRESHOLD) eqn:H2;
    [block_done E|].
  destruct (num_lt q ADD_TO_CART_LOW_DROP_THRESHOLD) eqn:H3; block_done E.
Qed.

(** A view count above the high-interest threshold is in no drop band. *)
Lemma views_bands_exclusive q :
  num_gt q HIGH_INTEREST_VIEWS_THRESHOLD = true ->
  num_lt q VIEWS_LOW_DROP_THRESHOLD = false
  /\ num_lt q VIEWS_MEDIUM_DROP_THRESHOLD = false
  /\ num_lt q VIEWS_CRITICAL_DROP_THRESHOLD = false.
Proof.
  unfold num_gt, num_lt, HIGH_INTEREST_VIEWS_THRESHOLD,
    VIEWS_LOW_DROP_THRESHOLD, VIEWS_MEDIUM_DROP_THRESHOLD,
    VIEWS_CRITICAL_DROP_THRESHOLD.
  intros H. apply negb_true_iff in H.
  rewrite !negb_false_iff, !Qle_bool_iff.
  assert (~ (q <= 1000)%Q) as Hq
    by (rewrite <- Qle_bool_iff; rewrite H; discriminate).
  apply Qnot_le_lt in Hq.
  split; [|split]; apply Qlt_le_weak; eapply Qlt_trans; [|exact Hq| |exact Hq| |exact Hq];
    reflexivity.
Qed.

Lemma interest_block :
  is_text (online_views r) = false ->
  exists sevs,
    block_spec E (rule_high_interest E r) signals sig_interest sevs
    /\ (sevs <> [] ->
        band num_lt (online_views r) VIEWS_CRITICAL_DROP_THRESHOLD
          VIEWS_MEDIUM_DROP_THRESHOLD VIEWS_LOW_DROP_THRESHOLD = []).
Proof.
  unfold rule_high_interest, band. intros Ht.
  destruct (contains "deal" (str_lower (search_term r))
            || contains "best" (str_lower (search_term r))
            || contains "discount" (str_lower (search_term r))) eqn:Hk;
    [|exists []; split; [block_done E|done]].
  destruct (online_views r) as [|q|s]; [| |discriminate Ht];
    cbn [notna to_numeric float_];
    [exists []; split; [block_done E|done]|].
  destruct (num_gt q HIGH_INTEREST_VIEWS_THRESHOLD) eqn:Hv;
    [|exists []; split; [block_done E|done]].
  destruct (isna (promotional_campaign_id r)
            || cell_is (promotional_campaign_id r) "None") eqn:Hp;
    [|exists []; split; [block_done E|done]].
  exists ["Low"]. split; [block_done E|]. intros _.
  destruct (views_bands_exclusive q Hv) as (-> & -> & ->). reflexivity.
Qed.


Lemma ecommerce_row_raises st :
  has_text r = true -> process_row E r st = Raise ValueError.
Proof.
  unfold has_text, process_row. intros H. rewrite start_row_then.
  pose proof conversion_block as B1. pose proof cart_block as B2.
  pose proof views_block as B3. pose proof add_to_cart_block as B4.
  destruct (is_text (conversion_rate r)); [by apply raises_then|].
  destruct B1 as (rs1 & F1 & _). rewrite (fires_then E _ _ _ _ F1).
  destruct (is_text (cart_abandonment_rate r)); [by apply raises_then|].
  destruct B2 as (rs2 & F2 & _). rewrite (fires_then E _ _ _ _ F2).
  destruct (is_text (online_views r)); [by apply raises_then|].
  destruct B3 as (rs3 & F3 & _). rewrite (fires_then E _ _ _ _ F3).
  destruct (is_text (add_to_cart r)); [by apply raises_then|].
  discriminate H.
Qed.

Lemma ecommerce_row_ok st :
  has_text r = false ->
  exists rs1 rs2 rs3 rs4 rs5 sevs5,
    block_spec_of signals sig_conversion
      (band num_lt (conversion_rate r) CONVERSION_CRITICAL_THRESHOLD
         CONVERSION_MEDIUM_THRESHOLD CONVERSION_LOW_THRESHOLD) rs1
    /\ block_spec_of signals sig_cart
         (band num_gt (cart_abandonment_rate r)
            CART_ABANDONMENT_CRITICAL_THRESHOLD
            CART_ABANDONMENT_MEDIUM_THRESHOLD CART_ABANDONMENT_LOW_THRESHOLD)
         rs2
    /\ block_spec_of signals sig_views
         (band num_lt (online_views r) VIEWS_CRITICAL_DROP_THRESHOLD
            VIEWS_MEDIUM_DROP_THRESHOLD VIEWS_LOW_DROP_THRESHOLD) rs3
    /\ block_spec_of signals sig_add_to_cart
         (band num_lt (add_to_cart r) ADD_TO_CART_CRITICAL_DROP_THRESHOLD
            ADD_TO_CART_MEDIUM_DROP_THRESHOLD ADD_TO_CART_LOW_DROP_THRESHOLD)
         rs4
    /\ block_spec_of signals sig_interest sevs5 rs5
    /\ (sevs5 <> [] ->
        band num_lt (online_views r) VIEWS_CRITICAL_DROP_THRESHOLD
          VIEWS_MEDIUM_DROP_THRESHOLD VIEWS_LOW_DROP_THRESHOLD = [])
    /\ process_row E r st
       = Ok (set_alert_id r
               (match ids_from E (draws st) (rs1 ++ rs2 ++ rs3 ++ rs4 ++ rs5)
                with
                | [] => None
                | ids => Some (join ids)
                end),
             fire_all E (rs1 ++ rs2 ++ rs3 ++ rs4 ++ rs5) (reset st)).
Proof.
  unfold has_text. intros H.
  apply orb_false_elim in H as [H H4]. apply orb_false_elim in H as [H H3].
  apply orb_false_elim in H as [H1 H2].
  pose proof conversion_block as B1. pose proof cart_block as B2.
  pose proof views_block as B3. pose proof add_to_cart_block as B4.
  rewrite H1 in B1. rewrite H2 in B2. rewrite H3 in B3. rewrite H4 in B4.
  destruct (interest_block H3) as (sevs5 & B5 & X).
  destruct B1 as (rs1 & F1 & S1). destruct B2 as (rs2 & F2 & S2).
  destruct B3 as (rs3 & F3 & S3). destruct B4 as (rs4 & F4 & S4).
  destruct B5 as (rs5 & F5 & S5).
  exists rs1, rs2, rs3, rs4, rs5, sevs5.
  repeat (split; [assumption|]).
  unfold process_row. rewrite start_row_then.
  rewrite (fires_then E _ _ _ _ F1), (fires_then E _ _ _ _ F2),
    (fires_then E _ _ _ _ F3), (fires_then E _ _ _ _ F4),
    (fires_then E _ _ _ _ F5).
  rewrite <- !fire_all_app. apply link_after.
Qed.

End EcommerceFacts.

(** Rewrites the filters over the requests of the blocks of a row. *)
Ltac pick_block :=
  rewrite ?List.filter_app;
  repeat match goal with
         | H : tagged ?sigs ?sig ?rs |- context [List.filter _ ?rs] =>
             first [ rewrite (tagged_same sigs sig rs H)
                   | rewrite (tagged_other sigs sig _ rs H)
                       by (first [cbn; tauto | discriminate]) ]
         end;
  rewrite ?app_nil_r; cbn [app].


(** * Engines whose row body always returns *)

Section EngineFacts.
Variable E : env.
Context {R : Type}.
Variable body : R -> M R.

Lemma iterrows_total :
  (forall r st, exists r' st', body r st = Ok (r', st')) ->
  forall df st, exists df' st', iterrows body df st = Ok (df', st').
Proof.
  intros Hb df. induction df as [|r df IH]; intros st; cbn [iterrows].
  - by exists [], st.
  - destruct (Hb r st) as (r' & st1 & H1).
    destruct (IH st1) as (df' & st2 & H2).
    exists (r' :: df'), st2. unfold bind. rewrite H1, H2. reflexivity.
Qed.

Lemma run_engine_total :
  (forall r st, exists r' st', body r st = Ok (r', st')) ->
  forall df L, exists df' L', run_engine body df L = Ok (df', L').
Proof.
  intros Hb df L. unfold run_engine.
  destruct (iterrows_total Hb df (mkState L 0 0 [])) as (df' & [L' ? ? ?] & ->).
  by exists df', L'.
Qed.

End EngineFacts.

(** * supplier_engine.py *)

Section SupplierFacts.
Import Supplier.
Variable E : env.
Variable r : row.

Lemma otd_block :
  block_spec E (rule_otd E r) signals sig_otd
    (band num_lt (on_time_delivery_rate r) OTD_CRITICAL_THRESHOLD
       OTD_MEDIUM_THRESHOLD OTD_LOW_THRESHOLD).
Proof.
  unfold rule_otd, band.
  destruct (to_numeric (on_time_delivery_rate r)) as [q|]; [|block_done E].
  cbn [first_matching_cutoff].
  destruct (num_lt q OTD_CRITICAL_THRESHOLD) eqn:H1; [block_done E|].
  destruct (num_lt q OTD_MEDIUM_THRESHOLD) eqn:H2; [block_done E|].
  destruct (num_lt q OTD_LOW_THRESHOLD) eqn:H3; block_done E.
Qed.

Lemma defect_block :
  block_spec E (rule_defect_rate E r) signals sig_defect
    (band num_ge (defect_rate_percent r) DEFECT_CRITICAL_THRESHOLD
       DEFECT_MEDIUM_THRESHOLD DEFECT_LOW_THRESHOLD).
Proof.
  unfold rule_defect_rate, band.
  destruct (to_numeric (defect_rate_percent r)) as [q|]; [|block_done E].
  cbn [first_matching_cutoff].
  destruct (num_ge q DEFECT_CRITICAL_THRESHOLD) eqn:H1; [block_done E|].
  destruct (num_ge q DEFECT_MEDIUM_THRESHOLD) eqn:H2; [block_done E|].
  destruct (num_ge q DEFECT_LOW_THRESHOLD) eqn:H3; block_done E.
Qed.

Lemma quality_block :
  block_spec E (rule_quality_score E r) signals sig_quality
    (band num_lt (quality_score r) QUALITY_CRITICAL_THRESHOLD
       QUALITY_MEDIUM_THRESHOLD QUALITY_LOW_THRESHOLD).
Proof.
  unfold rule_quality_score, band.
  destruct (to_numeric (quality_score r)) as [q|]; [|block_done E].
  cbn [first_matching_cutoff].
  destruct (num_lt q QUALITY_CRITICAL_THRESHOLD) eqn:H1; [block_done E|].
  destruct (num_lt q QUALITY_MEDIUM_THRESHOLD) eqn:H2; [block_done E|].
  destruct (num_lt q QUALITY_LOW_THRESHOLD) eqn:H3; block_done E.
Qed.

Lemma lead_time_block :
  block_spec E (rule_lead_time E r) signals sig_lead_time
    (band num_ge (lead_time_days r) LEAD_TIME_CRITICAL_THRESHOLD
       LEAD_TIME_MEDIUM_THRESHOLD LEAD_TIME_LOW_THRESHOLD).
Proof.
  unfold rule_lead_time, band.
  destruct (to_numeric (lead_time_days r)) as [q|]; [|block_done E].
  cbn [first_matching_cutoff].
  destruct (num_ge q LEAD_TIME_CRITICAL_THRESHOLD) eqn:H1; [block_done E|].
  destruct (num_ge q LEAD_TIME_MEDIUM_THRESHOLD) eqn:H2; [block_done E|].
  destruct (num_ge q LEAD_TIME_LOW_THRESHOLD) eqn:H3; block_done E.
Qed.

Lemma supplier_row_ok st :
  exists rs1 rs2 rs3 rs4,
    block_spec_of signals sig_otd
      (band num_lt (on_time_delivery_rate r) OTD_CRITICAL_THRESHOLD
         OTD_MEDIUM_THRESHOLD OTD_LOW_THRESHOLD) rs1
    /\ block_spec_of signals sig_defect
         (band num_ge (defect_rate_percent r) DEFECT_CRITICAL_THRESHOLD
            DEFECT_MEDIUM_THRESHOLD DEFECT_LOW_THRESHOLD) rs2
    /\ block_spec_of signals sig_quality
         (band num_lt (quality_score r) QUALITY_CRITICAL_THRESHOLD
            QUALITY_MEDIUM_THRESHOLD QUALITY_LOW_THRESHOLD) rs3
    /\ block_spec_of signals sig_lead_time
         (band num_ge (lead_time_days r) LEAD_TIME_CRITICAL_THRESHOLD
            LEAD_TIME_MEDIUM_THRESHOLD LEAD_TIME_LOW_THRESHOLD) rs4
    /\ process_row E r st
       = Ok (set_alert_id r
               (match ids_from E (draws st) (rs1 ++ rs2 ++ rs3 ++ rs4) with
                | [] => None
                | ids => Some (join ids)
                end),
             fire_all E (rs1 ++ rs2 ++ rs3 ++ rs4) (reset st)).
Proof.
  destruct otd_block as (rs1 & F1 & S1). destruct defect_block as (rs2 & F2 & S2).
  destruct quality_block as (rs3 & F3 & S3).
  destruct lead_time_block as (rs4 & F4 & S4).
  exists rs1, rs2, rs3, rs4. repeat (split; [assumption|]).
  unfold process_row. rewrite start_row_then.
  rewrite (fires_then E _ _ _ _ F1), (fires_then E _ _ _ _ F2),
    (fires_then E _ _ _ _ F3), (fires_then E _ _ _ _ F4).
  rewrite <- !fire_all_app. apply link_after.
Qed.

End SupplierFacts.

Lemma band_missing cmp c x y z : to_numeric c = None -> band cmp c x y z = [].
Proof. unfold band. by intros ->. Qed.

Lemma map_nil_inv {A B : Type} (f : A -> B) l : map f l = [] -> l = [].
Proof. by destruct l. Qed.


(** * inventory_engine.py *)

(** Closes [exists sevs, block_spec E m sigs sig sevs]. *)
Ltac some_block E := eexists; block_done E.

Section InventoryFacts.
Import Inventory.
Variable E : env.
Variable r : row.

Lemma stockout_block :
  exists sevs, block_spec E (rule_stockout E r) signals sig_stockout sevs.
Proof.
  unfold rule_stockout, effective_stock_of.
  destruct (to_numeric (current_stock r)) as [c|]; [|some_block E].
  destruct (to_numeric (safety_stock_units r)) as [s|];
    [|destruct (to_numeric (in_transit_in r)); some_block E].
  destruct (to_numeric (reorder_point_units r)) as [p|];
    [|destruct (to_numeric (in_transit_in r)); some_block E].
  destruct (to_numeric (in_transit_in r)) as [i|].
  - destruct (num_le (c + i) 0) eqn:H0; [some_block E|].
    destruct (num_lt (c + i) (s * STOCKOUT_CRITICAL_THRESHOLD_FACTOR)) eqn:H1;
      [some_block E|].
    destruct (num_lt (c + i) (s * STOCKOUT_MEDIUM_THRESHOLD_FACTOR)) eqn:H2;
      [some_block E|].
    destruct (num_lt (c + i) (s * STOCKOUT_LOW_THRESHOLD_FACTOR)) eqn:H3;
      [some_block E|].
    destruct (num_lt (c + i) p) eqn:H4; some_block E.
  - destruct (num_le c 0) eqn:H0; [some_block E|].
    destruct (num_lt c (s * STOCKOUT_CRITICAL_THRESHOLD_FACTOR)) eqn:H1;
      [some_block E|].
    destruct (num_lt c (s * STOCKOUT_MEDIUM_THRESHOLD_FACTOR)) eqn:H2;
      [some_block E|].
    destruct (num_lt c (s * STOCKOUT_LOW_THRESHOLD_FACTOR)) eqn:H3;
      [some_block E|].
    destruct (num_lt c p) eqn:H4; some_block E.
Qed.

Lemma overstock_block :
  exists sevs, block_spec E (rule_overstock E r) signals sig_overstock sevs.
Proof.
  unfold rule_overstock.
  destruct (to_numeric (current_stock r)) as [c|]; [|some_block E].
  destruct (to_numeric (storage_capacity_units r)) as [s|]; [|some_block E].
  destruct (to_numeric (daily_sales_avg r)) as [d|]; [|some_block E].
  destruct (num_gt d 0) eqn:H0; [|some_block E].
  destruct (num_gt c (s * OVERSTOCK_CRITICAL_CAPACITY_FACTOR)
            || num_gt (c / d) OVERSTOCK_CRITICAL_DOS) eqn:H1; [some_block E|].
  destruct (num_gt c (s * OVERSTOCK_MEDIUM_CAPACITY_FACTOR)
            || num_gt (c / d) OVERSTOCK_MEDIUM_DOS) eqn:H2; [some_block E|].
  destruct (num_gt c (s * OVERSTOCK_LOW_CAPACITY_FACTOR)
            || num_gt (c / d) OVERSTOCK_LOW_DOS) eqn:H3; some_block E.
Qed.

Lemma discrepancy_block :
  exists sevs,
    block_spec E (rule_discrepancy E r) signals sig_discrepancy sevs.
Proof.
  unfold rule_discrepancy.
  destruct (to_numeric (on_hand_units r)) as [h|]; [|some_block E].
  destruct (to_numeric (available_for_sale_units r)) as [a|]; [|some_block E].
  destruct (num_ge (Qabs (h - a)) DISCREPANCY_CRITICAL_ABS) eqn:H1;
    [some_block E|].
  destruct (num_ge (Qabs (h - a)) DISCREPANCY_MEDIUM_ABS) eqn:H2;
    [some_block E|].
  destruct (num_ge (Qabs (h - a)) DISCREPANCY_LOW_ABS) eqn:H3; some_block E.
Qed.

Lemma slow_moving_block :
  exists sevs,
    block_spec E (rule_slow_moving E r) signals sig_slow_moving sevs.
Proof.
  unfold rule_slow_moving.
  destruct (to_numeric (last_24h_sales r)) as [l|]; [|some_block E].
  destruct (to_numeric (daily_sales_avg r)) as [d|]; [|some_block E].
  destruct (to_numeric (current_stock r)) as [c|]; [|some_block E].
  destruct (to_numeric (reorder_point_units r)) as [p|]; [|some_block E].
  destruct (num_gt d 0) eqn:H0; [|some_block E].
  destruct (num_eq l 0 && num_gt c p) eqn:H1; [some_block E|].
  destruct (num_lt l (d * SLOW_MOVING_MEDIUM_SALES_FACTOR)) eqn:H2;
    [some_block E|].
  destruct (num_lt l (d * SLOW_MOVING_LOW_SALES_FACTOR)) eqn:H3; some_block E.
Qed.

Lemma high_sales_block :
  exists sevs,
    block_spec E (rule_high_sales E r) signals sig_high_sales sevs.
Proof.
  unfold rule_high_sales.
  destruct (to_numeric (last_24h_sales r)) as [l|]; [|some_block E].
  destruct (to_numeric (daily_sales_avg r)) as [d|]; [|some_block E].
  destruct (to_numeric (current_stock r)) as [c|]; [|some_block E].
  destruct (num_gt d 0) eqn:H0; [|some_block E].
  destruct (num_gt l (d * HIGH_SALES_CRITICAL_FACTOR)
            && num_lt c (d * 2)) eqn:H1; [some_block E|].
  destruct (num_gt l (d * HIGH_SALES_MEDIUM_FACTOR)
            && num_lt c (d * 3)) eqn:H2; [some_block E|].
  destruct (num_gt l (d * HIGH_SALES_LOW_FACTOR)
            && num_lt c (d * 4)) eqn:H3; some_block E.
Qed.

Lemma inventory_row_ok st :
  exists rs1 rs2 rs3 rs4 rs5 v1 v2 v3 v4 v5,
    block_spec_of signals sig_stockout v1 rs1
    /\ block_spec_of signals sig_overstock v2 rs2
    /\ block_spec_of signals sig_discrepancy v3 rs3
    /\ block_spec_of signals sig_slow_moving v4 rs4
    /\ block_spec_of signals sig_high_sales v5 rs5
    /\ process_row E r st
       = Ok (set_alert_id r
               (match ids_from E (draws st) (rs1 ++ rs2 ++ rs3 ++ rs4 ++ rs5)
                with
                | [] => None
                | ids => Some (join ids)
                end),
             fire_all E (rs1 ++ rs2 ++ rs3 ++ rs4 ++ rs5) (reset st)).
Proof.
  destruct stockout_block as (v1 & rs1 & F1 & S1).
  destruct overstock_block as (v2 & rs2 & F2 & S2).
  destruct discrepancy_block as (v3 & rs3 & F3 & S3).
  destruct slow_moving_block as (v4 & rs4 & F4 & S4).
  destruct high_sales_block as (v5 & rs5 & F5 & S5).
  exists rs1, rs2, rs3, rs4, rs5, v1, v2, v3, v4, v5.
  repeat (split; [assumption|]).
  unfold process_row. rewrite start_row_then.
  rewrite (fires_then E _ _ _ _ F1), (fires_then E _ _ _ _ F2),
    (fires_then E _ _ _ _ F3), (fires_then E _ _ _ _ F4),
    (fires_then E _ _ _ _ F5).
  rewrite <- !fire_all_app. apply link_after.
Qed.

End InventoryFacts.


(** * logistics_engine.py *)

Section LogisticsFacts.
Import Logistics.
Variable E : env.
Variable r : row.

Lemma critical_status_block :
  exists t,
    fires E (rule_critical_status E r)
      [(t, "Logistics/Supply Chain", "Critical")]
    /\ tagged signals sig_status [(t, "Logistics/Supply Chain", "Critical")].
Proof.
  unfold rule_critical_status, description_suffix, context_info.
  destruct (to_numeric (Quantity r)) as [q|];
    [destruct (num_ge q HIGH_QUANTITY_THRESHOLD) eqn:H1|];
    (eexists; split;
     [intros ?st; cbn; exact (fires_fire E _ _ _ _) | repeat constructor]).
Qed.

(** The guard of the delay rule asks for a status that the critical-status
    rule has already taken. *)
Lemma delayed_is_critical s :
  in_list s CRITICAL_SHIPMENT_STATUSES = false -> String.eqb s "delayed" = false.
Proof.
  unfold in_list, CRITICAL_SHIPMENT_STATUSES. cbn [existsb].
  intros H. apply orb_false_elim in H as [H _]. exact H.
Qed.

Lemma delay_block_idle :
  String.eqb (str_lower (Status r)) "delayed" = false ->
  fires E (rule_delay E r) [].
Proof.
  intros H st. unfold rule_delay. rewrite H. reflexivity.
Qed.

Lemma delay_block :
  exists sevs, block_spec E (rule_delay E r) signals sig_delay sevs.
Proof.
  unfold rule_delay, description_suffix, context_info.
  destruct (String.eqb (str_lower (Status r)) "delayed") eqn:H0;
    [|eexists; block_done E].
  destruct (num_gt (delay_hours_of E r) 0) eqn:H1; [|eexists; block_done E].
  destruct (to_numeric (Quantity r)) as [q|]; eexists; block_done E.
Qed.

Lemma on_time_block :
  exists rs, fires E (rule_on_time E r) rs
             /\ block_spec_of signals sig_positive (map (fun _ => "Info") rs) rs.
Proof.
  unfold rule_on_time, block_spec_of, context_info.
  destruct (String.eqb (str_lower (Status r)) "delivered") eqn:H0;
    [|block_done E].
  destruct (ActualArrivalTime r) as [aa|]; [|block_done E].
  destruct (ScheduledArrivalTime r) as [sa|]; [|block_done E].
  destruct (aa <=? sa)%Z eqn:H1; [|block_done E].
  destruct (num_gt (hours_between sa aa) 0) eqn:H2;
    destruct (to_numeric (Quantity r)) as [q|]; block_done E.
Qed.

Lemma logistics_row_critical st :
  in_list (str_lower (Status r)) CRITICAL_SHIPMENT_STATUSES = true ->
  exists t,
    tagged signals sig_status [(t, "Logistics/Supply Chain", "Critical")]
    /\ process_row E r st
       = Ok (set_alert_id r (Some (generate_alert_id (uuid4 E (draws st)))),
             fire_pure E t "Logistics/Supply Chain" "Critical" (reset st)).
Proof.
  intros H. destruct critical_status_block as (t & F & T).
  exists t. split; [done|].
  unfold process_row. rewrite start_row_then, H.
  rewrite (fires_then E _ _ _ _ F).
  unfold bind, link_join, ret. cbn [fire_all]. rewrite fire_pure_eq.
  reflexivity.
Qed.

Lemma logistics_row_other st :
  in_list (str_lower (Status r)) CRITICAL_SHIPMENT_STATUSES = false ->
  exists rs,
    block_spec_of signals sig_positive (map (fun _ => "Info") rs) rs
    /\ process_row E r st
       = Ok (set_alert_id r
               (match ids_from E (draws st) rs with
                | [] => None
                | ids => Some (join ids)
                end),
             fire_all E rs (reset st)).
Proof.
  intros H. destruct on_time_block as (rs & F & S).
  exists rs. split; [done|].
  unfold process_row. rewrite start_row_then, H.
  rewrite (fires_then E _ _ _ _ (delay_block_idle (delayed_is_critical _ H))).
  rewrite (fires_then E _ _ _ _ F). apply link_after.
Qed.

End LogisticsFacts.

Lemma tagged_names sigs sig t c s :
  tagged sigs sig [(t, c, s)] ->
  forall sig', In sig' sigs -> names sig' t = if decide (sig' = sig) then true else false.
Proof.
  intros Ht sig' Hin.
  pose proof (tagged_filter sigs sig sig' _ Ht Hin) as H. cbn in H.
  destruct (decide (sig' = sig)); destruct (names sig' t); congruence.
Qed.


Lemma about_app sig l1 l2 : about sig (l1 ++ l2) = about sig l1 ++ about sig l2.
Proof. unfold about. apply List.filter_app. Qed.

Lemma about_nil_iff (E : env) sig k rs :
  about sig (records_from E k rs) = []
  <-> List.filter (fun rq : request => names sig (fst (fst rq))) rs = [].
Proof. rewrite <- !length_zero_iff_nil, length_about. reflexivity. Qed.

Section EngineNews.
Context {R : Type}.
Variable body : R -> M R.
Variable P : list AlertRecord -> Prop.
Hypothesis P_nil : P [].
Hypothesis P_app : forall a b, P a -> P b -> P (a ++ b).
Hypothesis body_news :
  forall r st, exists r' st' news,
    body r st = Ok (r', st') /\ alerts_df st' = alerts_df st ++ news /\ P news.

Lemma iterrows_news df st :
  exists df' st' news,
    iterrows body df st = Ok (df', st')
    /\ alerts_df st' = alerts_df st ++ news /\ P news.
Proof.
  revert st. induction df as [|r df IH]; intros st; cbn [iterrows].
  - exists [], st, []. by rewrite app_nil_r.
  - destruct (body_news r st) as (r' & st1 & n1 & H1 & A1 & P1).
    destruct (IH st1) as (df' & st2 & n2 & H2 & A2 & P2).
    exists (r' :: df'), st2, (n1 ++ n2). unfold bind. rewrite H1, H2.
    split; [reflexivity|]. split; [|by apply P_app].
    by rewrite A2, A1, app_assoc.
Qed.

Lemma run_engine_news df L :
  exists df' news, run_engine body df L = Ok (df', L ++ news) /\ P news.
Proof.
  unfold run_engine.
  destruct (iterrows_news df (mkState L 0 0 [])) as (df' & [L' ? ? ?] & news & -> & A & HP).
  cbn in A. subst L'. by exists df', news.
Qed.

End EngineNews.



(** * local_news_engine.py *)

(** Every active row with a public-safety keyword stops the engine: the
    alert is logged in the local frame, then the assignment through the
    unbound name raises. *)
Lemma local_news_public_safety_raises (E : env) (r : LocalNews.row)
    (st : run_state) :
  LocalNews.inactive E r = false ->
  any_in LocalNews.PUBLIC_SAFETY_KEYWORDS (str_lower (LocalNews.description r))
  = true ->
  LocalNews.process_row E r st = Raise NameError.
Proof.
  intros Ha Hk. unfold LocalNews.process_row. rewrite Ha, start_row_then, Hk.
  reflexivity.
Qed.

Lemma iterrows_raises {R : Type} (body : R -> M R) (r : R) (df : list R) st e :
  body r st = Raise e -> iterrows body (r :: df) st = Raise e.
Proof. intros H. cbn [iterrows]. unfold bind. by rewrite H. Qed.

(** C2. The code at the failing input: an active local-news row whose
    description contains evacuation (and flood) makes the engine raise
    NameError, so no alert reaches the returned log and no further row is
    processed; without the public-safety keyword the same row yields its
    weather alert. *)
Theorem local_news_evacuation_raises :
  LocalNews.inactive example_env LocalNews.evacuation_example = false
  /\ contains "evacuation"
       (str_lower (LocalNews.description LocalNews.evacuation_example)) = true
  /\ LocalNews.local_news_rule_engine example_env
       [LocalNews.evacuation_example] [] = Raise NameError
  /\ LocalNews.local_news_rule_engine example_env
       [LocalNews.flood_example] []
     = Ok ([LocalNews.set_alert_id LocalNews.flood_example
              (Some "EjRWeJq8Te-AESIzRFVmAA")],
           [mkAlert "EjRWeJq8Te-AESIzRFVmAA"
              [Str "Critical"; Lit " Weather Alert: "; Titled "weather alert";
               Lit " in "; Val (Text "Chennai"); Lit " (";
               Str "flood waters rise"; Lit ")"]
              "Local News/Events" "Critical" 0]).
Proof. repeat split; vm_compute; reflexivity. Qed.

(** * app.py: sampling and the summary cards *)

Section Sampling.
Import Dashboard.
Variable rand : random_source.

Lemma draw_from_perm {A : Type} k fuel (l : list A) :
  (length l <= fuel)%nat -> draw_from rand k fuel l ≡ₚ l.
Proof.
  revert k l. induction fuel as [|fuel IH]; intros k l Hl.
  - destruct l; [reflexivity|simpl in Hl; lia].
  - destruct l as [|x t]; [reflexivity|]. cbn [draw_from].
    set (i := (rand k mod length (x :: t))%nat).
    assert (i < length (x :: t))%nat as Hi
      by (apply Nat.mod_upper_bound; discriminate).
    destruct (lookup_lt_is_Some_2 (x :: t) i Hi) as [y Hy].
    rewrite (nth_lookup_Some _ _ _ _ Hy).
    rewrite IH.
    + symmetry. by apply delete_Permutation.
    + rewrite length_delete by eauto. simpl in *. lia.
Qed.

Lemma shuffle_perm {A : Type} k (l : list A) : shuffle rand k l ≡ₚ l.
Proof. apply draw_from_perm. lia. Qed.

Lemma sample_submseteq {A : Type} k n (l : list A) : sample rand k n l ⊆+ l.
Proof.
  unfold sample. rewrite <- (shuffle_perm k l) at 2. apply submseteq_take.
Qed.

Lemma sample_length {A : Type} k n (l : list A) :
  length (sample rand k n l) = min n (length l).
Proof.
  unfold sample. rewrite length_take, (Permutation_length (shuffle_perm k l)).
  reflexivity.
Qed.

Lemma sample_all {A : Type} k n (l : list A) :
  (length l <= n)%nat -> sample rand k n l ≡ₚ l.
Proof.
  intros H. unfold sample. rewrite take_ge.
  - apply shuffle_perm.
  - by rewrite (Permutation_length (shuffle_perm k l)).
Qed.

End Sampling.

Section Categories.
Import Dashboard.

Lemma unique_elem (x : string) (l : list string) : x ∈ unique l <-> x ∈ l.
Proof.
  induction l as [|y l IH]; cbn [unique]; [reflexivity|].
  rewrite !elem_of_cons, list_elem_of_filter, IH.
  destruct (decide (x = y)); tauto.
Qed.

Lemma unique_NoDup l : NoDup (unique l).
Proof.
  induction l as [|y l IH]; cbn [unique]; [constructor|].
  apply NoDup_cons. split.
  - rewrite list_elem_of_filter. tauto.
  - by apply NoDup_filter.
Qed.

(** The rows of the categories [cs], as a frame. *)
Lemma filter_cons_category (l : list AlertRecord) (c : string)
    (cs : list string) :
  c ∉ cs ->
  filter (fun a => category a ∈ c :: cs) l
  ≡ₚ filter (fun a => category a = c) l
     ++ filter (fun a => category a ∈ cs) l.
Proof.
  intros Hc. induction l as [|a l IH]; [reflexivity|].
  rewrite !filter_cons.
  destruct (decide (category a = c)) as [Heq|Hne].
  - rewrite decide_True by (rewrite Heq; left).
    rewrite decide_False by (rewrite Heq; exact Hc).
    cbn. by rewrite IH.
  - destruct (decide (category a ∈ cs)) as [Hin|Hnin].
    + rewrite decide_True by (by right).
      rewrite IH. by rewrite Permutation_middle.
    + rewrite decide_False; [exact IH|].
      rewrite elem_of_cons. tauto.
Qed.

Lemma filter_all_categories (l : list AlertRecord) (cs : list string) :
  (forall a, a ∈ l -> category a ∈ cs) ->
  filter (fun a => category a ∈ cs) l = l.
Proof.
  intros H. induction l as [|a l IH]; [reflexivity|].
  rewrite filter_cons, decide_True by (apply H; left).
  f_equal. apply IH. intros b Hb. apply H. by right.
Qed.

Lemma filter_no_category (l : list AlertRecord) :
  filter (fun a => category a ∈ @nil string) l = [].
Proof.
  induction l as [|a l IH]; [reflexivity|].
  rewrite filter_cons, decide_False by apply not_elem_of_nil. exact IH.
Qed.

Variable rand : random_source.
Variable df_raw : list AlertRecord.
Variable max_per_category : nat.

Lemma sample_categories_submseteq k (cs : list string) :
  NoDup cs ->
  sample_categories rand k df_raw max_per_category cs
  ⊆+ filter (fun a => category a ∈ cs) df_raw.
Proof.
  revert k. induction cs as [|c cs IH]; intros k Hnd; cbn [sample_categories].
  - apply submseteq_nil_l.
  - apply NoDup_cons in Hnd as [Hc Hnd].
    rewrite (filter_cons_category _ _ _ Hc).
    apply submseteq_app; [apply sample_submseteq|by apply IH].
Qed.

Lemma sample_categories_all k (cs : list string) :
  (forall c, length (filter (fun a => category a = c) df_raw)
             <= max_per_category)%nat ->
  NoDup cs ->
  sample_categories rand k df_raw max_per_category cs
  ≡ₚ filter (fun a => category a ∈ cs) df_raw.
Proof.
  intros Hcap. revert k. induction cs as [|c cs IH]; intros k Hnd;
    cbn [sample_categories].
  - by rewrite filter_no_category.
  - apply NoDup_cons in Hnd as [Hc Hnd].
    rewrite (filter_cons_category _ _ _ Hc), (IH _ Hnd).
    rewrite sample_all; [reflexivity|].
    specialize (Hcap c). lia.
Qed.

Lemma filter_category_of_sample k n (c c' : string) :
  filter (fun a => category a = c')
    (sample rand k n (filter (fun a => category a = c) df_raw))
  = if decide (c = c')
    then sample rand k n (filter (fun a => category a = c) df_raw)
    else [].
Proof.
  set (s := sample rand k n (filter (fun a => category a = c) df_raw)).
  assert (Forall (fun a => category a = c) s) as Hs.
  { apply Forall_forall. intros a Ha.
    pose proof (sample_submseteq rand k n
                  (filter (fun a => category a = c) df_raw)) as Hsub.
    pose proof (elem_of_submseteq _ _ _ Ha Hsub) as Hin.
    by apply list_elem_of_filter in Hin as [? _]. }
  clearbody s. induction Hs as [|a s Ha Hs IH].
  - by destruct (decide _).
  - rewrite filter_cons, IH. subst c.
    destruct (decide (category a = c')); reflexivity.
Qed.

Lemma sample_categories_count k (cs : list string) (c : string) :
  NoDup cs ->
  length (filter (fun a => category a = c)
            (sample_categories rand k df_raw max_per_category cs))
  = if decide (c ∈ cs)
    then min (length (filter (fun a => category a = c) df_raw))
           max_per_category
    else 0%nat.
Proof.
  revert k. induction cs as [|c0 cs IH]; intros k Hnd; cbn [sample_categories].
  - rewrite decide_False by apply not_elem_of_nil. reflexivity.
  - apply NoDup_cons in Hnd as [Hc Hnd].
    rewrite filter_app, length_app, filter_category_of_sample, (IH _ Hnd).
    destruct (decide (c ∈ cs)) as [Hin|Hnin];
      destruct (decide (c ∈ c0 :: cs)) as [Hin'|Hnin'];
      destruct (decide (c0 = c)) as [Heq|Hne];
      try (subst c0; contradiction);
      try subst c0; rewrite ?sample_length; cbn [length]; try lia.
    all: exfalso;
      first [ apply Hnin'; by right
            | apply Hnin'; left
            | apply elem_of_cons in Hin' as [?|?]; congruence ].
Qed.

End Categories.

Section Dashboard.
Import Dashboard.
Variable rand : random_source.
Variable df_raw : list AlertRecord.

Lemma categories_NoDup k : NoDup (shuffle rand k (unique (map category df_raw))).
Proof. rewrite shuffle_perm. apply unique_NoDup. Qed.

Lemma categories_cover k a :
  a ∈ df_raw -> category a ∈ shuffle rand k (unique (map category df_raw)).
Proof.
  intros Ha. rewrite shuffle_perm. apply unique_elem.
  apply list_elem_of_In, in_map, list_elem_of_In, Ha.
Qed.

Lemma process_alerts_submseteq max_per_category :
  process_alerts rand df_raw max_per_category ⊆+ df_raw.
Proof.
  unfold process_alerts. destruct (is_empty df_raw); [apply submseteq_nil_l|].
  destruct (is_empty _); [apply submseteq_nil_l|].
  rewrite shuffle_perm.
  etransitivity; [apply sample_categories_submseteq, categories_NoDup|].
  apply sublist_submseteq, sublist_filter.
Qed.

Lemma process_alerts_count max_per_category (c : string) :
  length (filter (fun a => category a = c)
            (process_alerts rand df_raw max_per_category))
  = min (length (filter (fun a => category a = c) df_raw)) max_per_category.
Proof.
  unfold process_alerts. destruct df_raw as [|a0 l] eqn:Hdf; [reflexivity|].
  cbn [is_empty]. rewrite <- Hdf.
  assert (c ∉ shuffle rand 0 (unique (map category df_raw)) ->
          filter (fun a => category a = c) df_raw = []) as Hout.
  { intros Hnin.
    destruct (filter (fun a => category a = c) df_raw) as [|a l'] eqn:Hf;
      [reflexivity|].
    exfalso. apply Hnin.
    assert (a ∈ filter (fun a => category a = c) df_raw) as Ha
      by (rewrite Hf; left).
    apply list_elem_of_filter in Ha as [<- Ha]. by apply categories_cover. }
  destruct (shuffle rand 0 (unique (map category df_raw))) as [|c0 cs] eqn:Hcs.
  { cbn [is_empty]. rewrite Hout by apply not_elem_of_nil. reflexivity. }
  cbn [is_empty]. rewrite <- Hcs in *.
  rewrite shuffle_perm, sample_categories_count by apply categories_NoDup.
  destruct (decide (c ∈ shuffle rand 0 (unique (map category df_raw))))
    as [Hin|Hnin]; [reflexivity|].
  by rewrite (Hout Hnin).
Qed.

Lemma process_alerts_all max_per_category :
  (forall c, length (filter (fun a => category a = c) df_raw)
             <= max_per_category)%nat ->
  process_alerts rand df_raw max_per_category ≡ₚ df_raw.
Proof.
  intros Hcap. unfold process_alerts.
  destruct df_raw as [|a0 l] eqn:Hdf; [reflexivity|].
  cbn [is_empty]. rewrite <- Hdf in *.
  destruct (shuffle rand 0 (unique (map category df_raw))) as [|c0 cs] eqn:Hcs.
  { exfalso. apply (not_elem_of_nil (category a0)). rewrite <- Hcs.
    apply categories_cover. rewrite Hdf. left. }
  cbn [is_empty]. rewrite <- Hcs in *.
  rewrite shuffle_perm, sample_categories_all
    by (exact Hcap || apply categories_NoDup).
  rewrite filter_all_categories; [reflexivity|].
  intros a Ha. by apply categories_cover.
Qed.

Lemma within_cap_spec cap :
  within_cap cap df_raw = true ->
  forall c, (length (filter (fun a => category a = c) df_raw) <= cap)%nat.
Proof.
  unfold within_cap, count_category. rewrite forallb_forall. intros H c.
  destruct (decide (c ∈ unique (map category df_raw))) as [Hin|Hnin].
  - apply Nat.leb_le, H, list_elem_of_In, Hin.
  - destruct (filter (fun a => category a = c) df_raw) as [|a l'] eqn:Hf;
      [cbn; lia|].
    exfalso. apply Hnin, unique_elem.
    assert (a ∈ filter (fun a => category a = c) df_raw) as Ha
      by (rewrite Hf; left).
    apply list_elem_of_filter in Ha as [<- Ha].
    apply list_elem_of_In, in_map, list_elem_of_In, Ha.
Qed.

End Dashboard.

Lemma is_empty_perm {A : Type} (l l' : list A) :
  l ≡ₚ l' -> is_empty l = is_empty l'.
Proof.
  intros H. apply Permutation_length in H. by destruct l, l'.
Qed.

Lemma summary_of_perm (l l' : list AlertRecord) :
  l ≡ₚ l' -> Dashboard.summary_of l = Dashboard.summary_of l'.
Proof.
  intros H. unfold Dashboard.summary_of, Dashboard.count_severity.
  rewrite (is_empty_perm _ _ H). by rewrite H.
Qed.

(** The cards show the counts of the full log when no category is cut. *)
Lemma dashboard_summary_full rand (df_raw : list AlertRecord) :
  Dashboard.within_cap 4 df_raw = true ->
  Dashboard.dashboard_summary rand df_raw = Dashboard.summary_of df_raw.
Proof.
  intros H. unfold Dashboard.dashboard_summary. apply summary_of_perm.
  apply process_alerts_all. by apply within_cap_spec.
Qed.

(** C10. For every random source, every input frame and every category,
    the sampler returns a sub-multiset of its input and, of each category,
    as many records as the input has, up to max_per_category; with
    max_per_category = 4, at most 4. *)
Theorem sampler_bound (rand : Dashboard.random_source)
    (df_raw : list AlertRecord) (max_per_category : nat) (c : string) :
  Dashboard.process_alerts rand df_raw max_per_category ⊆+ df_raw
  /\ Dashboard.count_category c
       (Dashboard.process_alerts rand df_raw max_per_category)
     = min (Dashboard.count_category c df_raw) max_per_category
  /\ (Dashboard.count_category c (Dashboard.process_alerts rand df_raw 4)
      <= 4)%nat.
Proof.
  unfold Dashboard.count_category.
  split; [apply process_alerts_submseteq|].
  split; [apply process_alerts_count|].
  rewrite process_alerts_count. lia.
Qed.

(** C8, as amended. The summary cards are computed over the sampled frame.
    For a log of 4 Critical, 3 Medium, 2 Low and 1 Info record (severity
    compared in lower case) in which no category has more than 4 records,
    the sample is a reordering of the log and the cards show total 10,
    critical 4, medium 3, low 2, for every random source. *)
Theorem dashboard_summary_counts (rand : Dashboard.random_source)
    (df_raw : list AlertRecord) :
  Dashboard.within_cap 4 df_raw = true ->
  length df_raw = 10%nat ->
  Dashboard.count_severity "critical" df_raw = 4%nat ->
  Dashboard.count_severity "medium" df_raw = 3%nat ->
  Dashboard.count_severity "low" df_raw = 2%nat ->
  Dashboard.count_severity "info" df_raw = 1%nat ->
  Dashboard.dashboard_summary rand df_raw = Dashboard.mkSummary 10 4 3 2.
Proof.
  intros Hcap Hlen Hc Hm Hl _.
  rewrite (dashboard_summary_full _ _ Hcap). unfold Dashboard.summary_of.
  destruct df_raw; [discriminate Hlen|]. cbn [is_empty negb].
  by rewrite Hlen, Hc, Hm, Hl.
Qed.

Lemma dashboard_summary_counts_witness :
  Dashboard.within_cap 4 Dashboard.spread_log = true
  /\ Dashboard.dashboard_summary Dashboard.example_rand Dashboard.spread_log
     = Dashboard.mkSummary 10 4 3 2.
Proof.
  split; [reflexivity|].
  apply (dashboard_summary_counts Dashboard.example_rand Dashboard.spread_log);
    reflexivity.
Defined.

(** The cards of a log of ten records of one category count the four
    records sampled, not the ten of the log. *)
Lemma dashboard_summary_is_sampled :
  Dashboard.summary_of Dashboard.one_category_log
  = Dashboard.mkSummary 10 4 3 2
  /\ Dashboard.dashboard_summary Dashboard.example_rand
       Dashboard.one_category_log
     = Dashboard.mkSummary 4 2 1 0
  /\ Dashboard.dashboard_summary Dashboard.example_rand
       Dashboard.one_category_log
     <> Dashboard.mkSummary 10 4 3 2.
Proof.
  split; [reflexivity|]. split; [vm_compute; reflexivity|].
  vm_compute. discriminate.
Qed.

(** * The log is only ever extended *)

Section Appends.
Variable E : env.

Lemma appends_refl st : appends E st st [].
Proof. unfold appends. cbn. by rewrite app_nil_r, Nat.add_0_r. Qed.

Lemma appends_trans st1 st2 st3 rs1 rs2 :
  appends E st1 st2 rs1 -> appends E st2 st3 rs2 ->
  appends E st1 st3 (rs1 ++ rs2).
Proof.
  intros [A1 D1] [A2 D2]. unfold appends.
  rewrite A2, A1, D2, D1, records_from_app, length_app, <- app_assoc.
  split; [reflexivity|lia].
Qed.

Lemma appends_fire_all rs st : appends E st (fire_all E rs (reset st)) rs.
Proof. unfold appends. rewrite fire_all_eq. by cbn. Qed.

Context {R : Type}.
Variable body : R -> M R.
Hypothesis body_appends : row_appends E body.

Lemma iterrows_appends df st :
  (exists e, iterrows body df st = Raise e)
  \/ (exists df' st' rs,
        iterrows body df st = Ok (df', st') /\ appends E st st' rs).
Proof.
  revert st. induction df as [|r df IH]; intros st; cbn [iterrows].
  - right. exists [], st, []. split; [reflexivity|apply appends_refl].
  - unfold bind.
    destruct (body_appends r st) as [[e ->]|(r' & st1 & rs1 & -> & A1)];
      [left; by exists e|].
    destruct (IH st1) as [[e ->]|(df' & st2 & rs2 & -> & A2)];
      [left; by exists e|].
    right. exists (r' :: df'), st2, (rs1 ++ rs2).
    split; [reflexivity|by eapply appends_trans].
Qed.

Lemma run_engine_keeps_log df L : keeps_log E L (run_engine body df L).
Proof.
  unfold keeps_log, run_engine.
  destruct (iterrows_appends df (mkState L 0 0 []))
    as [[e ->]|(df' & [L' ? ? ?] & rs & -> & A & _)]; [exact I|].
  exists rs. cbn in A. by rewrite log_alerts_app.
Qed.

End Appends.

Section LocalNewsFacts.
Import LocalNews.
Variable E : env.
Variable r : row.

Lemma weather_block severity : exists rs, fires E (rule_weather E r severity) rs.
Proof.
  unfold rule_weather.
  destruct (contains "weather alert" (str_lower (event_type r)));
    [|eexists; apply fires_ret].
  match goal with
  | |- context [if in_list ?s ?l then _ else _] => destruct (in_list s l)
  end; eexists; (apply fires_fire || apply fires_ret).
Qed.

Lemma road_block severity : exists rs, fires E (rule_road E r severity) rs.
Proof.
  unfold rule_road.
  match goal with
  | |- context [if ?b then _ else ret tt] => destruct b
  end; [|eexists; apply fires_ret].
  match goal with
  | |- context [if in_list ?s ?l then _ else _] => destruct (in_list s l)
  end; eexists; (apply fires_fire || apply fires_ret).
Qed.

Lemma festival_block : exists rs, fires E (rule_festival E r) rs.
Proof.
  unfold rule_festival.
  match goal with
  | |- context [if ?b then _ else ret tt] => destruct b
  end; eexists; (apply fires_fire || apply fires_ret).
Qed.

End LocalNewsFacts.

Section EnginesAppend.
Variable E : env.

Lemma ecommerce_row_appends : row_appends E (Ecommerce.process_row E).
Proof.
  intros r st. destruct (Ecommerce.has_text r) eqn:Ht.
  - left. exists ValueError. by apply ecommerce_row_raises.
  - right.
    destruct (ecommerce_row_ok E r st Ht)
      as (rs1 & rs2 & rs3 & rs4 & rs5 & ? & _ & _ & _ & _ & _ & _ & ->).
    eexists _, _, _. split; [reflexivity|apply appends_fire_all].
Qed.

Lemma supplier_row_appends : row_appends E (Supplier.process_row E).
Proof.
  intros r st. right.
  destruct (supplier_row_ok E r st) as (rs1 & rs2 & rs3 & rs4 & _ & _ & _ & _ & ->).
  eexists _, _, _. split; [reflexivity|apply appends_fire_all].
Qed.

Lemma inventory_row_appends : row_appends E (Inventory.process_row E).
Proof.
  intros r st. right.
  destruct (inventory_row_ok E r st)
    as (rs1 & rs2 & rs3 & rs4 & rs5 & ? & ? & ? & ? & ? & _ & _ & _ & _ & _ & ->).
  eexists _, _, _. split; [reflexivity|apply appends_fire_all].
Qed.

Lemma logistics_row_appends : row_appends E (Logistics.process_row E).
Proof.
  intros r st. right.
  destruct (in_list (str_lower (Logistics.Status r))
              Logistics.CRITICAL_SHIPMENT_STATUSES) eqn:Hc.
  - destruct (logistics_row_critical E r st Hc) as (t & _ & ->).
    eexists _, _, [(t, "Logistics/Supply Chain", "Critical")].
    split; [reflexivity|].
    exact (appends_fire_all E [(t, "Logistics/Supply Chain", "Critical")] st).
  - destruct (logistics_row_other E r st Hc) as (rs & _ & ->).
    eexists _, _, _. split; [reflexivity|apply appends_fire_all].
Qed.

Lemma local_news_row_appends : row_appends E (LocalNews.process_row E).
Proof.
  intros r st. unfold LocalNews.process_row.
  destruct (LocalNews.inactive E r).
  { right. exists r, st, []. split; [reflexivity|apply appends_refl]. }
  rewrite start_row_then.
  destruct (any_in LocalNews.PUBLIC_SAFETY_KEYWORDS
              (str_lower (LocalNews.description r))).
  { left. exists NameError. reflexivity. }
  right.
  destruct (weather_block E r (LocalNews.severity_of_impact r)) as (rs1 & F1).
  destruct (road_block E r (LocalNews.severity_of_impact r)) as (rs2 & F2).
  destruct (festival_block E r) as (rs3 & F3).
  rewrite (fires_then E _ _ _ _ F1), (fires_then E _ _ _ _ F2),
    (fires_then E _ _ _ _ F3), <- !fire_all_app, link_after.
  eexists _, _, _. split; [reflexivity|apply appends_fire_all].
Qed.

End EnginesAppend.


(** C3. Any number of [log_alert] calls leaves the records of the loaded
    log [L] where they were and as they were: the result is [L] followed by
    the new records, one per call, in call order. The log that each of the
    five engines returns is the loaded log extended by such calls. *)
Theorem log_append_preserves_existing (E : env) (k : nat)
    (L : list AlertRecord) (rs : list request)
    (ecommerce_df : list Ecommerce.row) (supplier_df : list Supplier.row)
    (inventory_df : list Inventory.row) (logistics_df : list Logistics.row)
    (local_news_df : list LocalNews.row) :
  log_alerts E k L rs = L ++ records_from E k rs
  /\ take (length L) (log_alerts E k L rs) = L
  /\ (forall i a, L !! i = Some a -> log_alerts E k L rs !! i = Some a)
  /\ length (log_alerts E k L rs) = (length L + length rs)%nat
  /\ map request_of (drop (length L) (log_alerts E k L rs)) = rs
  /\ keeps_log E L (Ecommerce.ecommerce_rule_engine E ecommerce_df L)
  /\ keeps_log E L (Supplier.supplier_rule_engine E supplier_df L)
  /\ keeps_log E L (Inventory.inventory_rule_engine E inventory_df L)
  /\ keeps_log E L (Logistics.logistics_rule_engine E logistics_df L)
  /\ keeps_log E L (LocalNews.local_news_rule_engine E local_news_df L).
Proof.
  rewrite log_alerts_app. split; [reflexivity|]. split.
  { by rewrite take_app_length. }
  split.
  { intros i a H. by apply lookup_app_l_Some. }
  split.
  { by rewrite length_app, records_from_length. }
  split.
  { by rewrite drop_app_length, request_of_records. }
  split; [apply run_engine_keeps_log, ecommerce_row_appends|].
  split; [apply run_engine_keeps_log, supplier_row_appends|].
  split; [apply run_engine_keeps_log, inventory_row_appends|].
  split; [apply run_engine_keeps_log, logistics_row_appends|].
  apply run_engine_keeps_log, local_news_row_appends.
Qed.

Lemma log_alerts_ids_distinct (E : env) (k : nat) (L : list AlertRecord)
    (rs : list request) :
  (forall i, (k <= i < k + length rs)%nat -> length (uuid4 E i) = 16%nat) ->
  (forall i j, (k <= i)%nat -> (i < j)%nat -> (j < k + length rs)%nat ->
               uuid4 E i <> uuid4 E j) ->
  NoDup (map alert_id L) ->
  (forall i, (k <= i < k + length rs)%nat ->
             ~ In (generate_alert_id (uuid4 E i)) (map alert_id L)) ->
  NoDup (map alert_id (log_alerts E k L rs)).
Proof.
  intros Hlen Hne HL Hfresh.
  rewrite log_alerts_app, map_app, ids_of_records.
  apply NoDup_app. split; [exact HL|]. split.
  - intros x HxL Hx. apply list_elem_of_In, in_map_iff in Hx.
    destruct Hx as (i & <- & Hi). apply in_seq in Hi.
    apply (Hfresh i); [lia|]. by apply list_elem_of_In.
  - by apply new_ids_distinct.
Qed.

(** The IDs of the log returned by a run are pairwise distinct when the
    draws of the run are, and differ from the IDs loaded. *)
Lemma run_ids_distinct (E : env) {R : Type} (body : R -> M R)
    (df df' : list R) (L L' : list AlertRecord) :
  row_appends E body ->
  run_engine body df L = Ok (df', L') ->
  (forall i, (i < length L' - length L)%nat -> length (uuid4 E i) = 16%nat) ->
  (forall i j, (i < j)%nat -> (j < length L' - length L)%nat ->
               uuid4 E i <> uuid4 E j) ->
  NoDup (map alert_id L) ->
  (forall i, (i < length L' - length L)%nat ->
             ~ In (generate_alert_id (uuid4 E i)) (map alert_id L)) ->
  NoDup (map alert_id L').
Proof.
  intros Hb Hrun Hlen Hne HL Hfresh.
  pose proof (run_engine_keeps_log E body Hb df L) as Hk.
  rewrite Hrun in Hk. destruct Hk as (rs & ->).
  assert (length (log_alerts E 0 L rs) - length L = length rs)%nat as Hn.
  { rewrite log_alerts_app, length_app, records_from_length. lia. }
  rewrite Hn in *.
  apply log_alerts_ids_distinct.
  - intros i Hi. apply Hlen. lia.
  - intros i j _ Hij Hj. apply Hne; lia.
  - exact HL.
  - intros i Hi. apply Hfresh. lia.
Qed.

(** C9, as amended. When the UUIDs drawn during a run are 16 bytes each
    and pairwise distinct, the loaded log has pairwise distinct IDs, and no
    drawn UUID encodes to an ID already in the log, then the IDs of the whole
    resulting log are pairwise distinct: the Base64 encoding is injective on
    16-byte values. *)
Theorem alert_ids_distinct_when_draws_differ (E : env) (k : nat)
    (L : list AlertRecord) (rs : list request) :
  (forall i, (k <= i < k + length rs)%nat -> length (uuid4 E i) = 16%nat) ->
  (forall i j, (k <= i)%nat -> (i < j)%nat -> (j < k + length rs)%nat ->
               uuid4 E i <> uuid4 E j) ->
  NoDup (map alert_id L) ->
  (forall i, (k <= i < k + length rs)%nat ->
             ~ In (generate_alert_id (uuid4 E i)) (map alert_id L)) ->
  NoDup (map alert_id (log_alerts E k L rs)).
Proof.
  intros Hlen Hne HL Hfresh. by apply log_alerts_ids_distinct.
Qed.

(** * Worked instances *)

(** Two appends to a loaded log of two records. *)
Lemma log_append_preserves_existing_witness :
  log_alerts example_env 0 example_log example_requests
  = example_log ++ records_from example_env 0 example_requests
  /\ log_alerts example_env 0 example_log example_requests !! 1%nat
     = example_log !! 1%nat
  /\ length (log_alerts example_env 0 example_log example_requests) = 4%nat.
Proof.
  destruct (log_append_preserves_existing example_env 0 example_log
              example_requests [] [] [] [] []) as (H1 & _ & H3 & H4 & _).
  split; [exact H1|]. split; [|exact H4].
  apply H3. reflexivity.
Defined.

(** Two draws that differ give two IDs that differ from each other and from
    those of the loaded log. *)
Lemma alert_ids_distinct_when_draws_differ_witness :
  NoDup (map alert_id example_log)
  /\ NoDup (map alert_id
              (log_alerts example_env 0 example_log example_requests)).
Proof.
  assert (NoDup (map alert_id example_log)) as HL.
  { cbn. repeat (constructor; [rewrite ?elem_of_cons, elem_of_nil;
                               intros H; repeat destruct H as [H|H];
                               try discriminate H; try contradiction|]).
    constructor. }
  split; [exact HL|].
  apply (alert_ids_distinct_when_draws_differ example_env 0 example_log
           example_requests).
  - intros i _. reflexivity.
  - intros i j _ Hij Hj. cbn in Hj.
    destruct i as [|[|i]]; destruct j as [|[|j]]; try lia. discriminate.
  - exact HL.
  - intros i Hi. cbn in Hi.
    destruct i as [|[|i]]; try lia; vm_compute;
      intros H; repeat destruct H as [H|H]; try discriminate H; contradiction.
Defined.

(** A generator that repeats itself gives two records one ID; and a
    loaded log in which an ID occurs twice is extended as it is. *)
Lemma alert_ids_collide :
  Ecommerce.ecommerce_rule_engine colliding_env [Ecommerce.two_alert_example]
    []
  = Ok ([Ecommerce.set_alert_id Ecommerce.two_alert_example
           (Some "EjRWeJq8Te-AESIzRFVmAA,EjRWeJq8Te-AESIzRFVmAA")],
        [mkAlert "EjRWeJq8Te-AESIzRFVmAA"
           [Lit "Critical Conversion Rate for "; Lit "SKU: ";
            Val (Text "SKU-2"); Lit ", Region: "; Val (Text "South");
            Lit " ("; Fmt ".2%" 0.005; Lit ")"]
           "E-commerce" "Critical" 0;
         mkAlert "EjRWeJq8Te-AESIzRFVmAA"
           [Lit "Critical Drop in Online Views for "; Lit "SKU: ";
            Val (Text "SKU-2"); Lit ", Region: "; Val (Text "South");
            Lit " ("; Int 100; Lit " views)"]
           "E-commerce" "Critical" 1])
  /\ ~ NoDup (map alert_id
               (log_alerts colliding_env 0 [] example_requests))
  /\ ~ NoDup (map alert_id
               (log_alerts example_env 0 (example_log ++ example_log)
                  example_requests)).
Proof.
  split; [vm_compute; reflexivity|].
  split; vm_compute; intros H; apply NoDup_cons in H as [H _]; apply H;
    rewrite !elem_of_cons; tauto.
Qed.

(** A string that is no number in a column read through [float] stops the
    e-commerce engine; the supplier engine coerces it. *)
Lemma ecommerce_text_cell_raises :
  Ecommerce.ecommerce_rule_engine example_env [Ecommerce.text_example] []
  = Raise ValueError.
Proof. vm_compute. reflexivity. Qed.



(** * Whole runs: rows that log the same requests whatever the state *)

Section Runs.
Variable E : env.
Context {R : Type}.
Variable body : R -> M R.
Variable out : R -> list string -> R.

Lemma iterrows_logs df rss st :
  Forall2 (row_logs E body out) df rss ->
  exists st',
    iterrows body df st = Ok (link_rows E out (draws st) df rss, st')
    /\ alerts_df st' = alerts_df st ++ records_from E (draws st) (concat rss)
    /\ draws st' = (draws st + length (concat rss))%nat
    /\ alerts_generated_count st'
       = (alerts_generated_count st + length (concat rss))%nat.
Proof.
  intros H. revert st. induction H as [|r rs df rss Hr H IH]; intros st.
  - exists st. cbn. rewrite app_nil_r, !Nat.add_0_r. done.
  - destruct (Hr st) as (cur & Hb).
    destruct (IH (mkState (alerts_df st ++ records_from E (draws st) rs)
                    (alerts_generated_count st + length rs)
                    (draws st + length rs) cur)) as (st' & I & A & D & C).
    exists st'. cbn [iterrows link_rows concat]. unfold bind at 1.
    rewrite Hb. unfold bind. rewrite I. unfold ret.
    cbn in A, D, C. split; [reflexivity|].
    rewrite A, D, C, records_from_app, length_app, <- app_assoc.
    repeat split; lia.
Qed.

Lemma run_engine_logs df rss L :
  Forall2 (row_logs E body out) df rss ->
  run_engine body df L
  = Ok (link_rows E out 0 df rss, L ++ records_from E 0 (concat rss)).
Proof.
  intros H. unfold run_engine.
  destruct (iterrows_logs df rss (mkState L 0 0 []) H)
    as ([L' c d cur] & -> & A & _). cbn in A. by subst L'.
Qed.

Lemma row_logs_speaks P r rs :
  row_logs E body out r rs -> speaks E P (body r) -> Forall P rs.
Proof.
  intros H S. specialize (S state0). destruct (H state0) as (cur & Hb).
  rewrite Hb in S. destruct S as (rs' & A & _ & F). cbn in A.
  rewrite <- (request_of_records E 0 rs), A, request_of_records. exact F.
Qed.

End Runs.

(** The usual row body: the requests are fired from the reset state and the
    IDs collected are linked. *)
Lemma row_logs_fire_all (E : env) {R : Type} (body : R -> M R)
    (set : R -> option string -> R) (r : R) (rs : list request) :
  (forall st,
     body r st
     = Ok (set r (link_value (ids_from E (draws st) rs)),
           fire_all E rs (reset st))) ->
  row_logs E body (linked set) r rs.
Proof.
  intros H st. rewrite H, fire_all_eq. cbn. by eexists.
Qed.

(** A body that ends with one alert and [link_join]. *)
Lemma row_logs_join (E : env) {R : Type} (body : R -> M R)
    (set : R -> option string -> R) (r : R) t c s :
  (forall st,
     body r st
     = (fire E t c s >>> let* a := link_join in ret (set r a)) (reset st)) ->
  row_logs E body (linked set) r [(t, c, s)].
Proof.
  intros H. apply row_logs_fire_all. intros st. rewrite H.
  rewrite (fires_then E _ _ _ _ (fires_fire E t c s)).
  unfold bind, link_join, ret. cbn [fire_all]. rewrite fire_pure_eq.
  reflexivity.
Qed.

(** A body that ends with a block and [link]. *)
Lemma row_logs_link (E : env) {R : Type} (body : R -> M R)
    (set : R -> option string -> R) (r : R) (m : M unit) rs :
  fires E m rs ->
  (forall st,
     body r st = (m >>> let* a := link in ret (set r a)) (reset st)) ->
  row_logs E body (linked set) r rs.
Proof.
  intros F H. apply row_logs_fire_all. intros st. rewrite H.
  rewrite (fires_then E _ _ _ _ F). exact (link_after E (set r) _ st).
Qed.

(** * What a computation can log *)

Section Speaks.
Variable E : env.
Variable P : request -> Prop.

Lemma speaks_ret {A : Type} (a : A) : speaks E P (ret a).
Proof.
  intros st. cbn. exists []. cbn. rewrite app_nil_r, Nat.add_0_r.
  repeat split. constructor.
Qed.

Lemma speaks_raise {A : Type} (e : exn) : speaks E P (@raise A e).
Proof. intros st. exact I. Qed.

Lemma speaks_lift {A : Type} (x : result A) : speaks E P (lift x).
Proof.
  intros st. unfold lift. destruct x; [|exact I]. exists []. cbn.
  rewrite app_nil_r, Nat.add_0_r. repeat split. constructor.
Qed.

Lemma speaks_start_row : speaks E P start_row.
Proof.
  intros st. cbn. exists []. cbn. rewrite app_nil_r, Nat.add_0_r.
  repeat split. constructor.
Qed.

Lemma speaks_link : speaks E P link.
Proof.
  intros st. cbn. exists []. cbn. rewrite app_nil_r, Nat.add_0_r.
  repeat split. constructor.
Qed.

Lemma speaks_link_join : speaks E P link_join.
Proof.
  intros st. cbn. exists []. cbn. rewrite app_nil_r, Nat.add_0_r.
  repeat split. constructor.
Qed.

Lemma speaks_fire t c s : P (t, c, s) -> speaks E P (fire E t c s).
Proof.
  intros H st. unfold fire. exists [(t, c, s)].
  pose proof (fire_all_eq E [(t, c, s)] st) as F. cbn [fire_all] in F.
  rewrite F. cbn. repeat split. by repeat constructor.
Qed.

Lemma speaks_bind {A B : Type} (m : M A) (k : A -> M B) :
  speaks E P m -> (forall a, speaks E P (k a)) -> speaks E P (bind m k).
Proof.
  intros Hm Hk st. unfold bind. specialize (Hm st).
  destruct (m st) as [[a st1]|e]; [|exact I].
  destruct Hm as (rs1 & A1 & D1 & F1). specialize (Hk a st1).
  destruct (k a st1) as [[b st2]|e]; [|exact I].
  destruct Hk as (rs2 & A2 & D2 & F2). exists (rs1 ++ rs2).
  rewrite A2, D2, A1, D1, records_from_app, length_app, <- app_assoc.
  repeat split; [lia|]. apply Forall_app. by split.
Qed.

Lemma fires_unique (m : M unit) rs1 rs2 :
  fires E m rs1 -> fires E m rs2 -> rs1 = rs2.
Proof.
  intros H1 H2. pose proof (H1 state0) as A. rewrite (H2 state0) in A.
  injection A as A. apply (f_equal alerts_df) in A.
  rewrite !fire_all_eq in A. cbn in A.
  rewrite <- (request_of_records E 0 rs1), <- (request_of_records E 0 rs2).
  by rewrite A.
Qed.

Lemma fires_speaks (m : M unit) rs :
  fires E m rs -> speaks E P m -> Forall P rs.
Proof.
  intros H S. specialize (S state0). rewrite (H state0) in S.
  destruct S as (rs' & A & _ & F). rewrite fire_all_eq in A. cbn in A.
  rewrite <- (request_of_records E 0 rs), A, request_of_records. exact F.
Qed.

End Speaks.

Ltac speak :=
  repeat first
    [ apply speaks_ret | apply speaks_raise | apply speaks_lift
    | apply speaks_start_row | apply speaks_link | apply speaks_link_join
    | apply speaks_fire; split; [reflexivity | cbn; tauto]
    | match goal with
      | |- speaks _ _ (if ?b then _ else _) => destruct b
      | |- speaks _ _ (match ?x with _ => _ end) => destruct x
      end
    | apply speaks_bind; [|intros ?] ].

(** * Run profiles *)

Section Profiles.
Variable E : env.
Context {R : Type}.
Variable body : R -> M R.
Variable out : R -> list string -> R.

Lemma concat_groups_from k rss :
  concat (groups_from E k rss) = records_from E k (concat rss).
Proof.
  revert k. induction rss as [|rs rss IH]; intros k; cbn; [done|].
  by rewrite IH, records_from_app.
Qed.

Lemma in_vocab_records cat sevs k rs :
  Forall (vocab cat sevs) rs -> Forall (in_vocab cat sevs) (records_from E k rs).
Proof.
  intros H. revert k. induction H as [|[[t c] s] rs Hr _ IH]; intros k; cbn;
    constructor; [exact Hr|apply IH].
Qed.

Lemma link_rows_groups n cat sevs k df rss :
  Forall2 (fun r rs => (length rs <= n)%nat /\ Forall (vocab cat sevs) rs)
    df rss ->
  Forall3 (fun r r' g =>
             r' = out r (map alert_id g)
             /\ (length g <= n)%nat
             /\ Forall (in_vocab cat sevs) g)
    df (link_rows E out k df rss) (groups_from E k rss).
Proof.
  intros H. revert k. induction H as [|r rs df rss [Hn Hv] _ IH]; intros k;
    cbn; constructor; [|apply IH].
  split; [reflexivity|]. split; [by rewrite records_from_length|].
  by apply in_vocab_records.
Qed.

Lemma run_engine_profile n cat sevs df L :
  (forall r, In r df ->
     exists rs, row_logs E body out r rs
                /\ (length rs <= n)%nat /\ Forall (vocab cat sevs) rs) ->
  run_profile out n cat sevs df L (run_engine body df L).
Proof.
  intros H.
  assert (exists rss,
            Forall2 (fun r rs => row_logs E body out r rs
                                 /\ (length rs <= n)%nat
                                 /\ Forall (vocab cat sevs) rs) df rss)
    as (rss & F).
  { induction df as [|r df' IH]; [by exists []|].
    destruct (H r (or_introl eq_refl)) as (rs & Hr).
    destruct IH as (rss & F); [intros r' Hin; apply H; by right|].
    exists (rs :: rss). by constructor. }
  exists (link_rows E out 0 df rss), (groups_from E 0 rss).
  split.
  - rewrite concat_groups_from. apply run_engine_logs.
    eapply Forall2_impl; [exact F|]. by intros r rs (Hr & _).
  - apply link_rows_groups.
    eapply Forall2_impl; [exact F|]. by intros r rs (_ & Hr).
Qed.

End Profiles.

(** What a profile says about sizes and the log. *)
Lemma run_profile_sizes {R : Type} (out : R -> list string -> R) n cat sevs
    (df df' : list R) L L' :
  run_profile out n cat sevs df L (Ok (df', L')) ->
  length df' = length df
  /\ (length L <= length L' <= length L + n * length df)%nat
  /\ take (length L) L' = L
  /\ Forall (in_vocab cat sevs) (drop (length L) L').
Proof.
  intros (df'' & groups & Heq & F). injection Heq as <- ->.
  rewrite length_app, take_app_length, drop_app_length.
  assert (length df' = length df
          /\ (length (concat groups) <= n * length df)%nat
          /\ Forall (in_vocab cat sevs) (concat groups)) as (H1 & H2 & H3).
  { induction F as [|r r' g df df' groups (_ & Hn & Hv) _ (I1 & I2 & I3)];
      cbn; [repeat split; [lia|constructor]|].
    rewrite length_app. repeat split; [lia|lia|].
    apply Forall_app. by split. }
  repeat split; first [done | lia].
Qed.

(** * supplier_engine.py: whole runs *)

Section SupplierRuns.
Import Supplier.
Variable E : env.

Lemma supplier_speaks r :
  speaks E (vocab "Supplier Performance" ["Critical"; "Medium"; "Low"])
    (process_row E r).
Proof.
  unfold process_row, rule_otd, rule_defect_rate, rule_quality_score,
    rule_lead_time. speak.
Qed.

Lemma supplier_row_logs r :
  exists rs,
    row_logs E (process_row E) (linked set_alert_id) r rs
    /\ (length rs <= 4)%nat
    /\ Forall (vocab "Supplier Performance" ["Critical"; "Medium"; "Low"]) rs.
Proof.
  destruct (otd_block E r) as (rs1 & F1 & L1 & _).
  destruct (defect_block E r) as (rs2 & F2 & L2 & _).
  destruct (quality_block E r) as (rs3 & F3 & L3 & _).
  destruct (lead_time_block E r) as (rs4 & F4 & L4 & _).
  assert (row_logs E (process_row E) (linked set_alert_id) r
            (rs1 ++ rs2 ++ rs3 ++ rs4)) as H.
  { apply row_logs_fire_all. intros st.
    unfold process_row. rewrite start_row_then.
    rewrite (fires_then E _ _ _ _ F1), (fires_then E _ _ _ _ F2),
      (fires_then E _ _ _ _ F3), (fires_then E _ _ _ _ F4).
    rewrite <- !fire_all_app. exact (link_after E (set_alert_id r) _ st). }
  eexists. split; [exact H|]. split.
  - rewrite !length_app. lia.
  - eapply row_logs_speaks; [exact H|apply supplier_speaks].
Qed.

End SupplierRuns.

From Stdlib Require Import Lqa.

(** * inventory_engine.py: whole runs *)

Lemma num_lt_iff x y : num_lt x y = true <-> (x < y)%Q.
Proof.
  unfold num_lt. rewrite negb_true_iff, <- not_true_iff_false, Qle_bool_iff.
  split; [apply Qnot_le_lt|apply Qlt_not_le].
Qed.

Lemma num_le_iff x y : num_le x y = true <-> (x <= y)%Q.
Proof. apply Qle_bool_iff. Qed.

Lemma num_gt_iff x y : num_gt x y = true <-> (y < x)%Q.
Proof. apply num_lt_iff. Qed.

Lemma num_ge_iff x y : num_ge x y = true <-> (y <= x)%Q.
Proof. apply Qle_bool_iff. Qed.

Lemma num_eq_iff x y : num_eq x y = true <-> (x == y)%Q.
Proof. apply Qeq_bool_iff. Qed.

Ltac to_Q :=
  repeat match goal with
         | H : _ && _ = true |- _ => apply andb_prop in H as [? ?]
         | H : _ || _ = true |- _ => apply orb_prop in H as [?|?]
         | H : num_lt _ _ = true |- _ => apply num_lt_iff in H
         | H : num_gt _ _ = true |- _ => apply num_gt_iff in H
         | H : num_le _ _ = true |- _ => apply num_le_iff in H
         | H : num_ge _ _ = true |- _ => apply num_ge_iff in H
         | H : num_eq _ _ = true |- _ => apply num_eq_iff in H
         end.

(** A block that is known to have fired cannot be one that returns at
    once. *)
Ltac dead_block E F :=
  exfalso;
  let X := fresh in
  pose proof (fires_unique E _ _ _ F (fires_ret E)) as X; discriminate X.

Section InventoryRuns.
Import Inventory.
Variable E : env.

Lemma inventory_speaks r :
  speaks E (vocab "Inventory" ["Critical"; "Medium"; "Low"]) (process_row E r).
Proof.
  unfold process_row, rule_stockout, rule_overstock, rule_discrepancy,
    rule_slow_moving, rule_high_sales. cbn zeta. speak.
Qed.

(** The two sales-velocity rules never fire on the same row: the slow-moving
    rule needs the sales of the last day below half the daily average, the
    high-sales rule above 1.2 times the average. *)
Lemma sales_rules_exclusive r rs4 rs5 :
  fires E (rule_slow_moving E r) rs4 -> fires E (rule_high_sales E r) rs5 ->
  (length rs4 + length rs5 <= 1)%nat.
Proof.
  intros F4 F5.
  destruct (slow_moving_block E r) as (v4 & rs4' & F4' & L4 & _).
  destruct (high_sales_block E r) as (v5 & rs5' & F5' & L5 & _).
  rewrite <- (fires_unique E _ _ _ F4 F4') in L4.
  rewrite <- (fires_unique E _ _ _ F5 F5') in L5. clear F4' F5'.
  destruct rs4 as [|rq4 rs4]; [cbn; lia|].
  destruct rs5 as [|rq5 rs5]; [cbn in *; lia|]. exfalso.
  unfold rule_slow_moving in F4. unfold rule_high_sales in F5.
  destruct (to_numeric (last_24h_sales r)) as [l|]; [|dead_block E F4].
  destruct (to_numeric (daily_sales_avg r)) as [d|]; [|dead_block E F4].
  destruct (to_numeric (current_stock r)) as [c|]; [|dead_block E F4].
  destruct (to_numeric (reorder_point_units r)) as [p|]; [|dead_block E F4].
  destruct (num_gt d 0) eqn:H0; [|dead_block E F4].
  cbn zeta in F5.
  assert (l < d * 0.5)%Q as Hslow.
  { destruct (num_eq l 0 && num_gt c p) eqn:H1.
    - to_Q. lra.
    - destruct (num_lt l (d * SLOW_MOVING_MEDIUM_SALES_FACTOR)) eqn:H2.
      + to_Q. unfold SLOW_MOVING_MEDIUM_SALES_FACTOR in *. lra.
      + destruct (num_lt l (d * SLOW_MOVING_LOW_SALES_FACTOR)) eqn:H3;
          [|dead_block E F4].
        to_Q. unfold SLOW_MOVING_LOW_SALES_FACTOR in *. lra. }
  assert (d * 1.2 < l)%Q as Hhigh.
  { destruct (num_gt l (d * HIGH_SALES_CRITICAL_FACTOR)
              && num_lt c (d * 2)) eqn:H1.
    - to_Q. unfold HIGH_SALES_CRITICAL_FACTOR in *. lra.
    - destruct (num_gt l (d * HIGH_SALES_MEDIUM_FACTOR)
                && num_lt c (d * 3)) eqn:H2.
      + to_Q. unfold HIGH_SALES_MEDIUM_FACTOR in *. lra.
      + destruct (num_gt l (d * HIGH_SALES_LOW_FACTOR)
                  && num_lt c (d * 4)) eqn:H3; [|dead_block E F5].
        to_Q. unfold HIGH_SALES_LOW_FACTOR in *. lra. }
  to_Q. lra.
Qed.

Lemma inventory_row_logs r :
  exists rs,
    row_logs E (process_row E) (linked set_alert_id) r rs
    /\ (length rs <= 4)%nat
    /\ Forall (vocab "Inventory" ["Critical"; "Medium"; "Low"]) rs.
Proof.
  destruct (stockout_block E r) as (v1 & rs1 & F1 & L1 & _).
  destruct (overstock_block E r) as (v2 & rs2 & F2 & L2 & _).
  destruct (discrepancy_block E r) as (v3 & rs3 & F3 & L3 & _).
  destruct (slow_moving_block E r) as (v4 & rs4 & F4 & L4 & _).
  destruct (high_sales_block E r) as (v5 & rs5 & F5 & L5 & _).
  pose proof (sales_rules_exclusive r rs4 rs5 F4 F5) as L45.
  assert (row_logs E (process_row E) (linked set_alert_id) r
            (rs1 ++ rs2 ++ rs3 ++ rs4 ++ rs5)) as H.
  { apply row_logs_fire_all. intros st.
    unfold process_row. rewrite start_row_then.
    rewrite (fires_then E _ _ _ _ F1), (fires_then E _ _ _ _ F2),
      (fires_then E _ _ _ _ F3), (fires_then E _ _ _ _ F4),
      (fires_then E _ _ _ _ F5).
    rewrite <- !fire_all_app. exact (link_after E (set_alert_id r) _ st). }
  eexists. split; [exact H|]. split.
  - rewrite !length_app. lia.
  - eapply row_logs_speaks; [exact H|apply inventory_speaks].
Qed.

End InventoryRuns.

(** * logistics_engine.py: whole runs *)

Section LogisticsRuns.
Import Logistics.
Variable E : env.

Lemma logistics_row_logs r :
  exists rs,
    row_logs E (process_row E) (linked set_alert_id) r rs
    /\ (length rs <= 1)%nat
    /\ Forall (vocab "Logistics/Supply Chain" ["Critical"; "Info"]) rs.
Proof.
  destruct (in_list (str_lower (Status r)) CRITICAL_SHIPMENT_STATUSES) eqn:Hc.
  - destruct (critical_status_block E r) as (t & F & _).
    exists [(t, "Logistics/Supply Chain", "Critical")]. split; [|split].
    + apply row_logs_fire_all. intros st.
      unfold process_row. rewrite start_row_then, Hc.
      rewrite (fires_then E _ _ _ _ F).
      unfold bind, link_join, ret. cbn [fire_all]. rewrite fire_pure_eq.
      reflexivity.
    + cbn. lia.
    + repeat constructor; cbn; tauto.
  - destruct (on_time_block E r) as (rs & F & L1 & _ & S).
    exists rs. split; [|split; [exact L1|]].
    + apply row_logs_fire_all. intros st.
      unfold process_row. rewrite start_row_then, Hc.
      rewrite (fires_then E _ _ _ _
                 (delay_block_idle E r (delayed_is_critical _ Hc))).
      rewrite (fires_then E _ _ _ _ F).
      exact (link_after E (set_alert_id r) _ st).
    + apply (fires_speaks E _ _ _ F).
      unfold rule_on_time. speak.
Qed.

End LogisticsRuns.

(** * ecommerce_engine.py: whole runs *)

Section EcommerceRuns.
Import Ecommerce.
Variable E : env.

Lemma ecommerce_speaks r :
  speaks E (vocab "E-commerce" ["Critical"; "Medium"; "Low"]) (process_row E r).
Proof.
  unfold process_row, rule_conversion_rate, rule_cart_abandonment,
    rule_online_views, rule_add_to_cart, rule_high_interest. cbn zeta. speak.
Qed.

Lemma ecommerce_row_logs r :
  has_text r = false ->
  exists rs,
    row_logs E (process_row E) (linked set_alert_id) r rs
    /\ (length rs <= 4)%nat
    /\ Forall (vocab "E-commerce" ["Critical"; "Medium"; "Low"]) rs.
Proof.
  intros Ht. unfold has_text in Ht.
  apply orb_false_elim in Ht as [Ht T4]. apply orb_false_elim in Ht as [Ht T3].
  apply orb_false_elim in Ht as [T1 T2].
  pose proof (conversion_block E r) as B1. rewrite T1 in B1.
  pose proof (cart_block E r) as B2. rewrite T2 in B2.
  pose proof (views_block E r) as B3. rewrite T3 in B3.
  pose proof (add_to_cart_block E r) as B4. rewrite T4 in B4.
  destruct B1 as (rs1 & F1 & L1 & _). destruct B2 as (rs2 & F2 & L2 & _).
  destruct B3 as (rs3 & F3 & L3 & _ & S3).
  destruct B4 as (rs4 & F4 & L4 & _).
  destruct (interest_block E r T3) as (v5 & (rs5 & F5 & L5 & _ & S5) & X).
  assert (length rs3 + length rs5 <= 1)%nat as L35.
  { destruct rs5 as [|rq5 rs5]; [cbn; lia|].
    rewrite X in S3; [|rewrite <- S5; discriminate].
    apply map_nil_inv in S3. subst rs3. cbn in *. lia. }
  assert (row_logs E (process_row E) (linked set_alert_id) r
            (rs1 ++ rs2 ++ rs3 ++ rs4 ++ rs5)) as H.
  { apply row_logs_fire_all. intros st.
    unfold process_row. rewrite start_row_then.
    rewrite (fires_then E _ _ _ _ F1), (fires_then E _ _ _ _ F2),
      (fires_then E _ _ _ _ F3), (fires_then E _ _ _ _ F4),
      (fires_then E _ _ _ _ F5).
    rewrite <- !fire_all_app. exact (link_after E (set_alert_id r) _ st). }
  eexists. split; [exact H|]. split.
  - rewrite !length_app. lia.
  - eapply row_logs_speaks; [exact H|apply ecommerce_speaks].
Qed.

End EcommerceRuns.


(** * weather_engine.py *)

Ltac fired E :=
  eexists; split;
  [ intros ?st; unfold bind, lift; cbn; use_tests; cbn;
    first [ exact (fires_fire E _ _ _ _) | exact (fires_ret E _) ]
  | split; [ reflexivity
           | split; [ cbn; lia | repeat constructor; cbn; tauto ] ] ].

Section WeatherFacts.
Import Weather.
Variable E : env.
Variable r : row.

Lemma temperature_block :
  if is_text (Temperature_C r)
  then forall st, rule_temperature E r st = Raise ValueError
  else block_fires E weather_vocab (rule_temperature E r)
         (band2 (Temperature_C r) TEMP_CRITICAL_SEVERITY_THRESHOLD_C
            TEMP_LOW_SEVERITY_THRESHOLD_C).
Proof.
  unfold rule_temperature, band2, weather_vocab.
  destruct (Temperature_C r) as [|q|s]; cbn [is_text notna to_numeric float_];
    [fired E| |reflexivity].
  cbn [first_matching_cutoff].
  destruct (num_ge q TEMP_CRITICAL_SEVERITY_THRESHOLD_C) eqn:H1; [fired E|].
  destruct (num_ge q TEMP_LOW_SEVERITY_THRESHOLD_C) eqn:H2; fired E.
Qed.

Lemma humidity_block :
  if is_text (Humidity_Percent r)
  then forall st, rule_humidity E r st = Raise ValueError
  else block_fires E weather_vocab (rule_humidity E r)
         (band2 (Humidity_Percent r)
            HUMIDITY_CRITICAL_SEVERITY_THRESHOLD_PERCENT
            HUMIDITY_LOW_SEVERITY_THRESHOLD_PERCENT).
Proof.
  unfold rule_humidity, band2, weather_vocab.
  destruct (Humidity_Percent r) as [|q|s];
    cbn [is_text notna to_numeric float_]; [fired E| |reflexivity].
  cbn [first_matching_cutoff].
  destruct (num_ge q HUMIDITY_CRITICAL_SEVERITY_THRESHOLD_PERCENT) eqn:H1;
    [fired E|].
  destruct (num_ge q HUMIDITY_LOW_SEVERITY_THRESHOLD_PERCENT) eqn:H2; fired E.
Qed.

Lemma wind_block :
  if is_text (Wind_Speed_MPS r)
  then forall st, rule_wind E r st = Raise ValueError
  else block_fires E weather_vocab (rule_wind E r)
         (band2 (Wind_Speed_MPS r) WIND_CRITICAL_SEVERITY_THRESHOLD_MPS
            WIND_LOW_SEVERITY_THRESHOLD_MPS).
Proof.
  unfold rule_wind, band2, weather_vocab.
  destruct (Wind_Speed_MPS r) as [|q|s];
    cbn [is_text notna to_numeric float_]; [fired E| |reflexivity].
  cbn [first_matching_cutoff].
  destruct (num_ge q WIND_CRITICAL_SEVERITY_THRESHOLD_MPS) eqn:H1; [fired E|].
  destruct (num_ge q WIND_LOW_SEVERITY_THRESHOLD_MPS) eqn:H2; fired E.
Qed.

Lemma rain_block :
  block_fires E weather_vocab (rule_rain E r)
    (first_matching_cutoff
       [(any_in critical_rain_keywords (str_lower (Weather_Description r)),
         "Critical");
        (any_in low_severity_rain_keywords
           (str_lower (Weather_Description r)), "Low")]).
Proof.
  unfold rule_rain, weather_vocab. cbn zeta. cbn [first_matching_cutoff].
  destruct (any_in critical_rain_keywords (str_lower (Weather_Description r)))
    eqn:H1; [fired E|].
  destruct (any_in low_severity_rain_keywords
              (str_lower (Weather_Description r))) eqn:H2; fired E.
Qed.

Lemma weather_row_raises st :
  has_text r = true -> process_row E r st = Raise ValueError.
Proof.
  unfold has_text, process_row. intros H. rewrite start_row_then.
  pose proof temperature_block as B1. pose proof humidity_block as B2.
  pose proof wind_block as B3.
  destruct (is_text (Temperature_C r)); [by apply raises_then|].
  destruct B1 as (rs1 & F1 & _). rewrite (fires_then E _ _ _ _ F1).
  destruct (is_text (Humidity_Percent r)); [by apply raises_then|].
  destruct B2 as (rs2 & F2 & _). rewrite (fires_then E _ _ _ _ F2).
  destruct (is_text (Wind_Speed_MPS r)); [by apply raises_then|].
  discriminate H.
Qed.

(** The requests of a row without text: one group per rule, in the order of
    the rules, each with the band of its own reading. *)
Lemma weather_row_requests :
  has_text r = false ->
  exists rs1 rs2 rs3 rs4,
    row_logs E (process_row E) (linked set_alert_id) r
      (rs1 ++ rs2 ++ rs3 ++ rs4)
    /\ map req_severity rs1
       = band2 (Temperature_C r) TEMP_CRITICAL_SEVERITY_THRESHOLD_C
           TEMP_LOW_SEVERITY_THRESHOLD_C
    /\ map req_severity rs2
       = band2 (Humidity_Percent r)
           HUMIDITY_CRITICAL_SEVERITY_THRESHOLD_PERCENT
           HUMIDITY_LOW_SEVERITY_THRESHOLD_PERCENT
    /\ map req_severity rs3
       = band2 (Wind_Speed_MPS r) WIND_CRITICAL_SEVERITY_THRESHOLD_MPS
           WIND_LOW_SEVERITY_THRESHOLD_MPS
    /\ map req_severity rs4
       = first_matching_cutoff
           [(any_in critical_rain_keywords
               (str_lower (Weather_Description r)), "Critical");
            (any_in low_severity_rain_keywords
               (str_lower (Weather_Description r)), "Low")]
    /\ (length (rs1 ++ rs2 ++ rs3 ++ rs4) <= 4)%nat
    /\ Forall weather_vocab (rs1 ++ rs2 ++ rs3 ++ rs4).
Proof.
  unfold has_text. intros H.
  apply orb_false_elim in H as [H H3]. apply orb_false_elim in H as [H1 H2].
  pose proof temperature_block as B1. pose proof humidity_block as B2.
  pose proof wind_block as B3.
  rewrite H1 in B1. rewrite H2 in B2. rewrite H3 in B3.
  destruct B1 as (rs1 & F1 & S1 & L1 & V1).
  destruct B2 as (rs2 & F2 & S2 & L2 & V2).
  destruct B3 as (rs3 & F3 & S3 & L3 & V3).
  destruct rain_block as (rs4 & F4 & S4 & L4 & V4).
  exists rs1, rs2, rs3, rs4.
  split; [|split; [exact S1|split; [exact S2|split; [exact S3|
    split; [exact S4|split]]]]].
  - apply row_logs_fire_all. intros st.
    unfold process_row. rewrite start_row_then.
    rewrite (fires_then E _ _ _ _ F1), (fires_then E _ _ _ _ F2),
      (fires_then E _ _ _ _ F3), (fires_then E _ _ _ _ F4).
    rewrite <- !fire_all_app. exact (link_after E (set_alert_id r) _ st).
  - rewrite !length_app. lia.
  - rewrite !Forall_app. tauto.
Qed.

End WeatherFacts.

(** * reviews_engine.py *)

Section ReviewsFacts.
Import Reviews.
Variable E : env.
Variable r : row.

(** A review gets the alert of the first tier that matches its title, from
    the most severe, and no other. *)
Lemma reviews_row_requests :
  exists rs,
    row_logs E (process_row E) (linked set_alert_id) r rs
    /\ map req_severity rs = tier_of (str_lower (review_title r))
    /\ (length rs <= 1)%nat
    /\ Forall reviews_vocab rs.
Proof.
  unfold tier_of, reviews_vocab. cbn [first_matching_cutoff].
  destruct (any_in CRITICAL_REVIEW_KEYWORDS (str_lower (review_title r)))
    eqn:H1;
    [|destruct (any_in MEDIUM_REVIEW_KEYWORDS (str_lower (review_title r)))
        eqn:H2;
      [|destruct (any_in LOW_REVIEW_KEYWORDS (str_lower (review_title r)))
          eqn:H3]].
  all: eexists; split;
    [ (eapply row_logs_join
       + (eapply row_logs_link; [apply fires_fire + apply fires_ret|]));
      intros st; unfold process_row, review_alert;
      rewrite start_row_then; use_tests; reflexivity
    | split; [reflexivity
             |split; [cbn; lia|repeat constructor; cbn; tauto]] ].
Qed.

End ReviewsFacts.

(** * social_media_trends_engine.py *)

Section SocialFacts.
Import SocialMedia.
Variable E : env.
Variable r : row.

Lemma social_speaks : speaks E social_vocab (process_row E r).
Proof.
  unfold process_row, rule_negative_sentiment, rule_viral_trend,
    rule_low_engagement, rule_campaign, negative_sentiment, viral_trend,
    low_engagement, social_vocab. speak.
Qed.

Lemma negative_block :
  block_spec E (rule_negative_sentiment E r) signals sig_negative
    (social_negative_band r).
Proof.
  unfold rule_negative_sentiment, social_negative_band, negative_sentiment,
    context_info.
  cbn zeta.
  destruct (to_numeric (sentiment_score r)) as [s|]; [|block_done E].
  cbn [first_matching_cutoff].
  destruct (num_lt s NEG_SENTIMENT_CRITICAL_THRESHOLD) eqn:H1.
  - destruct (notna_ge (to_numeric (mentions_count r))
                NEG_MENTIONS_CRITICAL_COUNT
              || notna_ge (to_numeric (virality_score r))
                   NEG_VIRALITY_CRITICAL_SCORE) eqn:H2;
      [destruct (to_numeric (mentions_count r)); block_done E|].
    destruct (notna_ge (to_numeric (mentions_count r))
                NEG_MENTIONS_MEDIUM_COUNT
              || notna_ge (to_numeric (virality_score r))
                   NEG_VIRALITY_MEDIUM_SCORE) eqn:H3;
      [destruct (to_numeric (mentions_count r)); block_done E|block_done E].
  - destruct (num_lt s NEG_SENTIMENT_MEDIUM_THRESHOLD) eqn:H2.
    + destruct (notna_ge (to_numeric (mentions_count r))
                  NEG_MENTIONS_MEDIUM_COUNT) eqn:H3;
        [destruct (to_numeric (mentions_count r)); block_done E|block_done E].
    + destruct (num_lt s NEG_SENTIMENT_LOW_THRESHOLD) eqn:H3;
        [destruct (to_numeric (mentions_count r)); block_done E|block_done E].
Qed.

Lemma viral_block :
  exists sevs, block_spec E (rule_viral_trend E r) signals sig_viral sevs.
Proof.
  unfold rule_viral_trend, viral_trend, context_info.
  destruct (notna_ge (to_numeric (sentiment_score r))
              POS_SENTIMENT_MIN_THRESHOLD) eqn:H0; [|some_block E].
  destruct (to_numeric (virality_score r)) as [v|]; [|some_block E].
  destruct (to_numeric (mentions_count r)) as [m|]; [|some_block E].
  destruct (num_ge v POS_VIRALITY_CRITICAL_SCORE
            && num_ge m POS_MENTIONS_CRITICAL_COUNT) eqn:H1; [some_block E|].
  destruct (num_ge v POS_VIRALITY_MEDIUM_SCORE
            && num_ge m POS_MENTIONS_MEDIUM_COUNT) eqn:H2; [some_block E|].
  destruct (num_ge v POS_VIRALITY_LOW_SCORE
            && num_ge m POS_MENTIONS_LOW_COUNT) eqn:H3; some_block E.
Qed.

Lemma engagement_block :
  block_spec E (rule_low_engagement E r) signals sig_engagement
    (social_engagement_band r).
Proof.
  unfold rule_low_engagement, social_engagement_band, low_engagement,
    context_info, band.
  destruct (truthy (influencer_id r)
            && negb (cell_is (influencer_id r) "None")) eqn:H0;
    [|block_done E].
  destruct (to_numeric (engagement_rate r)) as [e|]; [|block_done E].
  cbn [first_matching_cutoff].
  destruct (num_lt e LOW_ENGAGEMENT_CRITICAL_RATE) eqn:H1; [block_done E|].
  destruct (num_lt e LOW_ENGAGEMENT_MEDIUM_RATE) eqn:H2; [block_done E|].
  destruct (num_lt e LOW_ENGAGEMENT_LOW_RATE) eqn:H3; block_done E.
Qed.

Lemma campaign_block :
  exists sevs, block_spec E (rule_campaign E r) signals sig_campaign sevs.
Proof.
  unfold rule_campaign, context_info.
  destruct (negb (String.eqb (str_lower (campaign_mention r)) "none")
            && negb (String.eqb (str_lower (campaign_mention r)) "nan"))
    eqn:H0; [|some_block E].
  destruct (to_numeric (sentiment_score r)) as [s|]; [|some_block E].
  destruct (num_lt s 0.5) eqn:H1; [some_block E|].
  destruct (to_numeric (virality_score r)) as [v|]; [|some_block E].
  destruct (num_ge s 0.8 && num_ge v POS_VIRALITY_MEDIUM_SCORE) eqn:H2;
    some_block E.
Qed.

(** The negative-sentiment rule needs a score below 0.4, the viral-trend
    rule one of at least 0.6. *)
Lemma sentiment_rules_exclusive rs1 rs2 :
  fires E (rule_negative_sentiment E r) rs1 ->
  fires E (rule_viral_trend E r) rs2 ->
  (length rs1 + length rs2 <= 1)%nat.
Proof.
  intros F1 F2.
  destruct negative_block as (rs1' & F1' & L1 & _).
  destruct viral_block as (v2 & rs2' & F2' & L2 & _).
  rewrite <- (fires_unique E _ _ _ F1 F1') in L1.
  rewrite <- (fires_unique E _ _ _ F2 F2') in L2. clear F1' F2'.
  destruct rs1 as [|rq1 rs1]; [cbn; lia|].
  destruct rs2 as [|rq2 rs2]; [cbn in *; lia|]. exfalso.
  unfold rule_negative_sentiment in F1. unfold rule_viral_trend in F2.
  destruct (to_numeric (sentiment_score r)) as [s|]; [|dead_block E F1].
  cbn [notna_ge] in F2.
  destruct (num_ge s POS_SENTIMENT_MIN_THRESHOLD) eqn:H0; [|dead_block E F2].
  assert (s < 0.4)%Q as Hneg.
  { destruct (num_lt s NEG_SENTIMENT_CRITICAL_THRESHOLD) eqn:H1.
    - to_Q. unfold NEG_SENTIMENT_CRITICAL_THRESHOLD in *. lra.
    - destruct (num_lt s NEG_SENTIMENT_MEDIUM_THRESHOLD) eqn:H2.
      + to_Q. unfold NEG_SENTIMENT_MEDIUM_THRESHOLD in *. lra.
      + destruct (num_lt s NEG_SENTIMENT_LOW_THRESHOLD) eqn:H3;
          [|dead_block E F1].
        to_Q. unfold NEG_SENTIMENT_LOW_THRESHOLD in *. lra. }
  to_Q. unfold POS_SENTIMENT_MIN_THRESHOLD in *. lra.
Qed.

Lemma social_row_blocks :
  exists rs1 rs2 rs3 rs4,
    row_logs E (process_row E) (linked set_alert_id) r
      (rs1 ++ rs2 ++ rs3 ++ rs4)
    /\ block_spec_of signals sig_negative (social_negative_band r) rs1
    /\ (exists sevs, block_spec_of signals sig_viral sevs rs2)
    /\ block_spec_of signals sig_engagement (social_engagement_band r) rs3
    /\ (exists sevs, block_spec_of signals sig_campaign sevs rs4)
    /\ (length (rs1 ++ rs2 ++ rs3 ++ rs4) <= 3)%nat
    /\ Forall social_vocab (rs1 ++ rs2 ++ rs3 ++ rs4).
Proof.
  destruct negative_block as (rs1 & F1 & S1).
  destruct viral_block as (v2 & rs2 & F2 & S2).
  destruct engagement_block as (rs3 & F3 & S3).
  destruct campaign_block as (v4 & rs4 & F4 & S4).
  pose proof (sentiment_rules_exclusive rs1 rs2 F1 F2) as L12.
  assert (row_logs E (process_row E) (linked set_alert_id) r
            (rs1 ++ rs2 ++ rs3 ++ rs4)) as H.
  { apply row_logs_fire_all. intros st.
    unfold process_row. rewrite start_row_then.
    rewrite (fires_then E _ _ _ _ F1), (fires_then E _ _ _ _ F2),
      (fires_then E _ _ _ _ F3), (fires_then E _ _ _ _ F4).
    rewrite <- !fire_all_app. exact (link_after E (set_alert_id r) _ st). }
  exists rs1, rs2, rs3, rs4.
  split; [exact H|]. split; [exact S1|]. split; [by exists v2|].
  split; [exact S3|]. split; [by exists v4|]. split.
  - destruct S3 as (L3 & _). destruct S4 as (L4 & _).
    rewrite !length_app. rewrite length_app in L12 || idtac. lia.
  - eapply row_logs_speaks; [exact H|apply social_speaks].
Qed.

End SocialFacts.

(** * local_news_engine.py: whole runs *)

Ltac one_done E :=
  eexists; split;
  [ first [apply fires_fire | apply fires_ret]
  | split; [cbn; lia | repeat constructor; cbn; tauto] ].

Ltac split_ifs :=
  repeat (cbn [negb String.eqb Ascii.eqb Bool.eqb in_list existsb orb andb];
          match goal with
          | |- context [if ?b then _ else _] => destruct b eqn:?
          end).

Section LocalNewsRuns.
Import LocalNews.
Variable E : env.
Variable r : row.

Lemma severity_of_impact_vocab :
  In (severity_of_impact r) ["Critical"; "Medium"; "Low"].
Proof. unfold severity_of_impact. split_ifs; cbn; tauto. Qed.

Lemma news_weather_one s :
  In s ["Critical"; "Medium"; "Low"] ->
  at_most_one E news_vocab (rule_weather E r s).
Proof.
  unfold at_most_one, news_vocab, rule_weather.
  intros [<-|[<-|[<-|[]]]]; cbn zeta; split_ifs; one_done E.
Qed.

Lemma news_road_one s :
  In s ["Critical"; "Medium"; "Low"] ->
  at_most_one E news_vocab (rule_road E r s).
Proof.
  unfold at_most_one, news_vocab, rule_road.
  intros [<-|[<-|[<-|[]]]]; cbn zeta; split_ifs; one_done E.
Qed.

Lemma news_festival_one : at_most_one E news_vocab (rule_festival E r).
Proof.
  unfold at_most_one, news_vocab, rule_festival.
  cbn zeta; split_ifs; one_done E.
Qed.

Lemma local_news_row_unsafe st :
  unsafe E r = true -> process_row E r st = Raise NameError.
Proof.
  unfold unsafe. intros H. apply andb_prop in H as [Ha Hk].
  apply negb_true_iff in Ha.
  by apply local_news_public_safety_raises.
Qed.

Lemma local_news_row_logs :
  unsafe E r = false ->
  exists rs,
    row_logs E (process_row E) (news_out E) r rs
    /\ (length rs <= 3)%nat /\ Forall news_vocab rs.
Proof.
  unfold unsafe, news_out. intros H.
  destruct (inactive E r) eqn:Ha.
  { exists []. split; [|split; [cbn; lia|constructor]].
    intros [L c d cur]. exists cur. unfold process_row. rewrite Ha. cbn.
    by rewrite app_nil_r, !Nat.add_0_r. }
  cbn [negb andb] in H.
  destruct (news_weather_one _ severity_of_impact_vocab) as (rs1 & F1 & L1 & V1).
  destruct (news_road_one _ severity_of_impact_vocab) as (rs2 & F2 & L2 & V2).
  destruct news_festival_one as (rs3 & F3 & L3 & V3).
  exists (rs1 ++ rs2 ++ rs3). split; [|split].
  - intros st.
    destruct (row_logs_fire_all E (process_row E) set_alert_id r
                (rs1 ++ rs2 ++ rs3)) with (st := st) as (cur & Hb).
    { intros st'. unfold process_row. rewrite Ha, start_row_then, H.
      rewrite (fires_then E _ _ _ _ F1), (fires_then E _ _ _ _ F2),
        (fires_then E _ _ _ _ F3).
      rewrite <- !fire_all_app. exact (link_after E (set_alert_id r) _ st'). }
    exists cur. rewrite Ha. exact Hb.
  - rewrite !length_app. lia.
  - rewrite !Forall_app. tauto.
Qed.

End LocalNewsRuns.

(** * Runs that a row can stop *)

Section Guarded.
Variable E : env.
Context {R : Type}.
Variable body : R -> M R.
Variable out : R -> list string -> R.
Variable bad : R -> bool.
Variable e : exn.
Hypothesis bad_raises : forall r st, bad r = true -> body r st = Raise e.

Lemma iterrows_stops df st :
  (forall r, In r df -> bad r = false ->
     exists rs, row_logs E body out r rs) ->
  existsb bad df = true -> iterrows body df st = Raise e.
Proof.
  revert st. induction df as [|r df IH]; intros st Hok Hb; [discriminate Hb|].
  cbn [existsb] in Hb. cbn [iterrows]. unfold bind at 1.
  destruct (bad r) eqn:Hr.
  - by rewrite bad_raises.
  - destruct (Hok r (or_introl eq_refl) Hr) as (rs & Hl).
    destruct (Hl st) as (cur & ->). unfold bind.
    rewrite IH; [reflexivity| |exact Hb].
    intros r' Hin. apply Hok. by right.
Qed.

Lemma run_engine_guarded n cat sevs df L :
  (forall r, bad r = false ->
     exists rs, row_logs E body out r rs
                /\ (length rs <= n)%nat /\ Forall (vocab cat sevs) rs) ->
  if existsb bad df then run_engine body df L = Raise e
  else run_profile out n cat sevs df L (run_engine body df L).
Proof.
  intros Hok. destruct (existsb bad df) eqn:Hb.
  - unfold run_engine. rewrite iterrows_stops; [reflexivity| |exact Hb].
    intros r _ Hr. destruct (Hok r Hr) as (rs & Hl & _). by exists rs.
  - apply (run_engine_profile E). intros r Hin. apply Hok.
    destruct (bad r) eqn:Hr; [|reflexivity].
    assert (existsb bad df = true) as X
      by (apply existsb_exists; by exists r).
    congruence.
Qed.

End Guarded.

Lemma severity_records (E : env) k rs :
  map severity (records_from E k rs) = map req_severity rs.
Proof.
  revert k. induction rs as [|[[t c] s] rs IH]; intros k; cbn; [done|].
  by rewrite IH.
Qed.

(** * The alerts of a run depend on the rows only *)

Section Agree.
Variables E1 E2 : env.

Lemma agree_ret {A : Type} (V : A -> A -> Prop) a1 a2 :
  V a1 a2 -> agree E1 E2 V (ret a1) (ret a2).
Proof.
  intros H st1 st2. cbn. split; [exact H|]. exists [].
  split; apply appends_refl.
Qed.

Lemma agree_ret_tt : agree E1 E2 eq (ret tt) (ret tt).
Proof. by apply agree_ret. Qed.

Lemma agree_raise {A : Type} (V : A -> A -> Prop) e :
  agree E1 E2 V (raise e) (raise e).
Proof. intros st1 st2. reflexivity. Qed.

Lemma agree_fire t c s : agree E1 E2 eq (fire E1 t c s) (fire E2 t c s).
Proof.
  intros st1 st2. unfold fire. split; [reflexivity|]. exists [(t, c, s)].
  unfold appends.
  pose proof (fire_all_eq E1 [(t, c, s)] st1) as F1.
  pose proof (fire_all_eq E2 [(t, c, s)] st2) as F2.
  cbn [fire_all] in F1, F2. rewrite F1, F2. cbn. done.
Qed.

Lemma agree_start_row : agree E1 E2 eq start_row start_row.
Proof.
  intros st1 st2. cbn. split; [reflexivity|]. exists [].
  unfold appends. cbn. by rewrite !app_nil_r, !Nat.add_0_r.
Qed.

Lemma agree_bind {A B : Type} (V : A -> A -> Prop) (W : B -> B -> Prop)
    (m1 m2 : M A) (k1 k2 : A -> M B) :
  agree E1 E2 V m1 m2 ->
  (forall a1 a2, V a1 a2 -> agree E1 E2 W (k1 a1) (k2 a2)) ->
  agree E1 E2 W (bind m1 k1) (bind m2 k2).
Proof.
  intros Hm Hk st1 st2. unfold bind. specialize (Hm st1 st2).
  destruct (m1 st1) as [[a1 s1]|e1], (m2 st2) as [[a2 s2]|e2];
    try done.
  destruct Hm as (Hv & rs & A1 & A2). specialize (Hk a1 a2 Hv s1 s2).
  destruct (k1 a1 s1) as [[b1 t1]|e1], (k2 a2 s2) as [[b2 t2]|e2];
    try done.
  destruct Hk as (Hw & rs' & B1 & B2). split; [exact Hw|].
  exists (rs ++ rs'). split; eapply appends_trans; eassumption.
Qed.

Lemma agree_seq {B : Type} (W : B -> B -> Prop) (m1 m2 : M unit)
    (k1 k2 : M B) :
  agree E1 E2 eq m1 m2 -> agree E1 E2 W k1 k2 ->
  agree E1 E2 W (m1 >>> k1) (m2 >>> k2).
Proof. intros Hm Hk. apply (agree_bind eq); [exact Hm|]. by intros. Qed.

Lemma agree_bind_lift {A B : Type} (W : B -> B -> Prop) (x : result A)
    (k1 k2 : A -> M B) :
  (forall a, agree E1 E2 W (k1 a) (k2 a)) ->
  agree E1 E2 W (bind (lift x) k1) (bind (lift x) k2).
Proof.
  intros Hk. apply (agree_bind eq); [|by intros a ? <-].
  intros st1 st2. unfold lift. destruct x; [|reflexivity].
  split; [reflexivity|]. exists []. split; apply appends_refl.
Qed.

Lemma agree_bind_link {B : Type} (W : B -> B -> Prop)
    (k1 k2 : option string -> M B) :
  (forall a1 a2, agree E1 E2 W (k1 a1) (k2 a2)) ->
  agree E1 E2 W (bind link k1) (bind link k2).
Proof.
  intros Hk. apply (agree_bind any_value); [|by intros].
  intros st1 st2. cbn. split; [exact I|]. exists [].
  split; apply appends_refl.
Qed.

Lemma agree_bind_link_join {B : Type} (W : B -> B -> Prop)
    (k1 k2 : option string -> M B) :
  (forall a1 a2, agree E1 E2 W (k1 a1) (k2 a2)) ->
  agree E1 E2 W (bind link_join k1) (bind link_join k2).
Proof.
  intros Hk. apply (agree_bind any_value); [|by intros].
  intros st1 st2. cbn. split; [exact I|]. exists [].
  split; apply appends_refl.
Qed.

Context {R : Type}.
Variables body1 body2 : R -> M R.
Hypothesis bodies_agree :
  forall r, agree E1 E2 any_value (body1 r) (body2 r).

Lemma agree_iterrows df :
  agree E1 E2 any_value (iterrows body1 df) (iterrows body2 df).
Proof.
  induction df as [|r df IH]; cbn [iterrows]; [by apply agree_ret|].
  eapply agree_bind; [apply bodies_agree|]. intros r1 r2 _.
  eapply agree_bind; [apply IH|]. intros d1 d2 _. by apply agree_ret.
Qed.

Lemma agree_run_engine df L1 L2 :
  same_alerts E1 E2 L1 L2 (run_engine body1 df L1) (run_engine body2 df L2).
Proof.
  unfold same_alerts, run_engine.
  pose proof (agree_iterrows df (mkState L1 0 0 []) (mkState L2 0 0 [])) as H.
  destruct (iterrows body1 df _) as [[d1 [L1' ? ? ?]]|e1],
           (iterrows body2 df _) as [[d2 [L2' ? ? ?]]|e2]; try done.
  destruct H as (_ & rs & [A1 _] & [A2 _]). cbn in A1, A2. by exists rs.
Qed.

End Agree.

Ltac agree_rows :=
  repeat first
    [ apply agree_ret_tt | apply agree_raise | apply agree_fire
    | apply agree_start_row
    | apply agree_ret; exact I
    | match goal with
      | |- agree _ _ _ (if ?b then _ else _) (if ?b then _ else _) =>
          destruct b
      | |- agree _ _ _ (match ?x with _ => _ end)
             (match ?x with _ => _ end) => destruct x
      end
    | apply agree_bind_lift; intros ?
    | apply agree_bind_link; intros ? ?
    | apply agree_bind_link_join; intros ? ?
    | apply agree_seq ].

Lemma supplier_rows_agree E1 E2 r :
  agree E1 E2 any_value (Supplier.process_row E1 r) (Supplier.process_row E2 r).
Proof.
  unfold Supplier.process_row, Supplier.rule_otd, Supplier.rule_defect_rate,
    Supplier.rule_quality_score, Supplier.rule_lead_time. agree_rows.
Qed.

Lemma inventory_rows_agree E1 E2 r :
  agree E1 E2 any_value (Inventory.process_row E1 r)
    (Inventory.process_row E2 r).
Proof.
  unfold Inventory.process_row, Inventory.rule_stockout,
    Inventory.rule_overstock, Inventory.rule_discrepancy,
    Inventory.rule_slow_moving, Inventory.rule_high_sales. cbn zeta.
  agree_rows.
Qed.

Lemma ecommerce_rows_agree E1 E2 r :
  agree E1 E2 any_value (Ecommerce.process_row E1 r)
    (Ecommerce.process_row E2 r).
Proof.
  unfold Ecommerce.process_row, Ecommerce.rule_conversion_rate,
    Ecommerce.rule_cart_abandonment, Ecommerce.rule_online_views,
    Ecommerce.rule_add_to_cart, Ecommerce.rule_high_interest. cbn zeta.
  agree_rows.
Qed.

Lemma weather_rows_agree E1 E2 r :
  agree E1 E2 any_value (Weather.process_row E1 r) (Weather.process_row E2 r).
Proof.
  unfold Weather.process_row, Weather.rule_temperature, Weather.rule_humidity,
    Weather.rule_wind, Weather.rule_rain. cbn zeta. agree_rows.
Qed.

Lemma reviews_rows_agree E1 E2 r :
  agree E1 E2 any_value (Reviews.process_row E1 r) (Reviews.process_row E2 r).
Proof.
  unfold Reviews.process_row, Reviews.review_alert. agree_rows.
Qed.

Lemma social_rows_agree E1 E2 r :
  agree E1 E2 any_value (SocialMedia.process_row E1 r)
    (SocialMedia.process_row E2 r).
Proof.
  unfold SocialMedia.process_row, SocialMedia.rule_negative_sentiment,
    SocialMedia.rule_viral_trend, SocialMedia.rule_low_engagement,
    SocialMedia.rule_campaign, SocialMedia.negative_sentiment,
    SocialMedia.viral_trend, SocialMedia.low_engagement. agree_rows.
Qed.

(** * generate_alert_id: the shape of an ID *)

Lemma b64_char_in n : (0 <= n < 64)%Z -> In (b64_char n) b64_alphabet.
Proof.
  intros H. unfold b64_char. apply nth_In.
  change (length b64_alphabet) with 64%nat. lia.
Qed.

Lemma alphabet_plain :
  forallb (fun c => negb (Ascii.eqb c pad) && negb (Ascii.eqb c ","%char))
    b64_alphabet = true.
Proof. vm_compute. reflexivity. Qed.

Lemma generate_alert_id_chars (u : list byte) :
  length u = 16%nat ->
  exists cs,
    generate_alert_id u = string_of_list_ascii cs
    /\ length cs = 22%nat /\ Forall (fun c => In c b64_alphabet) cs.
Proof.
  intros H. do 17 (destruct u as [|? u]; try discriminate H).
  unfold generate_alert_id. cbn [urlsafe_b64encode].
  repeat rewrite (rstrip_cons (b64_char _))
    by (apply b64_char_not_pad;
        first [apply sx1 | apply sx2 | apply sx3 | apply sx4 | apply sx2_last]).
  change (rstrip pad [pad; pad]) with (@nil ascii).
  eexists. split; [reflexivity|]. split; [reflexivity|].
  repeat (apply List.Forall_cons;
          [apply b64_char_in;
           first [apply sx1 | apply sx2 | apply sx3 | apply sx4
                 | apply sx2_last]|]).
  apply List.Forall_nil.
Qed.

(** * app.py: the size of the sample *)

Section SampleSize.
Import Dashboard.
Variable rand : random_source.
Variable df_raw : list AlertRecord.

Lemma sample_categories_length k cap (cs : list string) :
  (length (sample_categories rand k df_raw cap cs) <= cap * length cs)%nat.
Proof.
  revert k. induction cs as [|c cs IH]; intros k; cbn [sample_categories];
    [cbn; lia|].
  rewrite length_app, sample_length.
  match goal with
  | |- (_ + length (sample_categories _ ?k' _ _ _) <= _)%nat =>
      specialize (IH k')
  end.
  cbn [length]. rewrite Nat.mul_succ_r, (Nat.add_comm (cap * _)).
  apply Nat.add_le_mono; [|exact IH].
  etransitivity; [apply Nat.le_min_l|apply Nat.le_min_r].
Qed.

Lemma process_alerts_length cap :
  (length (process_alerts rand df_raw cap)
   <= cap * length (unique (map category df_raw)))%nat.
Proof.
  unfold process_alerts. destruct (is_empty df_raw); [cbn; lia|].
  destruct (is_empty _); [cbn; lia|].
  rewrite (Permutation_length (shuffle_perm _ _ _)).
  etransitivity; [apply sample_categories_length|].
  by rewrite (Permutation_length (shuffle_perm _ _ _)).
Qed.

End SampleSize.

Lemma severity_buckets (df : list AlertRecord) :
  (Dashboard.count_severity "critical" df
   + Dashboard.count_severity "medium" df
   + Dashboard.count_severity "low" df <= length df)%nat.
Proof.
  unfold Dashboard.count_severity.
  induction df as [|a df IH]; [cbn; lia|].
  rewrite !filter_cons.
  repeat case_decide; cbn [length]; first [lia | exfalso; congruence].
Qed.

Lemma total_alerts_length (df : list AlertRecord) :
  Dashboard.total_alerts (Dashboard.summary_of df) = length df.
Proof. by destruct df. Qed.

Lemma unique_one_category (c : string) (l : list string) :
  Forall (fun x => x = c) l -> (length (Dashboard.unique l) <= 1)%nat.
Proof.
  intros H. assert (Dashboard.unique l = [] \/ Dashboard.unique l = [c])
    as [->| ->]; [|cbn; lia..].
  induction H as [|x l -> _ IH]; [by left|]. right.
  cbn [Dashboard.unique]. destruct IH as [->| ->]; [reflexivity|].
  rewrite filter_cons. by destruct (decide (c <> c)).
Qed.

(** * Keywords that contain other keywords *)

Lemma contains_prefix_app (a b s : string) :
  String.prefix (String.append a b) s = true -> contains b s = true.
Proof.
  revert s. induction a as [|c a IH]; intros s H.
  - change (String.prefix b s = true) in H.
    destruct s; cbn [contains]; by rewrite H.
  - change (String.prefix (String c (String.append a b)) s = true) in H.
    destruct s as [|c' s]; [discriminate H|]. cbn [String.prefix] in H.
    destruct (Ascii.ascii_dec c c'); [|discriminate H].
    cbn [contains]. rewrite (IH s H). apply orb_true_r.
Qed.

Lemma contains_app_r (a b s : string) :
  contains (String.append a b) s = true -> contains b s = true.
Proof.
  induction s as [|c s IH]; cbn [contains]; intros H.
  - rewrite orb_false_r in H. by apply contains_prefix_app in H.
  - apply orb_prop in H as [H|H]; [by apply contains_prefix_app in H|].
    cbn [contains] in IH. rewrite (IH H). apply orb_true_r.
Qed.

Lemma minor_issue_is_issue s :
  contains "minor issue" s = true -> contains "issue" s = true.
Proof. apply (contains_app_r "minor " "issue"). Qed.

Lemma flash_flood_is_flood s :
  contains "flash flood" s = true -> contains "flood" s = true.
Proof. apply (contains_app_r "flash " "flood"). Qed.

Lemma any_in_intro kw kws s :
  In kw kws -> contains kw s = true -> any_in kws s = true.
Proof.
  intros Hin H. unfold any_in. apply existsb_exists. by exists kw.
Qed.

(** * local_news_engine.py: the weather rule *)

Section LocalNewsWeather.
Import LocalNews.
Variable E : env.
Variable r : row.

Lemma news_weather_fires :
  contains "weather alert" (str_lower (event_type r)) = true ->
  exists t s,
    fires E (rule_weather E r (severity_of_impact r))
      [(t, "Local News/Events", s)]
    /\ mentions " Weather Alert: " t = true
    /\ (sev_rank (severity_of_impact r) <= sev_rank s)%nat
    /\ (1 <= sev_rank s)%nat
    /\ (any_in WEATHER_CRITICAL_KEYWORDS (str_lower (description r)) = true ->
        s = "Critical").
Proof.
  intros Hw. unfold rule_weather. rewrite Hw. cbn zeta.
  pose proof (severity_of_impact_vocab r) as [<-|[<-|[<-|[]]]].
  all: destruct (any_in WEATHER_CRITICAL_KEYWORDS (str_lower (description r))),
         (pop_at_least r POP_CRITICAL_THRESHOLD),
         (any_in WEATHER_MEDIUM_KEYWORDS (str_lower (description r))
          || pop_at_least r POP_MEDIUM_THRESHOLD),
         (any_in WEATHER_LOW_KEYWORDS (str_lower (description r))
          || pop_at_least r POP_LOW_THRESHOLD);
    cbn [orb negb in_list existsb String.eqb Ascii.eqb Bool.eqb];
    eexists _, _; (split; [apply fires_fire|]);
    (split; [reflexivity|]); (split; [cbn; lia|]); (split; [cbn; lia|]);
    intros; first [reflexivity | discriminate].
Qed.

End LocalNewsWeather.

(** * The profiles of the engines *)

Lemma row_logs_result (E : env) {R : Type} (body : R -> M R)
    (out : R -> list string -> R) (r : R) (rs : list request) st :
  row_logs E body out r rs ->
  exists st',
    body r st = Ok (out r (ids_from E (draws st) rs), st')
    /\ new_records st st' = records_from E (draws st) rs.
Proof.
  intros H. destruct (H st) as (cur & Hb). eexists. split; [exact Hb|].
  unfold new_records. cbn. by rewrite drop_app_length.
Qed.

Lemma supplier_profile (E : env) df L :
  run_profile (linked Supplier.set_alert_id) 4 "Supplier Performance"
    ["Critical"; "Medium"; "Low"] df L (Supplier.supplier_rule_engine E df L).
Proof.
  apply (run_engine_profile E). intros r _. apply supplier_row_logs.
Qed.

Lemma inventory_profile (E : env) df L :
  run_profile (linked Inventory.set_alert_id) 4 "Inventory"
    ["Critical"; "Medium"; "Low"] df L
    (Inventory.inventory_rule_engine E df L).
Proof.
  apply (run_engine_profile E). intros r _. apply inventory_row_logs.
Qed.

Lemma logistics_profile (E : env) df L :
  run_profile (linked Logistics.set_alert_id) 1 "Logistics/Supply Chain"
    ["Critical"; "Info"] df L (Logistics.logistics_rule_engine E df L).
Proof.
  apply (run_engine_profile E). intros r _. apply logistics_row_logs.
Qed.

Lemma reviews_profile (E : env) df L :
  run_profile (linked Reviews.set_alert_id) 1 "Customer Reviews"
    ["Critical"; "Medium"; "Low"] df L (Reviews.reviews_rule_engine E df L).
Proof.
  apply (run_engine_profile E). intros r _.
  destruct (reviews_row_requests E r) as (rs & H & _ & Hl & Hv).
  by exists rs.
Qed.

Lemma social_profile (E : env) df L :
  run_profile (linked SocialMedia.set_alert_id) 3 "Social Media Trends"
    ["Critical"; "Medium"; "Low"] df L
    (SocialMedia.social_media_trends_rule_engine E df L).
Proof.
  apply (run_engine_profile E). intros r _.
  destruct (social_row_blocks E r)
    as (rs1 & rs2 & rs3 & rs4 & H & _ & _ & _ & _ & Hl & Hv).
  by exists (rs1 ++ rs2 ++ rs3 ++ rs4).
Qed.

Lemma weather_profile (E : env) df L :
  if existsb Weather.has_text (List.filter Weather.fetched df)
  then Weather.weather_rule_engine E df L = Raise ValueError
  else run_profile (linked Weather.set_alert_id) 4 "Weather"
         ["Critical"; "Low"] (List.filter Weather.fetched df) L
         (Weather.weather_rule_engine E df L).
Proof.
  unfold Weather.weather_rule_engine.
  apply (run_engine_guarded E).
  - intros r st. apply weather_row_raises.
  - intros r Hr.
    destruct (weather_row_requests E r Hr)
      as (rs1 & rs2 & rs3 & rs4 & H & _ & _ & _ & _ & Hl & Hv).
    by exists (rs1 ++ rs2 ++ rs3 ++ rs4).
Qed.

Lemma ecommerce_profile (E : env) df L :
  if existsb Ecommerce.has_text df
  then Ecommerce.ecommerce_rule_engine E df L = Raise ValueError
  else run_profile (linked Ecommerce.set_alert_id) 4 "E-commerce"
         ["Critical"; "Medium"; "Low"] df L
         (Ecommerce.ecommerce_rule_engine E df L).
Proof.
  apply (run_engine_guarded E).
  - intros r st. apply ecommerce_row_raises.
  - intros r. apply ecommerce_row_logs.
Qed.

Lemma local_news_profile (E : env) df L :
  if existsb (unsafe E) df
  then LocalNews.local_news_rule_engine E df L = Raise NameError
  else run_profile (news_out E) 3 "Local News/Events"
         ["Critical"; "Medium"; "Low"] df L
         (LocalNews.local_news_rule_engine E df L).
Proof.
  apply (run_engine_guarded E).
  - intros r st. apply local_news_row_unsafe.
  - intros r. apply local_news_row_logs.
Qed.

(** * The main blocks *)

Lemma main_returns {R : Type}
    (engine : list R -> list AlertRecord -> result (list R * list AlertRecord))
    (fs : Main.files R) df' L' :
  is_empty (Main.load_data (Main.data_csv fs)) = false ->
  engine (Main.load_data (Main.data_csv fs))
    (Main.load_data (Main.alerts_csv fs)) = Ok (df', L') ->
  Main.main engine fs
  = (Main.mkFiles (Main.data_csv fs) (Some L') (Some df'), None).
Proof. intros He Hr. unfold Main.main. by rewrite He, Hr. Qed.

Lemma main_raises {R : Type}
    (engine : list R -> list AlertRecord -> result (list R * list AlertRecord))
    (fs : Main.files R) e :
  is_empty (Main.load_data (Main.data_csv fs)) = false ->
  engine (Main.load_data (Main.data_csv fs))
    (Main.load_data (Main.alerts_csv fs)) = Raise e ->
  Main.main engine fs = (fs, Some e).
Proof. intros He Hr. unfold Main.main. by rewrite He, Hr. Qed.

Lemma main_without_data {R : Type}
    (engine : list R -> list AlertRecord -> result (list R * list AlertRecord))
    (fs : Main.files R) :
  is_empty (Main.load_data (Main.data_csv fs)) = true ->
  Main.main engine fs = (fs, None).
Proof. intros He. unfold Main.main. by rewrite He. Qed.

(** * The counter of a run *)

Lemma iterrows_count (E : env) {R : Type} (body : R -> M R)
    (out : R -> list string -> R) (df : list R) (L : list AlertRecord) :
  (forall r, exists rs, row_logs E body out r rs) ->
  exists df' st',
    iterrows body df (mkState L 0 0 []) = Ok (df', st')
    /\ alerts_generated_count st' = (length (alerts_df st') - length L)%nat
    /\ take (length L) (alerts_df st') = L.
Proof.
  intros H.
  assert (exists rss, Forall2 (row_logs E body out) df rss) as (rss & F).
  { induction df as [|r df (rss & IH)]; [by exists []|].
    destruct (H r) as (rs & Hr). exists (rs :: rss). by constructor. }
  destruct (iterrows_logs E body out df rss (mkState L 0 0 []) F)
    as (st' & I & A & _ & C).
  exists (link_rows E out 0 df rss), st'. split; [exact I|].
  cbn in A, C. rewrite A, C, length_app, records_from_length, take_app_length.
  split; [lia|reflexivity].
Qed.

(** * Properties of whole runs *)

(** X1. For every 16-byte UUID the alert ID has 22 characters, all of the
    URL-safe Base64 alphabet: no padding sign is left, and no comma, the
    separator under which the IDs of a row are joined. *)
Theorem alert_id_shape (u : list byte) :
  length u = 16%nat ->
  String.length (generate_alert_id u) = 22%nat
  /\ Forall (fun c => In c b64_alphabet /\ c <> pad /\ c <> ","%char)
       (list_ascii_of_string (generate_alert_id u)).
Proof.
  intros H. destruct (generate_alert_id_chars u H) as (cs & -> & L & F).
  split.
  - rewrite <- L. clear. induction cs as [|c cs IH]; cbn; [done|].
    by rewrite IH.
  - rewrite list_ascii_of_string_of_list_ascii.
    pose proof alphabet_plain as P. rewrite forallb_forall in P.
    eapply List.Forall_impl; [|exact F]. intros c Hc. specialize (P c Hc).
    apply andb_prop in P as [P1 P2]. split; [exact Hc|].
    split; intros ->; by rewrite Ascii.eqb_refl in *.
Qed.

Lemma alert_id_shape_witness :
  String.length (generate_alert_id (example_uuid x00)) = 22%nat.
Proof. apply (alert_id_shape (example_uuid x00)). reflexivity. Defined.

(** X2. Two different 16-byte UUIDs never get the same alert ID. *)
Theorem alert_id_encoding_injective (u1 u2 : list byte) :
  length u1 = 16%nat -> length u2 = 16%nat -> u1 <> u2 ->
  generate_alert_id u1 <> generate_alert_id u2.
Proof.
  intros H1 H2 Hne Heq. apply Hne. by apply generate_alert_id_inj.
Qed.

Lemma alert_id_encoding_injective_witness :
  generate_alert_id (example_uuid x00) <> generate_alert_id (example_uuid x01).
Proof.
  apply (alert_id_encoding_injective (example_uuid x00) (example_uuid x01));
    [reflexivity | reflexivity | discriminate].
Defined.






(** X7. The Low keyword minor issue never decides a tier: a title that
    holds it holds the Medium keyword issue, so the review is reported as
    Medium, or as Critical when a Critical keyword occurs too. *)
Theorem reviews_minor_issue_shadowed (E : env) (r : Reviews.row)
    (st : run_state) :
  contains "minor issue" (str_lower (Reviews.review_title r)) = true ->
  In "minor issue" Reviews.LOW_REVIEW_KEYWORDS
  /\ exists r' st' a,
       Reviews.process_row E r st = Ok (r', st')
       /\ new_records st st' = [a]
       /\ (severity a = "Critical" \/ severity a = "Medium").
Proof.
  intros Hk. split; [cbn; tauto|].
  destruct (reviews_row_requests E r) as (rs & H & S & Hl & _).
  destruct (row_logs_result E _ _ r rs st H) as (st' & Hb & N).
  assert (any_in Reviews.MEDIUM_REVIEW_KEYWORDS
            (str_lower (Reviews.review_title r)) = true) as Hm.
  { apply (any_in_intro "issue"); [cbn; tauto|].
    by apply minor_issue_is_issue. }
  unfold Reviews.tier_of in S. cbn [first_matching_cutoff] in S.
  rewrite Hm in S.
  assert (exists s, map req_severity rs = [s]
                    /\ (s = "Critical" \/ s = "Medium")) as (s & S' & Hs).
  { rewrite S.
    destruct (any_in Reviews.CRITICAL_REVIEW_KEYWORDS
                (str_lower (Reviews.review_title r)));
      eexists; split; first [reflexivity | tauto]. }
  clear S. destruct rs as [|[[t c] s'] [|rq rs]]; try discriminate S'.
  injection S' as ->.
  eexists _, st', _. split; [exact Hb|]. rewrite N. cbn.
  split; [reflexivity|exact Hs].
Qed.

Lemma reviews_minor_issue_shadowed_witness :
  exists r' st' a,
    Reviews.process_row example_env minor_issue_example state0 = Ok (r', st')
    /\ new_records state0 st' = [a]
    /\ (severity a = "Critical" \/ severity a = "Medium").
Proof.
  apply (reviews_minor_issue_shadowed example_env minor_issue_example state0).
  reflexivity.
Defined.


(** The records of a row of the social media engine, by rule. *)
Lemma social_row_about (E : env) (r : SocialMedia.row) (st : run_state) :
  exists r' st',
    SocialMedia.process_row E r st = Ok (r', st')
    /\ map severity (about SocialMedia.sig_negative (new_records st st'))
       = social_negative_band r
    /\ map severity (about SocialMedia.sig_engagement (new_records st st'))
       = social_engagement_band r.
Proof.
  destruct (social_row_blocks E r)
    as (rs1 & rs2 & rs3 & rs4 & H & (L1 & T1 & S1) & (v2 & L2 & T2 & S2)
        & (L3 & T3 & S3) & (v4 & L4 & T4 & S4) & _).
  destruct (row_logs_result E _ _ r _ st H) as (st' & Hb & N).
  eexists _, st'. split; [exact Hb|]. rewrite N, !severity_about.
  pick_block. by split.
Qed.












(** X17. What a run logs depends on the rows alone.  Run on the same frame
    with two different loaded logs, two different sources of UUIDs and two
    different clocks, each of the six engines that do not read the clock
    either raises the same exception twice or appends records with the same
    titles, categories and severities in the same order: no engine looks
    at the loaded log, so none skips an alert that the log already
    holds. *)
Theorem alerts_depend_on_rows_only (E1 E2 : env) (L1 L2 : list AlertRecord)
    (ecommerce_df : list Ecommerce.row) (supplier_df : list Supplier.row)
    (inventory_df : list Inventory.row) (weather_df : list Weather.row)
    (reviews_df : list Reviews.row)
    (social_media_df : list SocialMedia.row) :
  same_alerts E1 E2 L1 L2
    (Ecommerce.ecommerce_rule_engine E1 ecommerce_df L1)
    (Ecommerce.ecommerce_rule_engine E2 ecommerce_df L2)
  /\ same_alerts E1 E2 L1 L2
       (Supplier.supplier_rule_engine E1 supplier_df L1)
       (Supplier.supplier_rule_engine E2 supplier_df L2)
  /\ same_alerts E1 E2 L1 L2
       (Inventory.inventory_rule_engine E1 inventory_df L1)
       (Inventory.inventory_rule_engine E2 inventory_df L2)
  /\ same_alerts E1 E2 L1 L2
       (Weather.weather_rule_engine E1 weather_df L1)
       (Weather.weather_rule_engine E2 weather_df L2)
  /\ same_alerts E1 E2 L1 L2
       (Reviews.reviews_rule_engine E1 reviews_df L1)
       (Reviews.reviews_rule_engine E2 reviews_df L2)
  /\ same_alerts E1 E2 L1 L2
       (SocialMedia.social_media_trends_rule_engine E1 social_media_df L1)
       (SocialMedia.social_media_trends_rule_engine E2 social_media_df L2).
Proof.
  split; [apply agree_run_engine, ecommerce_rows_agree|].
  split; [apply agree_run_engine, supplier_rows_agree|].
  split; [apply agree_run_engine, inventory_rows_agree|].
  split; [apply agree_run_engine, weather_rows_agree|].
  split; [apply agree_run_engine, reviews_rows_agree|].
  apply agree_run_engine, social_rows_agree.
Qed.

(** * The main blocks *)









(** * The dashboard *)

(** X22. For every log and every outcome of the random choices, the four
    summary cards satisfy: Critical, Medium and Low together never exceed
    the total (an Info record is counted in the total only); the total is
    at most the number of records of the log, and at most four times the
    number of distinct categories in it. *)
Theorem dashboard_summary_bounds (rand : Dashboard.random_source)
    (df_raw_alerts : list AlertRecord) :
  let s := Dashboard.dashboard_summary rand df_raw_alerts in
  (Dashboard.critical_alerts s + Dashboard.medium_alerts s
   + Dashboard.low_alerts s <= Dashboard.total_alerts s)%nat
  /\ (Dashboard.total_alerts s <= length df_raw_alerts)%nat
  /\ (Dashboard.total_alerts s
      <= 4 * length (Dashboard.unique (map category df_raw_alerts)))%nat.
Proof.
  cbn zeta. unfold Dashboard.dashboard_summary.
  set (df := Dashboard.process_alerts rand df_raw_alerts 4).
  split; [|split].
  - unfold Dashboard.summary_of. destruct (is_empty df); cbn; [lia|].
    apply severity_buckets.
  - rewrite total_alerts_length. apply submseteq_length.
    apply process_alerts_submseteq.
  - rewrite total_alerts_length. apply process_alerts_length.
Qed.




